(** * Intelligent data agents: capability protocol, intent classifier,
      strategy selector and execution engine

    A shallow embedding of the orchestrator core of
    [orchestrator-api] (mcp/base.py, llm/gemini_client.py,
    llm/pattern_analyzer.py, agents/orchestrator.py and the
    [handle_request] entry points of the agents), followed by the
    properties of the specification that were checked against it.

    Conventions of the embedding.
    - A Python [str] is a [string]: a sequence of bytes (UTF-8).  [lower],
      [strip] and [isspace] act on the ASCII range and [len] counts bytes;
      on ASCII text they coincide with Python's.
    - A Python value of type [Any] is a [PyVal] (the JSON fragment).
    - A [dict] whose insertion order is observable is an association list
      with the update discipline of Python (an existing key keeps its
      position); a registry that is only looked up is a [gmap].
    - An [async def] is run to completion: a coroutine is the function
      that yields its outcome.  Only instances of [Exception] are
      modelled as raised values ([Raise]); signals deriving from
      [BaseException] alone (cancellation, interpreter exit) are outside
      the model.
    - Logging is dropped; the wall-clock field [execution_time] is not
      modelled. *)

From Stdlib Require Import ZArith QArith Lia List Ascii String Bool.
From stdpp Require Import base strings list gmap pretty.

Open Scope string_scope.

(* ===================================================================== *)
(** * Part I.  The embedding                                              *)
(* ===================================================================== *)

(** ** Python values, exceptions and outcomes *)

Module Py.

#[warnings="-register-all"]
Inductive PyVal : Type :=
| PNone
| PBool (b : bool)
| PInt (z : Z)
| PFloat (q : Q)
| PStr (s : string)
| PList (l : list PyVal)
| PDict (d : list (string * PyVal)).

(** An instance of [Exception]: its class name and [str(e)]. *)
Record PyExn : Type := MkExn { exn_class : string; exn_msg : string }.

Inductive Outcome (A : Type) : Type :=
| Ok (a : A)
| Raise (e : PyExn).
Arguments Ok {A} a.
Arguments Raise {A} e.

Definition obind {A B} (o : Outcome A) (k : A -> Outcome B) : Outcome B :=
  match o with
  | Ok a => k a
  | Raise e => Raise e
  end.

(** [try: body / except Exception as e: handler(e)] for pure code. *)
Definition try_except {A} (body : Outcome A) (handler : PyExn -> Outcome A)
  : Outcome A :=
  match body with
  | Ok a => Ok a
  | Raise e => handler e
  end.

Definition is_ok {A} (o : Outcome A) : bool :=
  match o with Ok _ => true | Raise _ => false end.

Definition KeyError (k : string) : PyExn := MkExn "KeyError" ("'" +:+ k +:+ "'").
Definition AttributeError (cls attr : string) : PyExn :=
  MkExn "AttributeError"
        ("'" +:+ cls +:+ "' object has no attribute '" +:+ attr +:+ "'").
Definition StopIteration : PyExn := MkExn "StopIteration" "".
Definition IndexError : PyExn := MkExn "IndexError" "list index out of range".
Definition ValueError (m : string) : PyExn := MkExn "ValueError" m.
Definition TypeError (m : string) : PyExn := MkExn "TypeError" m.
Definition Exception (m : string) : PyExn := MkExn "Exception" m.

(** [bool(v)]: Python truthiness. *)
Definition truthy (v : PyVal) : bool :=
  match v with
  | PNone => false
  | PBool b => b
  | PInt z => negb (z =? 0)%Z
  | PFloat q => negb (Qeq_bool q 0)
  | PStr s => negb (String.eqb s "")
  | PList l => match l with [] => false | _ => true end
  | PDict d => match d with [] => false | _ => true end
  end.

(** Truthiness of an [Optional[str]]. *)
Definition truthy_opt_str (o : option string) : bool :=
  match o with
  | None => false
  | Some s => negb (String.eqb s "")
  end.

(** *** Strings *)

Definition ascii_lower (c : ascii) : ascii :=
  let n := nat_of_ascii c in
  if (65 <=? n)%nat && (n <=? 90)%nat then ascii_of_nat (n + 32) else c.

(** [str.isspace] on one ASCII character: TAB..CR, FS..US, SPACE. *)
Definition ascii_isspace (c : ascii) : bool :=
  let n := nat_of_ascii c in
  ((9 <=? n)%nat && (n <=? 13)%nat) || ((28 <=? n)%nat && (n <=? 32)%nat).

(** [str.lower] and [str.strip] as they act on ASCII text ([is_ascii]
    below): a byte outside the ASCII range is left as it is by [lower]
    and is not white space for [strip], whereas Python also lowers the
    letters and strips the white space that lie outside that range. *)
Fixpoint lower (s : string) : string :=
  match s with
  | EmptyString => EmptyString
  | String c s' => String (ascii_lower c) (lower s')
  end.

Fixpoint lstrip (s : string) : string :=
  match s with
  | EmptyString => EmptyString
  | String c s' => if ascii_isspace c then lstrip s' else s
  end.

(** [rstrip]: a character is kept when something after it survives or
    when it is not white space itself. *)
Fixpoint rstrip (s : string) : string :=
  match s with
  | EmptyString => EmptyString
  | String c s' =>
      match rstrip s' with
      | EmptyString => if ascii_isspace c then EmptyString else String c EmptyString
      | r => String c r
      end
  end.

Definition strip (s : string) : string := rstrip (lstrip s).

(** The text is ASCII: every character is below 128.  On such text
    [lower], [strip] and the length are those of Python. *)
Fixpoint is_ascii (s : string) : bool :=
  match s with
  | EmptyString => true
  | String c s' => (nat_of_ascii c <? 128)%nat && is_ascii s'
  end.

(** [needle in hay] on strings. *)
Fixpoint str_in (needle hay : string) : bool :=
  match hay with
  | EmptyString => String.prefix needle EmptyString
  | String _ hay' => String.prefix needle hay || str_in needle hay'
  end.

(** [any(word in text for word in words)]. *)
Definition any_in (words : list string) (text : string) : bool :=
  existsb (fun w => str_in w text) words.

(** [sum(1 for word in words if word in text)]. *)
Definition count_in (words : list string) (text : string) : Z :=
  Z.of_nat (length (filter (fun w => str_in w text = true) words)).

(** [x in xs] on a list of strings. *)
Definition list_in (x : string) (xs : list string) : bool :=
  existsb (String.eqb x) xs.

(** *** Insertion-ordered dictionaries with string keys *)

Section Dict.
Context {V : Type}.

Fixpoint dict_get (d : list (string * V)) (k : string) : option V :=
  match d with
  | [] => None
  | (k', v) :: d' => if String.eqb k' k then Some v else dict_get d' k
  end.

Definition dict_has (d : list (string * V)) (k : string) : bool :=
  match dict_get d k with Some _ => true | None => false end.

(** [d[k] = v]: an existing key keeps its position, a new one is appended. *)
Fixpoint dict_set (d : list (string * V)) (k : string) (v : V)
  : list (string * V) :=
  match d with
  | [] => [(k, v)]
  | (k', v') :: d' =>
      if String.eqb k' k then (k', v) :: d' else (k', v') :: dict_set d' k v
  end.

(** [del d[k]] for a key that is present (no change otherwise). *)
Fixpoint dict_del (d : list (string * V)) (k : string) : list (string * V) :=
  match d with
  | [] => []
  | (k', v') :: d' =>
      if String.eqb k' k then d' else (k', v') :: dict_del d' k
  end.

Definition dict_keys (d : list (string * V)) : list string := map fst d.

(** [{**d, **e}]. *)
Definition dict_merge (d e : list (string * V)) : list (string * V) :=
  fold_left (fun acc kv => dict_set acc (fst kv) (snd kv)) e d.

End Dict.

(** [str(v)] for the values whose rendering is fixed by their content
    alone; the rendering of floats and containers is left to the
    runtime ([render]). *)
Definition py_str (render : PyVal -> string) (v : PyVal) : string :=
  match v with
  | PNone => "None"
  | PBool true => "True"
  | PBool false => "False"
  | PInt z => pretty z
  | PStr s => s
  | other => render other
  end.

End Py.
Import Py.

(** ** External collaborators

    What the modelled code obtains from outside the repository: the
    remote text generator, the regular-expression engine, the digest,
    the rendering of values and the event-loop clock. *)

Record World : Type := MkWorld {
  (** outcome of [GeminiClient.initialize] *)
  gemini_initialize : Outcome unit;
  (** [generate_content(_build_analysis_prompt(query))] followed by
      [_parse_analysis_response]: the parsed reply, or the error raised *)
  gemini_reply : string -> Outcome PyVal;
  (** [re.search(pattern, text, re.IGNORECASE) is not None]; an invalid
      pattern raises [re.error] *)
  re_search : string -> string -> Outcome bool;
  (** [hashlib.md5(s.encode()).hexdigest()] *)
  md5_hexdigest : string -> string;
  (** [str(sorted(context.items()))] *)
  sorted_items_repr : list (string * PyVal) -> string;
  (** [str(v)] for floats and containers *)
  render : PyVal -> string;
  (** [str(asyncio.get_event_loop().time())] *)
  loop_time : string
}.

(** ** mcp/base.py: the capability protocol *)

Module Mcp.

Inductive MCPMessageType : Type := REQUEST | RESPONSE | NOTIFICATION.

(** [result: Optional[Any]]: Python's [None] is the unset value, hence
    [PNone]; [error: Optional[str]]. *)
Record MCPMessage : Type := MkMessage {
  id : string;
  type : MCPMessageType;
  method : string;
  params : option (list (string * PyVal));
  result : PyVal;
  error : option string
}.

(** A registered tool: [{"function": tool_func, "description": ...}].
    The function is called with the keyword arguments [tool_params]. *)
Record Tool : Type := MkTool {
  function : list (string * PyVal) -> Outcome PyVal;
  description : string
}.

(** The three provider classes differ in the wording of their error
    replies only. *)
Inductive AgentClass : Type := Neo4jAgent | PostgresAgent | OrchestratorAgent.

(** [MCPServer]: a resource is a zero-argument coroutine function,
    represented by the outcome of awaiting it. *)
Record MCPServer : Type := MkServer {
  name : string;
  agent_class : AgentClass;
  resources : gmap string (Outcome PyVal);
  tools : gmap string Tool;
  initialized : bool
}.

Definition register_resource (self : MCPServer) (n : string)
  (resource : Outcome PyVal) : MCPServer :=
  {| name := name self; agent_class := agent_class self;
     resources := <[n := resource]> (resources self);
     tools := tools self; initialized := initialized self |}.

Definition register_tool (self : MCPServer) (n : string)
  (tool_func : list (string * PyVal) -> Outcome PyVal) (descr : string)
  : MCPServer :=
  {| name := name self; agent_class := agent_class self;
     resources := resources self;
     tools := <[n := MkTool tool_func descr]> (tools self);
     initialized := initialized self |}.

Definition response (message : MCPMessage) (res : PyVal)
  (err : option string) : MCPMessage :=
  {| id := id message; type := RESPONSE; method := method message;
     params := None; result := res; error := err |}.

Definition resource_not_found (c : AgentClass) (n : string) : string :=
  match c with
  | OrchestratorAgent => "Recurso '" +:+ n +:+ "' no encontrado en orquestador"
  | _ => "Recurso '" +:+ n +:+ "' no encontrado"
  end.

Definition tool_not_found (c : AgentClass) (n : string) : string :=
  match c with
  | OrchestratorAgent => "Herramienta '" +:+ n +:+ "' no encontrada en orquestador"
  | _ => "Herramienta '" +:+ n +:+ "' no encontrada"
  end.

Definition method_not_supported (c : AgentClass) (m : string) : string :=
  match c with
  | OrchestratorAgent => "Método '" +:+ m +:+ "' no soportado por orquestador"
  | _ => "Método '" +:+ m +:+ "' no soportado"
  end.

(** [message.params.get(key, default)]; [params] may be [None]. *)
Definition params_get (message : MCPMessage) (key : string) (default : PyVal)
  : Outcome PyVal :=
  match params message with
  | None => Raise (AttributeError "NoneType" "get")
  | Some d => Ok (match dict_get d key with Some v => v | None => default end)
  end.

(** [key in registry] for a registry keyed by strings: only a string can
    be found, a list or a dict is not hashable. *)
Definition registry_key (key : PyVal) : Outcome (option string) :=
  match key with
  | PStr s => Ok (Some s)
  | PList _ => Raise (TypeError "unhashable type: 'list'")
  | PDict _ => Raise (TypeError "unhashable type: 'dict'")
  | _ => Ok None
  end.

Definition registry_lookup {V} (reg : gmap string V) (key : PyVal)
  : Outcome (option V) :=
  obind (registry_key key) (fun k =>
    Ok (match k with Some s => reg !! s | None => None end)).

(** Calling [tool_func] with [tool_params] spread as keyword arguments:
    the argument must be a mapping.  Python's text for the [TypeError]
    also names the called function and the type of the argument; a
    [Tool] does not record the former, and the text kept here is the
    part in between. *)
Definition call_tool_func (t : Tool) (tool_params : PyVal) : Outcome PyVal :=
  match tool_params with
  | PDict kwargs => function t kwargs
  | _ => Raise (TypeError "argument after ** must be a mapping")
  end.

(** The body of [handle_request] inside its [try]. *)
Definition handle_request_body (w : World) (self : MCPServer)
  (message : MCPMessage) : Outcome MCPMessage :=
  if String.eqb (method message) "get_resource" then
    obind (params_get message "resource_name" PNone) (fun resource_name =>
    obind (registry_lookup (resources self) resource_name) (fun found =>
      match found with
      | Some resource_func =>
          obind resource_func (fun res => Ok (response message res None))
      | None =>
          Ok (response message PNone
                (Some (resource_not_found (agent_class self)
                         (py_str (render w) resource_name))))
      end))
  else if String.eqb (method message) "execute_tool" then
    obind (params_get message "tool_name" PNone) (fun tool_name =>
    obind (params_get message "tool_params" (PDict [])) (fun tool_params =>
    obind (registry_lookup (tools self) tool_name) (fun found =>
      match found with
      | Some tool =>
          obind (call_tool_func tool tool_params) (fun res =>
            Ok (response message res None))
      | None =>
          Ok (response message PNone
                (Some (tool_not_found (agent_class self)
                         (py_str (render w) tool_name))))
      end)))
  else
    Ok (response message PNone
          (Some (method_not_supported (agent_class self) (method message)))).

(** [Neo4jAgent.handle_request], [PostgresAgent.handle_request] and
    [OrchestratorAgent.handle_request]. *)
Definition handle_request (w : World) (self : MCPServer)
  (message : MCPMessage) : Outcome MCPMessage :=
  try_except (handle_request_body w self message)
    (fun e => Ok (response message PNone (Some (exn_msg e)))).

(** [MCPClient]: the servers a client is connected to. *)
Record MCPClient : Type := MkClient {
  client_name : string;
  connected_servers : gmap string MCPServer
}.

Definition connect_to_server (self : MCPClient) (server_name : string)
  (server : MCPServer) : MCPClient :=
  {| client_name := client_name self;
     connected_servers := <[server_name := server]> (connected_servers self) |}.

Definition request_resource (w : World) (self : MCPClient)
  (server_name resource_name : string) : Outcome PyVal :=
  match connected_servers self !! server_name with
  | None => Raise (ValueError ("No conectado al servidor " +:+ server_name))
  | Some server =>
      let message :=
        {| id := client_name self +:+ "_" +:+ resource_name +:+ "_" +:+ loop_time w;
           type := REQUEST; method := "get_resource";
           params := Some [("resource_name", PStr resource_name)];
           result := PNone; error := None |} in
      obind (handle_request w server message) (fun resp =>
        if truthy_opt_str (error resp)
        then Raise (Exception ("Error obteniendo recurso: "
                                 +:+ default "" (error resp)))
        else Ok (result resp))
  end.

Definition execute_tool (w : World) (self : MCPClient)
  (server_name tool_name : string) (tool_params : list (string * PyVal))
  : Outcome PyVal :=
  match connected_servers self !! server_name with
  | None => Raise (ValueError ("No conectado al servidor " +:+ server_name))
  | Some server =>
      let message :=
        {| id := client_name self +:+ "_" +:+ tool_name +:+ "_" +:+ loop_time w;
           type := REQUEST; method := "execute_tool";
           params := Some [("tool_name", PStr tool_name);
                           ("tool_params", PDict tool_params)];
           result := PNone; error := None |} in
      obind (handle_request w server message) (fun resp =>
        if truthy_opt_str (error resp)
        then Raise (Exception ("Error ejecutando herramienta: "
                                 +:+ default "" (error resp)))
        else Ok (result resp))
  end.

End Mcp.

(** ** llm/gemini_client.py: the remote stage of the classifier *)

Module Gemini.

(** The dictionary returned by [analyze_query_intent]; the keys read by
    the classifier. *)
Record Intent : Type := MkIntent {
  needs_postgresql : bool;
  needs_neo4j : bool;
  needs_both : bool;
  complexity : string;
  reasoning : PyVal;
  suggested_approach : option PyVal;
  fallback_used : bool
}.

Definition required_fields : list string :=
  ["needs_postgresql"; "needs_neo4j"; "needs_both"; "complexity"; "reasoning"].

Definition valid_complexity : list string := ["simple"; "hybrid"; "complex"].

Definition is_str (v : PyVal) (s : string) : bool :=
  match v with PStr s' => String.eqb s' s | _ => false end.

(** [field in result] for the parsed reply, whatever its type. *)
Definition field_in (field : string) (parsed : PyVal) : Outcome bool :=
  match parsed with
  | PDict d => Ok (dict_has d field)
  | PList l => Ok (existsb (fun v => is_str v field) l)
  | PStr s => Ok (str_in field s)
  | PNone => Raise (TypeError "argument of type 'NoneType' is not iterable")
  | PBool _ => Raise (TypeError "argument of type 'bool' is not iterable")
  | PInt _ => Raise (TypeError "argument of type 'int' is not iterable")
  | PFloat _ => Raise (TypeError "argument of type 'float' is not iterable")
  end.

Fixpoint check_required (fields : list string) (parsed : PyVal)
  : Outcome unit :=
  match fields with
  | [] => Ok tt
  | field :: rest =>
      obind (field_in field parsed) (fun present =>
        if present then check_required rest parsed
        else Raise (ValueError ("Campo requerido '" +:+ field
                                  +:+ "' no encontrado en análisis")))
  end.

(** [result[key]] once the required fields were found: only a
    dictionary, a list or a string gets this far. *)
Definition item (parsed : PyVal) (key : string) : Outcome PyVal :=
  match parsed with
  | PDict d =>
      match dict_get d key with
      | Some v => Ok v
      | None => Raise (KeyError key)
      end
  | PList _ =>
      Raise (TypeError "list indices must be integers or slices, not str")
  | PStr _ => Raise (TypeError "string indices must be integers, not 'str'")
  | PNone => Raise (TypeError "'NoneType' object is not subscriptable")
  | PBool _ => Raise (TypeError "'bool' object is not subscriptable")
  | PInt _ => Raise (TypeError "'int' object is not subscriptable")
  | PFloat _ => Raise (TypeError "'float' object is not subscriptable")
  end.

(** The complexity kept by the validation: the reply's, when it is one
    of the valid strings, [simple] otherwise. *)
Definition clamp_complexity (v : PyVal) : string :=
  match v with
  | PStr s => if list_in s valid_complexity then s else "simple"
  | _ => "simple"
  end.

Definition _validate_analysis_result (parsed : PyVal) : Outcome Intent :=
  obind (check_required required_fields parsed) (fun _ =>
  obind (item parsed "needs_postgresql") (fun pg =>
  obind (item parsed "needs_neo4j") (fun neo =>
  obind (item parsed "needs_both") (fun both =>
  obind (item parsed "complexity") (fun cx =>
  obind (item parsed "reasoning") (fun why =>
    let pg := truthy pg in
    let neo := truthy neo in
    let both := truthy both in
    Ok {| needs_postgresql := if both then true else pg;
          needs_neo4j := if both then true else neo;
          needs_both := both;
          complexity := clamp_complexity cx;
          reasoning := why;
          suggested_approach :=
            match parsed with
            | PDict d => dict_get d "suggested_approach"
            | _ => None
            end;
          fallback_used := false |})))))).

Definition sql_keywords : list string :=
  ["tabla"; "table"; "contar"; "count"; "suma"; "sum";
   "promedio"; "average"; "estadística"; "statistic";
   "registro"; "record"; "columna"; "column"; "filtro"; "filter"].

Definition graph_keywords : list string :=
  ["grafo"; "graph"; "relación"; "relation"; "conexión"; "connection";
   "nodo"; "node"; "camino"; "path"; "red"; "network"; "similar";
   "recomendación"; "recommendation"; "patrón"; "pattern"].

Definition _fallback_intent_analysis (query : string) : Intent :=
  let query_lower := lower query in
  let sql_matches := count_in sql_keywords query_lower in
  let graph_matches := count_in graph_keywords query_lower in
  let needs_postgresql := (0 <? sql_matches)%Z in
  let needs_neo4j := (0 <? graph_matches)%Z in
  let needs_both := needs_postgresql && needs_neo4j in
  let nothing := negb needs_postgresql && negb needs_neo4j in
  let needs_both := if nothing then true else needs_both in
  let needs_postgresql := if nothing then true else needs_postgresql in
  let needs_neo4j := if nothing then true else needs_neo4j in
  {| needs_postgresql := needs_postgresql;
     needs_neo4j := needs_neo4j;
     needs_both := needs_both;
     complexity := if needs_both then "hybrid" else "simple";
     reasoning :=
       PStr ("Análisis de fallback: SQL keywords=" +:+ pretty sql_matches
               +:+ ", Graph keywords=" +:+ pretty graph_matches);
     suggested_approach :=
       Some (PStr "Usar patrones de palabras clave como fallback");
     fallback_used := true |}.

(** [analyze_query_intent]: any failure of the remote call, of the
    parsing or of the validation is answered by the keyword analysis. *)
Definition analyze_query_intent (w : World) (query : string) : Outcome Intent :=
  try_except
    (obind (gemini_reply w query) _validate_analysis_result)
    (fun _ => Ok (_fallback_intent_analysis query)).

End Gemini.

(** ** llm/pattern_analyzer.py: the intent classifier *)

Module Analyzer.

(** The analysis dictionary.  Keys that a path may leave out are
    optional fields. *)
Record Analysis : Type := MkAnalysis {
  original_query : string;
  needs_graph : bool;
  needs_relational : bool;
  needs_both : bool;
  complexity : string;
  identified_patterns : list string;
  suggested_agents : list string;
  llm_reasoning : option PyVal;
  suggested_approach : option PyVal;
  analysis_method : option string;
  confidence : option Q;
  from_cache : option bool;
  emergency_mode : option bool;
  error : option string
}.

Definition set_method (m : string) (a : Analysis) : Analysis :=
  {| original_query := original_query a; needs_graph := needs_graph a;
     needs_relational := needs_relational a; needs_both := needs_both a;
     complexity := complexity a; identified_patterns := identified_patterns a;
     suggested_agents := suggested_agents a; llm_reasoning := llm_reasoning a;
     suggested_approach := suggested_approach a;
     analysis_method := Some m; confidence := confidence a;
     from_cache := from_cache a; emergency_mode := emergency_mode a;
     error := error a |}.

Definition set_confidence (c : Q) (a : Analysis) : Analysis :=
  {| original_query := original_query a; needs_graph := needs_graph a;
     needs_relational := needs_relational a; needs_both := needs_both a;
     complexity := complexity a; identified_patterns := identified_patterns a;
     suggested_agents := suggested_agents a; llm_reasoning := llm_reasoning a;
     suggested_approach := suggested_approach a;
     analysis_method := analysis_method a; confidence := Some c;
     from_cache := from_cache a; emergency_mode := emergency_mode a;
     error := error a |}.

Definition set_from_cache (b : bool) (a : Analysis) : Analysis :=
  {| original_query := original_query a; needs_graph := needs_graph a;
     needs_relational := needs_relational a; needs_both := needs_both a;
     complexity := complexity a; identified_patterns := identified_patterns a;
     suggested_agents := suggested_agents a; llm_reasoning := llm_reasoning a;
     suggested_approach := suggested_approach a;
     analysis_method := analysis_method a; confidence := confidence a;
     from_cache := Some b; emergency_mode := emergency_mode a;
     error := error a |}.

Definition set_error (e : string) (a : Analysis) : Analysis :=
  {| original_query := original_query a; needs_graph := needs_graph a;
     needs_relational := needs_relational a; needs_both := needs_both a;
     complexity := complexity a; identified_patterns := identified_patterns a;
     suggested_agents := suggested_agents a; llm_reasoning := llm_reasoning a;
     suggested_approach := suggested_approach a;
     analysis_method := analysis_method a; confidence := confidence a;
     from_cache := from_cache a; emergency_mode := emergency_mode a;
     error := Some e |}.

(** [result.copy()] with the keys [error], [from_cache] and
    [emergency_mode] popped. *)
Definition pop_transient (a : Analysis) : Analysis :=
  {| original_query := original_query a; needs_graph := needs_graph a;
     needs_relational := needs_relational a; needs_both := needs_both a;
     complexity := complexity a; identified_patterns := identified_patterns a;
     suggested_agents := suggested_agents a; llm_reasoning := llm_reasoning a;
     suggested_approach := suggested_approach a;
     analysis_method := analysis_method a; confidence := confidence a;
     from_cache := None; emergency_mode := None; error := None |}.

(** The table [self.fallback_patterns] read by the heuristic stage. *)
Record FallbackPatterns : Type := MkPatterns {
  graph_patterns : list string;
  sql_patterns : list string;
  hybrid_patterns : list string
}.

(** The attributes of a [PatternAnalyzer].  [fallback_only] and
    [fallback_patterns] are read by the methods but not assigned by the
    constructor: [None] stands for an attribute that does not exist. *)
Record PatternAnalyzer : Type := MkAnalyzer {
  initialized : bool;
  llm_available : bool;
  fallback_only : option bool;
  fallback_patterns : option FallbackPatterns;
  analysis_cache : list (string * Analysis);
  cache_max_size : Z;
  stats : gmap string Z
}.

Definition set_cache (c : list (string * Analysis)) (self : PatternAnalyzer)
  : PatternAnalyzer :=
  {| initialized := initialized self; llm_available := llm_available self;
     fallback_only := fallback_only self;
     fallback_patterns := fallback_patterns self;
     analysis_cache := c; cache_max_size := cache_max_size self;
     stats := stats self |}.

Definition set_stats (st : gmap string Z) (self : PatternAnalyzer)
  : PatternAnalyzer :=
  {| initialized := initialized self; llm_available := llm_available self;
     fallback_only := fallback_only self;
     fallback_patterns := fallback_patterns self;
     analysis_cache := analysis_cache self;
     cache_max_size := cache_max_size self; stats := st |}.

Definition set_flags (init avail : bool) (self : PatternAnalyzer)
  : PatternAnalyzer :=
  {| initialized := init; llm_available := avail;
     fallback_only := fallback_only self;
     fallback_patterns := fallback_patterns self;
     analysis_cache := analysis_cache self;
     cache_max_size := cache_max_size self; stats := stats self |}.

(** [PatternAnalyzer.__init__]; [max_size] is
    [int(os.getenv("LLM_CACHE_MAX_SIZE", "100"))].  The counter
    [avg_confidence] ([0.0]) is kept as [0]. *)
Definition __init__ (max_size : Z) : PatternAnalyzer :=
  {| initialized := false;
     llm_available := false;
     fallback_only := None;
     fallback_patterns := None;
     analysis_cache := [];
     cache_max_size := max_size;
     stats := <["total_queries" := 0%Z]> (<["llm_queries" := 0%Z]>
              (<["cache_hits" := 0%Z]> (<["errors" := 0%Z]>
              (<["avg_confidence" := 0%Z]> ∅)))) |}.

(** *** Methods as state transformers that may raise *)

Definition AM (A : Type) : Type := PatternAnalyzer -> Outcome A * PatternAnalyzer.

Definition ret {A} (a : A) : AM A := fun self => (Ok a, self).

Definition raise {A} (e : PyExn) : AM A := fun self => (Raise e, self).

Definition bind {A B} (m : AM A) (k : A -> AM B) : AM B :=
  fun self =>
    match m self with
    | (Ok a, self') => k a self'
    | (Raise e, self') => (Raise e, self')
    end.

Definition lift {A} (o : Outcome A) : AM A := fun self => (o, self).

Definition get : AM PatternAnalyzer := fun self => (Ok self, self).

Definition modify (f : PatternAnalyzer -> PatternAnalyzer) : AM unit :=
  fun self => (Ok tt, f self).

(** [try: body / except Exception as e: handler(e)]: the effects of the
    body up to the raise are kept. *)
Definition try_catch {A} (body : AM A) (handler : PyExn -> AM A) : AM A :=
  fun self =>
    match body self with
    | (Ok a, self') => (Ok a, self')
    | (Raise e, self') => handler e self'
    end.

Declare Scope am_scope.
Delimit Scope am_scope with am.
Notation "'do' x <- c ;; k" := (bind c (fun x => k))
  (at level 10, x name, c at level 99, k at level 200) : am_scope.
Notation "'run' c ;; k" := (bind c (fun _ => k))
  (at level 10, c at level 99, k at level 200) : am_scope.

(** [self.stats[key] += 1]. *)
Definition stats_incr (key : string) : AM unit :=
  fun self =>
    match stats self !! key with
    | None => (Raise (KeyError key), self)
    | Some n => (Ok tt, set_stats (<[key := (n + 1)%Z]> (stats self)) self)
    end.

(** [self.fallback_only] and [self.fallback_patterns]. *)
Definition attr_fallback_only : AM bool :=
  fun self =>
    match fallback_only self with
    | Some b => (Ok b, self)
    | None => (Raise (AttributeError "PatternAnalyzer" "fallback_only"), self)
    end.

Definition attr_fallback_patterns (self : PatternAnalyzer)
  : Outcome FallbackPatterns :=
  match fallback_patterns self with
  | Some t => Ok t
  | None => Raise (AttributeError "PatternAnalyzer" "fallback_patterns")
  end.

Definition initialize (w : World) : AM unit :=
  fun self =>
    if initialized self then (Ok tt, self)
    else
      match gemini_initialize w with
      | Ok _ => (Ok tt, set_flags true true self)
      | Raise e =>
          (Raise (Exception ("No se pudo inicializar el analizador IA: "
                               +:+ exn_msg e)),
           set_flags (initialized self) false self)
      end.

(** [close]: the cache is emptied and both flags are reset. *)
Definition close : AM unit :=
  modify (fun self => set_flags false false (set_cache [] self)).

Definition clear_cache : AM unit := modify (set_cache []).

(** *** The cache *)

Definition _generate_cache_key (w : World) (query : string)
  (context : list (string * PyVal)) : string :=
  let normalized_query := strip (lower query) in
  let context_str :=
    match context with
    | [] => ""
    | _ => sorted_items_repr w context
    end in
  let cache_key := normalized_query +:+ "|" +:+ context_str in
  if (200 <? String.length cache_key)%nat
  then md5_hexdigest w cache_key
  else cache_key.

(** The loop [while len(cache) >= max_size: del cache[next(iter(cache))]].
    The oldest key is the first one of the dictionary, so deleting it
    leaves the tail; [next] raises [StopIteration] on an empty
    dictionary. *)
Fixpoint evict_while_full (max_size : Z) (cache : list (string * Analysis))
  : Outcome unit * list (string * Analysis) :=
  match cache with
  | [] =>
      if (0 >=? max_size)%Z then (Raise StopIteration, []) else (Ok tt, [])
  | _ :: rest =>
      if (Z.of_nat (length cache) >=? max_size)%Z
      then evict_while_full max_size rest
      else (Ok tt, cache)
  end.

Definition _cache_result (cache_key : string) (result : Analysis) : AM unit :=
  fun self =>
    match evict_while_full (cache_max_size self) (analysis_cache self) with
    | (Raise e, c) => (Raise e, set_cache c self)
    | (Ok _, c) =>
        (Ok tt, set_cache (dict_set c cache_key (pop_transient result)) self)
    end.

(** *** The heuristic stage *)

(** One of the three loops over a pattern list: the number of patterns
    found in the text and their labelled names, in order. *)
Fixpoint scan_patterns (w : World) (label : string) (patterns : list string)
  (text : string) : Outcome (Z * list string) :=
  match patterns with
  | [] => Ok (0%Z, [])
  | pattern :: rest =>
      obind (re_search w pattern text) (fun hit =>
      obind (scan_patterns w label rest text) (fun r =>
        Ok (if hit : bool
            then ((fst r + 1)%Z, (label +:+ pattern) :: snd r)
            else r)))
  end.

Definition complexity_keywords : list string :=
  ["combinar"; "comparar"; "analizar"; "todos"; "completo"; "integrar"].

Definition _analyze_with_fallback (w : World) (self : PatternAnalyzer)
  (query : string) (context : list (string * PyVal)) : Outcome Analysis :=
  let query_lower := lower query in
  obind (attr_fallback_patterns self) (fun table =>
  obind (scan_patterns w "graph: " (graph_patterns table) query_lower) (fun g =>
  obind (scan_patterns w "sql: " (sql_patterns table) query_lower) (fun s =>
  obind (scan_patterns w "hybrid: " (hybrid_patterns table) query_lower) (fun h =>
    let graph_matches := fst g in
    let sql_matches := fst s in
    let hybrid_matches := fst h in
    let '(both, graph, relational, cx, agents) :=
      if (0 <? hybrid_matches)%Z then
        (true, true, true, "hybrid", ["neo4j"; "postgres"])
      else if (sql_matches <? graph_matches)%Z then
        (false, true, false, "simple", ["neo4j"])
      else if (graph_matches <? sql_matches)%Z then
        (false, false, true, "simple", ["postgres"])
      else
        (true, true, true, "exploratory", ["neo4j"; "postgres"]) in
    let cx := if any_in complexity_keywords query_lower then "complex" else cx in
    Ok {| original_query := query;
          needs_graph := graph;
          needs_relational := relational;
          needs_both := both;
          complexity := cx;
          identified_patterns := (snd g ++ snd s ++ snd h)%list;
          suggested_agents := agents;
          llm_reasoning := None; suggested_approach := None;
          analysis_method := None; confidence := None;
          from_cache := None; emergency_mode := None; error := None |})))).

(** *** The emergency stage *)

Definition _emergency_analysis (query : string)
  (context : list (string * PyVal)) : Analysis :=
  {| original_query := query;
     needs_graph := true;
     needs_relational := true;
     needs_both := true;
     complexity := "unknown";
     identified_patterns := ["emergency_fallback"];
     suggested_agents := ["neo4j"; "postgres"];
     llm_reasoning := None; suggested_approach := None;
     analysis_method := None; confidence := None;
     from_cache := None; emergency_mode := Some true; error := None |}.

(** *** The remote stage *)

Definition _determine_agents_from_llm (llm_analysis : Gemini.Intent)
  : list string :=
  let agents :=
    ((if Gemini.needs_postgresql llm_analysis then ["postgres"] else [])
     ++ (if Gemini.needs_neo4j llm_analysis then ["neo4j"] else []))%list in
  match agents with
  | [] => ["neo4j"; "postgres"]
  | _ => agents
  end.

Definition _analyze_with_llm (w : World) (self : PatternAnalyzer)
  (query : string) (context : list (string * PyVal)) : Outcome Analysis :=
  try_except
    (obind (Gemini.analyze_query_intent w query) (fun llm_analysis =>
       Ok {| original_query := query;
             needs_graph := Gemini.needs_neo4j llm_analysis;
             needs_relational := Gemini.needs_postgresql llm_analysis;
             needs_both := Gemini.needs_both llm_analysis;
             complexity := Gemini.complexity llm_analysis;
             identified_patterns :=
               ["llm_reasoning: "
                  +:+ py_str (render w) (Gemini.reasoning llm_analysis)];
             suggested_agents := _determine_agents_from_llm llm_analysis;
             llm_reasoning := Some (Gemini.reasoning llm_analysis);
             suggested_approach :=
               Some (default (PStr "") (Gemini.suggested_approach llm_analysis));
             analysis_method := None; confidence := None;
             from_cache := None; emergency_mode := None; error := None |}))
    (fun _ => _analyze_with_fallback w self query context).

(** *** [analyze_query]: the public operation *)

(** The analysis stage inside the [try] of [analyze_query]. *)
Definition analyze_uncached (w : World) (query : string)
  (context : list (string * PyVal)) (cache_key : string) : AM Analysis :=
  (do self <- get ;;
   do use_llm <-
     (if llm_available self
      then (do flag <- attr_fallback_only ;; ret (negb flag))
      else ret false) ;;
   do result <-
     (if use_llm : bool then
        do r <- lift (_analyze_with_llm w self query context) ;;
        run stats_incr "llm_queries" ;;
        ret (set_confidence 0.9 (set_method "llm" r))
      else
        do r <- lift (_analyze_with_fallback w self query context) ;;
        run stats_incr "fallback_queries" ;;
        ret (set_confidence 0.7 (set_method "fallback" r))) ;;
   run _cache_result cache_key result ;;
   ret result)%am.

(** The [except Exception as e] branch of [analyze_query]. *)
Definition analyze_emergency (query : string)
  (context : list (string * PyVal)) (e : PyExn) : AM Analysis :=
  (run stats_incr "errors" ;;
   ret (set_error (exn_msg e)
          (set_confidence 0.5
             (set_method "emergency" (_emergency_analysis query context)))))%am.

Definition analyze_query (w : World) (query : string)
  (context : option (list (string * PyVal))) : AM Analysis :=
  (do self0 <- get ;;
   run (if initialized self0 then ret tt else initialize w) ;;
   run stats_incr "total_queries" ;;
   let context := default [] context in
   let cache_key := _generate_cache_key w query context in
   do self <- get ;;
   match dict_get (analysis_cache self) cache_key with
   | Some cached =>
       run stats_incr "cache_hits" ;;
       ret (set_method "cache" (set_from_cache true cached))
   | None =>
       try_catch (analyze_uncached w query context cache_key)
                 (analyze_emergency query context)
   end)%am.

End Analyzer.

(** ** agents/orchestrator.py: strategy selector and execution engine *)

Module Orchestrator.

Import Analyzer.

(** The orchestrator is a server, a client of the two data agents, and
    the owner of the classifier. *)
Record OrchestratorAgent : Type := MkOrchestrator {
  server : Mcp.MCPServer;
  client : Mcp.MCPClient;
  pattern_analyzer : PatternAnalyzer
}.

Definition set_pattern_analyzer (pa : PatternAnalyzer)
  (self : OrchestratorAgent) : OrchestratorAgent :=
  {| server := server self; client := client self; pattern_analyzer := pa |}.

(** [{"agent": ..., "result": ...}] *)
Record Step : Type := MkStep { agent : string; step_result : PyVal }.

(** The value under ["results"]: the raw payload of one agent, a mapping
    keyed by agent, or the list of steps. *)
Inductive Results : Type :=
| Raw (v : PyVal)
| ByAgent (d : list (string * PyVal))
| Steps (l : list Step).

Record ExecutionResult : Type := MkExecution {
  results : Results;
  agents_used : list string;
  strategy : string
}.

(** *** Query analysis wrapper *)

Definition emergency_default (query : string) (e : PyExn) : Analysis :=
  {| original_query := query;
     needs_graph := false;
     needs_relational := true;
     needs_both := false;
     complexity := "simple";
     identified_patterns := [];
     suggested_agents := ["postgres"];
     llm_reasoning := None; suggested_approach := None;
     analysis_method := Some "emergency_default";
     confidence := Some (0.5)%Q;
     from_cache := None; emergency_mode := None;
     error := Some (exn_msg e) |}.

Definition _analyze_query (w : World) (query : string)
  (self : OrchestratorAgent) : Analysis * OrchestratorAgent :=
  match analyze_query w query None (pattern_analyzer self) with
  | (Ok llm_analysis, pa) =>
      ({| original_query := query;
          needs_graph := needs_graph llm_analysis;
          needs_relational := needs_relational llm_analysis;
          needs_both := needs_both llm_analysis;
          complexity := complexity llm_analysis;
          identified_patterns := identified_patterns llm_analysis;
          suggested_agents := suggested_agents llm_analysis;
          llm_reasoning := llm_reasoning llm_analysis;
          suggested_approach := None;
          analysis_method := analysis_method llm_analysis;
          confidence := Some (default 0%Q (confidence llm_analysis));
          from_cache := None; emergency_mode := None; error := None |},
       set_pattern_analyzer pa self)
  | (Raise e, pa) => (emergency_default query e, set_pattern_analyzer pa self)
  end.

(** *** Strategy selector *)

Definition _determine_execution_strategy (query_analysis : Analysis) : string :=
  if needs_both query_analysis then
    if String.eqb (complexity query_analysis) "hybrid"
    then "sequential"
    else "parallel"
  else if (length (suggested_agents query_analysis) =? 1)%nat then
    "single_agent"
  else "parallel".

(** *** Natural-language translators *)

Definition _query_neo4j_natural (w : World) (self : OrchestratorAgent)
  (query : string) (context : list (string * PyVal)) : Outcome PyVal :=
  let query_lower := lower query in
  if any_in ["esquema"; "estructura"; "labels"] query_lower then
    Mcp.request_resource w (client self) "neo4j" "graph_schema"
  else if any_in ["estadísticas"; "stats"; "resumen"] query_lower then
    Mcp.request_resource w (client self) "neo4j" "graph_stats"
  else if any_in ["nodos"; "nodes"] query_lower then
    Mcp.request_resource w (client self) "neo4j" "nodes_by_label"
  else if any_in ["relaciones"; "relationships"] query_lower then
    Mcp.request_resource w (client self) "neo4j" "relationships_by_type"
  else
    Mcp.request_resource w (client self) "neo4j" "graph_stats".

Definition _query_postgres_natural (w : World) (self : OrchestratorAgent)
  (query : string) (context : list (string * PyVal)) : Outcome PyVal :=
  let query_lower := lower query in
  if any_in ["esquema"; "estructura"; "tablas"] query_lower then
    Mcp.request_resource w (client self) "postgres" "database_schema"
  else if any_in ["estadísticas"; "stats"; "resumen"] query_lower then
    Mcp.request_resource w (client self) "postgres" "table_statistics"
  else if any_in ["columnas"; "columns"] query_lower then
    Mcp.request_resource w (client self) "postgres" "columns_info"
  else if any_in ["relaciones"; "foreign keys"] query_lower then
    Mcp.request_resource w (client self) "postgres" "table_relationships"
  else
    Mcp.request_resource w (client self) "postgres" "database_schema".

(** *** Execution engine

    The engine reaches the two translators through [self]; its methods
    are stated over them, and bound to the orchestrator's own
    translators below. *)

Definition Translator : Type :=
  string -> list (string * PyVal) -> Outcome PyVal.

Section Engine.

Variables query_neo4j_natural query_postgres_natural : Translator.

Definition _execute_single_agent (query : string) (analysis : Analysis)
  (context : list (string * PyVal)) : Outcome ExecutionResult :=
  match suggested_agents analysis with
  | [] => Raise IndexError
  | agent_name :: _ =>
      obind (if String.eqb agent_name "neo4j"
             then query_neo4j_natural query context
             else query_postgres_natural query context) (fun res =>
        Ok {| results := Raw res;
              agents_used := [agent_name];
              strategy := "single_agent" |})
  end.

(** The loop over [enumerate(results)] after
    [asyncio.gather(..., return_exceptions=True)]: a raised exception
    is one of the results. *)
Fixpoint combine_results (agents_used : list string) (i : nat)
  (results : list (Outcome PyVal)) (combined_results : list (string * PyVal))
  : Outcome (list (string * PyVal)) :=
  match results with
  | [] => Ok combined_results
  | res :: rest =>
      match agents_used !! i with
      | None => Raise IndexError
      | Some agent_name =>
          combine_results agents_used (S i) rest
            (dict_set combined_results agent_name
               match res with
               | Raise e => PDict [("error", PStr (exn_msg e))]
               | Ok v => v
               end)
      end
  end.

Definition _execute_parallel (query : string) (analysis : Analysis)
  (context : list (string * PyVal)) : Outcome ExecutionResult :=
  let tasks : list (Outcome PyVal) := [] in
  let agents_used : list string := [] in
  let '(tasks, agents_used) :=
    if list_in "neo4j" (suggested_agents analysis)
    then ((tasks ++ [query_neo4j_natural query context])%list,
          (agents_used ++ ["neo4j"])%list)
    else (tasks, agents_used) in
  let '(tasks, agents_used) :=
    if list_in "postgres" (suggested_agents analysis)
    then ((tasks ++ [query_postgres_natural query context])%list,
          (agents_used ++ ["postgres"])%list)
    else (tasks, agents_used) in
  obind (combine_results agents_used 0 tasks []) (fun combined_results =>
    Ok {| results := ByAgent combined_results;
          agents_used := agents_used;
          strategy := "parallel" |}).

Definition _execute_sequential (query : string) (analysis : Analysis)
  (context : list (string * PyVal)) : Outcome ExecutionResult :=
  if list_in "postgres" (suggested_agents analysis)
     && list_in "neo4j" (suggested_agents analysis)
  then
    obind (query_postgres_natural query context) (fun postgres_result =>
      let enhanced_context := dict_set context "postgres_data" postgres_result in
      obind (query_neo4j_natural query enhanced_context) (fun neo4j_result =>
        Ok {| results := Steps [MkStep "postgres" postgres_result;
                                MkStep "neo4j" neo4j_result];
              agents_used := ["postgres"; "neo4j"];
              strategy := "sequential" |}))
  else
    Ok {| results := Steps []; agents_used := []; strategy := "sequential" |}.

End Engine.

(** The engine of an orchestrator: the methods bound to its own
    translators. *)
Definition execute_single_agent (w : World) (self : OrchestratorAgent) :=
  _execute_single_agent (_query_neo4j_natural w self)
                        (_query_postgres_natural w self).

Definition execute_parallel (w : World) (self : OrchestratorAgent) :=
  _execute_parallel (_query_neo4j_natural w self)
                    (_query_postgres_natural w self).

Definition execute_sequential (w : World) (self : OrchestratorAgent) :=
  _execute_sequential (_query_neo4j_natural w self)
                      (_query_postgres_natural w self).

(** [value["key"]] when [value] is a dictionary that has the key. *)
Definition summary_field (value : PyVal) (key : string) : option PyVal :=
  match value with
  | PDict d => dict_get d key
  | _ => None
  end.

Definition _intelligent_merge (w : World) (results : list (string * PyVal))
  (query : string) (context : list (string * PyVal)) : PyVal :=
  let insights :=
    match dict_get results "neo4j", dict_get results "postgres" with
    | Some neo4j_data, Some postgres_data =>
        match summary_field neo4j_data "total_nodes",
              summary_field postgres_data "total_tables" with
        | Some nodes, Some tables =>
            [PStr ("Sistema híbrido: " +:+ py_str (render w) nodes
                     +:+ " nodos en grafo, " +:+ py_str (render w) tables
                     +:+ " tablas relacionales")]
        | _, _ => []
        end
    | _, _ => []
    end in
  PDict [("summary", PStr "Datos combinados de múltiples fuentes");
         ("sources", PList (map PStr (dict_keys results)));
         ("data", PDict results);
         ("insights", PList insights)].

Definition _execute_hybrid (w : World) (self : OrchestratorAgent)
  (query : string) (analysis : Analysis) (context : list (string * PyVal))
  : Outcome ExecutionResult :=
  obind (execute_parallel w self query analysis context) (fun parallel_result =>
    match results parallel_result with
    | ByAgent d =>
        Ok {| results := Raw (_intelligent_merge w d query context);
              agents_used := agents_used parallel_result;
              strategy := "hybrid" |}
    | _ => Raise (AttributeError "object" "keys")
    end).

Definition _execute_strategy (w : World) (self : OrchestratorAgent)
  (query : string) (analysis : Analysis) (strategy : string)
  (context : list (string * PyVal)) : Outcome ExecutionResult :=
  if String.eqb strategy "single_agent" then
    execute_single_agent w self query analysis context
  else if String.eqb strategy "parallel" then
    execute_parallel w self query analysis context
  else if String.eqb strategy "sequential" then
    execute_sequential w self query analysis context
  else if String.eqb strategy "hybrid" then
    _execute_hybrid w self query analysis context
  else
    Raise (ValueError ("Estrategia desconocida: " +:+ strategy)).

End Orchestrator.

(** ** Concrete collaborators and states used by the examples *)

Module Samples.

Import Analyzer.

(** A remote reply in the expected format: graph data only. *)
Definition graph_reply : PyVal :=
  PDict [("needs_postgresql", PBool false); ("needs_neo4j", PBool true);
         ("needs_both", PBool false); ("complexity", PStr "simple");
         ("reasoning", PStr "graph structure requested")].

(** A world whose remote generator answers [graph_reply] and whose
    regular expressions are plain substrings. *)
Definition world : World :=
  {| gemini_initialize := Ok tt;
     gemini_reply := fun _ => Ok graph_reply;
     re_search := fun pattern text => Ok (str_in pattern text);
     md5_hexdigest := fun _ => "d41d8cd98f00b204e9800998ecf8427e";
     sorted_items_repr := fun _ => "[...]";
     render := fun _ => "<value>";
     loop_time := "0.0" |}.

(** The same world with a remote service that cannot be initialised. *)
Definition world_offline : World :=
  {| gemini_initialize :=
       Raise (MkExn "RuntimeError" "Error inicializando cliente Gemini: offline");
     gemini_reply := fun _ => Raise (MkExn "RuntimeError" "offline");
     re_search := re_search world;
     md5_hexdigest := md5_hexdigest world;
     sorted_items_repr := sorted_items_repr world;
     render := render world;
     loop_time := loop_time world |}.

(** A pattern table in the sense of the specification. *)
Definition patterns : FallbackPatterns :=
  {| graph_patterns := ["graph"; "grafo"; "node"];
     sql_patterns := ["table"; "tabla"; "count"];
     hybrid_patterns := ["both"; "ambas"] |}.

(** The analyzer as the constructor leaves it, once initialised. *)
Definition analyzer_ready : PatternAnalyzer :=
  set_flags true true (__init__ 100).

(** The analyzer as the constructor leaves it, marked initialised with
    the remote stage unavailable. *)
Definition analyzer_no_llm : PatternAnalyzer :=
  set_flags true false (__init__ 100).

(** The same with a pattern table supplied. *)
Definition analyzer_no_llm_patterns : PatternAnalyzer :=
  {| initialized := true; llm_available := false;
     fallback_only := None; fallback_patterns := Some patterns;
     analysis_cache := []; cache_max_size := 100;
     stats := stats (__init__ 100) |}.

(** An analyzer whose missing attributes and counter were supplied. *)
Definition analyzer_configured (remote : bool) (max_size : Z) : PatternAnalyzer :=
  {| initialized := true; llm_available := remote;
     fallback_only := Some false; fallback_patterns := Some patterns;
     analysis_cache := []; cache_max_size := max_size;
     stats := <["fallback_queries" := 0%Z]> (stats (__init__ max_size)) |}.

Definition schema_payload : PyVal :=
  PDict [("node_labels", PList [PStr "User"]); ("total_labels", PInt 1)].

Definition stats_payload : PyVal := PDict [("total_nodes", PInt 42)].

Definition tables_payload : PyVal := PDict [("total_tables", PInt 7)].

Definition neo4j_server : Mcp.MCPServer :=
  {| Mcp.name := "neo4j_agent"; Mcp.agent_class := Mcp.Neo4jAgent;
     Mcp.resources :=
       <["graph_schema" := Ok schema_payload]>
         (<["graph_stats" := Ok stats_payload]> ∅);
     Mcp.tools :=
       <["execute_cypher" :=
           Mcp.MkTool (fun _ => Raise (MkExn "ClientError" "syntax error"))
                      "Ejecuta una consulta Cypher personalizada en el grafo"]> ∅;
     Mcp.initialized := true |}.

Definition postgres_server : Mcp.MCPServer :=
  {| Mcp.name := "postgres_agent"; Mcp.agent_class := Mcp.PostgresAgent;
     Mcp.resources := <["database_schema" := Ok tables_payload]> ∅;
     Mcp.tools := ∅;
     Mcp.initialized := true |}.

(** A relational agent whose schema resource fails. *)
Definition postgres_down : Mcp.MCPServer :=
  {| Mcp.name := "postgres_agent"; Mcp.agent_class := Mcp.PostgresAgent;
     Mcp.resources :=
       <["database_schema" := Raise (MkExn "OSError" "connection refused")]> ∅;
     Mcp.tools := ∅;
     Mcp.initialized := true |}.

Definition request (m : string) (d : list (string * PyVal)) : Mcp.MCPMessage :=
  Mcp.MkMessage "m1" Mcp.REQUEST m (Some d) PNone None.

Definition orchestrator_with (pg : Mcp.MCPServer) (pa : PatternAnalyzer)
  : Orchestrator.OrchestratorAgent :=
  {| Orchestrator.server :=
       {| Mcp.name := "orchestrator"; Mcp.agent_class := Mcp.OrchestratorAgent;
          Mcp.resources := ∅; Mcp.tools := ∅; Mcp.initialized := true |};
     Orchestrator.client :=
       Mcp.connect_to_server
         (Mcp.connect_to_server (Mcp.MkClient "orchestrator" ∅)
            "neo4j" neo4j_server)
         "postgres" pg;
     Orchestrator.pattern_analyzer := pa |}.

Definition orchestrator : Orchestrator.OrchestratorAgent :=
  orchestrator_with postgres_server analyzer_ready.

End Samples.

(** ** Vocabulary of the properties *)

Module Props.

Import Analyzer Orchestrator.

(** The invariant of an analysis: both stores needed implies each. *)
Definition consistent (a : Analysis) : Prop :=
  needs_both a = true -> needs_graph a = true /\ needs_relational a = true.

Definition consistent_intent (i : Gemini.Intent) : Prop :=
  Gemini.needs_both i = true ->
  Gemini.needs_neo4j i = true /\ Gemini.needs_postgresql i = true.

Definition cache_consistent (self : PatternAnalyzer) : Prop :=
  Forall (fun entry => consistent (snd entry)) (analysis_cache self).

(** The states of a classifier: it starts with an empty cache, whatever
    its other attributes, and is then driven through its methods. *)
Inductive reachable : PatternAnalyzer -> Prop :=
| reach_new (self : PatternAnalyzer) :
    analysis_cache self = [] -> reachable self
| reach_initialize (w : World) (self : PatternAnalyzer) :
    reachable self -> reachable (snd (initialize w self))
| reach_analyze (w : World) (query : string)
    (context : option (list (string * PyVal))) (self : PatternAnalyzer) :
    reachable self -> reachable (snd (analyze_query w query context self))
| reach_clear (self : PatternAnalyzer) :
    reachable self -> reachable (snd (clear_cache self))
| reach_close (self : PatternAnalyzer) :
    reachable self -> reachable (snd (close self)).

(** Every character of the string is white space. *)
Fixpoint all_space (s : string) : Prop :=
  match s with
  | EmptyString => True
  | String c s' => ascii_isspace c = true /\ all_space s'
  end.

(** Two characters that are equal or the two cases of one letter. *)
Definition same_letter (c1 c2 : ascii) : Prop :=
  c1 = c2 \/ ascii_lower c1 = c2 \/ c1 = ascii_lower c2.

(** Two strings of equal length whose characters agree up to case. *)
Fixpoint same_up_to_case (s1 s2 : string) : Prop :=
  match s1, s2 with
  | EmptyString, EmptyString => True
  | String c1 s1', String c2 s2' => same_letter c1 c2 /\ same_up_to_case s1' s2'
  | _, _ => False
  end.

(** Queries that differ by letter case or surrounding white space only:
    each is a core text inside white space, and the cores agree up to
    case. *)
Definition differ_by_case_or_outer_space (q1 q2 : string) : Prop :=
  exists pre1 core1 suf1 pre2 core2 suf2,
    q1 = pre1 +:+ core1 +:+ suf1 /\
    q2 = pre2 +:+ core2 +:+ suf2 /\
    all_space pre1 /\ all_space suf1 /\
    all_space pre2 /\ all_space suf2 /\
    same_up_to_case core1 core2.

(** The suggested agents are the relational and the graph agent and
    nothing else. *)
Definition exactly_the_pair (agents : list string) : Prop :=
  forall x, In x agents <-> (x = "postgres" \/ x = "neo4j").

(** A sequence of insertions into the cache, each one a call of
    [_cache_result]. *)
Definition insert_all (entries : list (string * Analysis))
  (self : PatternAnalyzer) : PatternAnalyzer :=
  fold_left (fun s entry => snd (_cache_result (fst entry) (snd entry) s))
            entries self.

(** What the cache keeps of an inserted entry. *)
Definition stored (entry : string * Analysis) : string * Analysis :=
  (fst entry, pop_transient (snd entry)).

(** An analysis that names the given agents, for the examples. *)
Definition analysis_for (both : bool) (cx : string) (agents : list string)
  : Analysis :=
  {| original_query := "q"; needs_graph := true; needs_relational := both;
     needs_both := both; complexity := cx; identified_patterns := [];
     suggested_agents := agents; llm_reasoning := None;
     suggested_approach := None; analysis_method := None;
     confidence := None; from_cache := None; emergency_mode := None;
     error := None |}.

(** One of the keywords occurs in the lower-cased query, as a word or
    inside a longer one. *)
Definition mentions (words : list string) (query : string) : Prop :=
  exists kw, In kw words /\ str_in kw (lower query) = true.

End Props.

(** ** Further concrete states *)

Module Cases.

Import Analyzer.

(** A graph agent whose statistics resource and search tool fail with an
    exception that has no message. *)
Definition silent_server : Mcp.MCPServer :=
  {| Mcp.name := "neo4j_agent"; Mcp.agent_class := Mcp.Neo4jAgent;
     Mcp.resources := <["graph_stats" := Raise (MkExn "TimeoutError" "")]> ∅;
     Mcp.tools :=
       <["find_nodes" :=
           Mcp.MkTool (fun _ => Raise (MkExn "TimeoutError" ""))
                      "Busca nodos en el grafo por etiqueta y propiedades"]> ∅;
     Mcp.initialized := true |}.

Definition silent_client : Mcp.MCPClient :=
  Mcp.connect_to_server (Mcp.MkClient "orchestrator" ∅) "neo4j" silent_server.

End Cases.

(** ** llm/pattern_analyzer.py: usage statistics and capabilities *)

Module Monitoring.

Import Analyzer.

(** A float that the code computes from integer counters is kept as the
    expression it is computed by, not evaluated:
    [Percent num den] stands for [(num / den) * 100]. *)
Inductive Ratio : Type := Percent (num den : Z).

(** The value of [_calculate_efficiency_score]: [Full] is [100.0], and
    [Weighted c l e t] stands for
    [min(100.0, max(0.0, (c / t) * 30 + (l / t) * 40 + (1 - e / t) * 30))]. *)
Inductive Score : Type :=
| Full
| Weighted (cache_hits llm_queries errors total_queries : Z).

(** [self.stats[key]] *)
Definition stat (self : PatternAnalyzer) (key : string) : Outcome Z :=
  match stats self !! key with
  | Some n => Ok n
  | None => Raise (KeyError key)
  end.

Definition _calculate_efficiency_score (self : PatternAnalyzer)
  : Outcome Score :=
  obind (stat self "total_queries") (fun total =>
    if (total =? 0)%Z then Ok Full
    else
      obind (stat self "cache_hits") (fun hits =>
      obind (stat self "llm_queries") (fun llm =>
      obind (stat self "errors") (fun errs =>
        Ok (Weighted hits llm errs total))))).

Record StatsReport : Type := MkReport {
  usage_statistics : gmap string Z;
  llm_usage_percentage : Ratio;
  fallback_usage_percentage : Ratio;
  cache_hit_rate : Ratio;
  error_rate : Ratio;
  efficiency_score : Score
}.

Definition get_stats (self : PatternAnalyzer) : Outcome StatsReport :=
  obind (stat self "total_queries") (fun total =>
    let total_queries := Z.max total 1 in
    obind (stat self "llm_queries") (fun llm =>
    obind (stat self "fallback_queries") (fun fallback =>
    obind (stat self "cache_hits") (fun hits =>
    obind (stat self "errors") (fun errs =>
    obind (_calculate_efficiency_score self) (fun score =>
      Ok {| usage_statistics := stats self;
            llm_usage_percentage := Percent llm total_queries;
            fallback_usage_percentage := Percent fallback total_queries;
            cache_hit_rate := Percent hits total_queries;
            error_rate := Percent errs total_queries;
            efficiency_score := score |})))))).

(** [OrchestratorAgent.get_llm_stats]: the attribute [pattern_analyzer]
    always exists once the orchestrator is constructed. *)
Definition get_llm_stats (self : Orchestrator.OrchestratorAgent)
  : Outcome StatsReport :=
  get_stats (Orchestrator.pattern_analyzer self).

Record Capabilities : Type := MkCapabilities {
  cap_initialized : bool;
  cap_llm_available : bool;
  cap_fallback_only : bool;
  cap_current_size : nat;
  cap_max_size : Z;
  cap_hit_rate : Ratio;
  cap_query_stats : gmap string Z;
  cap_graph_patterns_count : nat;
  cap_sql_patterns_count : nat;
  cap_hybrid_patterns_count : nat;
  (** present when the remote stage is available: the client's status,
      or the text of the error its query raised *)
  cap_gemini_client : option (PyVal + string)
}.

(** [get_capabilities]; [gemini_status] is the outcome of
    [self.gemini_client.get_status()]. *)
Definition get_capabilities (gemini_status : Outcome PyVal)
  (self : PatternAnalyzer) : Outcome Capabilities :=
  match fallback_only self with
  | None => Raise (AttributeError "PatternAnalyzer" "fallback_only")
  | Some only =>
      obind (stat self "cache_hits") (fun hits =>
      obind (stat self "total_queries") (fun total =>
      obind (attr_fallback_patterns self) (fun table =>
        Ok {| cap_initialized := initialized self;
              cap_llm_available := llm_available self;
              cap_fallback_only := only;
              cap_current_size := length (analysis_cache self);
              cap_max_size := cache_max_size self;
              cap_hit_rate := Percent hits (Z.max total 1);
              cap_query_stats := stats self;
              cap_graph_patterns_count := length (graph_patterns table);
              cap_sql_patterns_count := length (sql_patterns table);
              cap_hybrid_patterns_count := length (hybrid_patterns table);
              cap_gemini_client :=
                if llm_available self then
                  Some match gemini_status with
                       | Ok status => inl status
                       | Raise e => inr (exn_msg e)
                       end
                else None |})))
  end.

End Monitoring.

(** ** Vocabulary of the further properties *)

Module Invariants.

Import Analyzer Orchestrator.

(** The fields of an analysis that decide how a query is routed. *)
Definition routing (a : Analysis)
  : bool * bool * bool * string * list string :=
  (needs_graph a, needs_relational a, needs_both a, complexity a,
   suggested_agents a).

(** An analysis the engine can act on: it suggests the graph agent, the
    relational agent or both, each store it needs is among them, needing
    both means needing each, and the complexity is one of the five
    values. *)
Definition well_routed (a : Analysis) : Prop :=
  In (suggested_agents a)
     [["neo4j"]; ["postgres"]; ["neo4j"; "postgres"]; ["postgres"; "neo4j"]] /\
  (needs_graph a = true -> In "neo4j" (suggested_agents a)) /\
  (needs_relational a = true -> In "postgres" (suggested_agents a)) /\
  (needs_both a = true -> needs_graph a = true /\ needs_relational a = true) /\
  In (complexity a) ["simple"; "hybrid"; "complex"; "exploratory"; "unknown"].

(** A counter of the usage statistics; a counter that does not exist
    counts as zero. *)
Definition counter (self : PatternAnalyzer) (key : string) : Z :=
  default 0%Z (stats self !! key).

(** The counters add up: no more answers by stage than queries, and no
    more hits and errors than queries. *)
Definition accounted (self : PatternAnalyzer) : Prop :=
  (counter self "cache_hits" + counter self "llm_queries"
   + counter self "fallback_queries" <= counter self "total_queries")%Z /\
  (counter self "cache_hits" + counter self "errors"
   <= counter self "total_queries")%Z.

(** The states of a classifier that was made by its constructor and
    then driven through its methods only. *)
Inductive built : PatternAnalyzer -> Prop :=
| built_init (max_size : Z) : built (__init__ max_size)
| built_initialize (w : World) (self : PatternAnalyzer) :
    built self -> built (snd (initialize w self))
| built_analyze (w : World) (query : string)
    (context : option (list (string * PyVal))) (self : PatternAnalyzer) :
    built self -> built (snd (analyze_query w query context self))
| built_clear (self : PatternAnalyzer) :
    built self -> built (snd (clear_cache self))
| built_close (self : PatternAnalyzer) :
    built self -> built (snd (close self)).

(** The emergency analysis as [analyze_query] returns it. *)
Definition emergency_answer (query : string)
  (context : option (list (string * PyVal))) (message : string) : Analysis :=
  set_error message
    (set_confidence 0.5
       (set_method "emergency"
          (_emergency_analysis query (default [] context)))).

(** A method keeps a relation between the state it starts in and the
    state it leaves, whether it returns or raises. *)
Definition keeps {A} (R : PatternAnalyzer -> PatternAnalyzer -> Prop)
  (m : AM A) : Prop :=
  forall self, R self (snd (m self)).

(** No counter is lower, none is created and none is removed. *)
Definition counters_grow (self self' : PatternAnalyzer) : Prop :=
  forall key,
    match stats self !! key, stats self' !! key with
    | Some n, Some n' => (n <= n')%Z
    | None, None => True
    | _, _ => False
    end.

(** The configuration of the classifier is untouched. *)
Definition same_configuration (self self' : PatternAnalyzer) : Prop :=
  fallback_only self' = fallback_only self /\
  fallback_patterns self' = fallback_patterns self /\
  cache_max_size self' = cache_max_size self.

(** What the constructor establishes: nothing is cached, the two
    attributes it does not assign do not exist, the remote stage is
    available exactly when the classifier is initialised, there is no
    counter [fallback_queries], no query was counted as a hit or as a
    remote answer, and the queries counted are those counted as errors. *)
Definition unconfigured (self : PatternAnalyzer) : Prop :=
  analysis_cache self = [] /\
  fallback_only self = None /\
  fallback_patterns self = None /\
  llm_available self = initialized self /\
  stats self !! "fallback_queries" = None /\
  stats self !! "cache_hits" = Some 0%Z /\
  stats self !! "llm_queries" = Some 0%Z /\
  exists n : Z,
    (0 <= n)%Z /\
    stats self !! "total_queries" = Some n /\ stats self !! "errors" = Some n.

(** Every analysis held by the cache satisfies [Q]. *)
Definition cache_all (Q : Analysis -> Prop) (self : PatternAnalyzer) : Prop :=
  Forall (fun entry => Q (snd entry)) (analysis_cache self).

(** A copy as the cache takes it: an answer of the remote or of the
    heuristic stage, with its confidence, and without the keys that
    describe one run. *)
Definition clean_copy (a : Analysis) : Prop :=
  ((analysis_method a = Some "llm" /\ confidence a = Some (0.9)%Q) \/
   (analysis_method a = Some "fallback" /\ confidence a = Some (0.7)%Q)) /\
  error a = None /\ emergency_mode a = None /\ from_cache a = None.

(** The four ways in which [analyze_query] answers: a stored copy
    marked as a hit, the analysis of the remote stage or of the
    heuristic stage with its marks, or the emergency analysis with the
    text of the exception. *)
Definition answer_of (w : World) (Q : Analysis -> Prop) (query : string)
  (context : list (string * PyVal)) (a : Analysis) : Prop :=
  (exists cached,
     Q cached /\ a = set_method "cache" (set_from_cache true cached)) \/
  (exists self r,
     _analyze_with_llm w self query context = Ok r /\
     a = set_confidence 0.9 (set_method "llm" r)) \/
  (exists self r,
     _analyze_with_fallback w self query context = Ok r /\
     a = set_confidence 0.7 (set_method "fallback" r)) \/
  (exists e,
     a = set_error (exn_msg e)
           (set_confidence 0.5
              (set_method "emergency" (_emergency_analysis query context)))).

End Invariants.

(** ** agents/orchestrator.py: the entry point and the workflow tool *)

Module Service.

Import Mcp Analyzer Orchestrator.

(** The dictionary returned by [process_query]: the engine's result
    with its metadata, or the error report.  The execution time is
    left out. *)
Inductive QueryResponse : Type :=
| Answer (data : ExecutionResult) (query : string) (analysis : Analysis)
    (strategy : string) (agents_used : list string)
| Failure (query : string) (error_message : string).

Definition process_query (w : World) (query : string)
  (context : option (list (string * PyVal))) (self : OrchestratorAgent)
  : QueryResponse * OrchestratorAgent :=
  let context := default [] context in
  let '(query_analysis, self) := _analyze_query w query self in
  let execution_strategy := _determine_execution_strategy query_analysis in
  match _execute_strategy w self query query_analysis execution_strategy
          context with
  | Ok result =>
      (Answer result query query_analysis execution_strategy
         (Orchestrator.agents_used result), self)
  | Raise e => (Failure query (exn_msg e), self)
  end.

(** The name of the type of a value, as error messages print it. *)
Definition type_name (value : PyVal) : string :=
  match value with
  | PNone => "NoneType"
  | PBool _ => "bool"
  | PInt _ => "int"
  | PFloat _ => "float"
  | PStr _ => "str"
  | PList _ => "list"
  | PDict _ => "dict"
  end.

(** [value[key]] for a string key: a dictionary has it or raises
    [KeyError]; no other value can be indexed by a string. *)
Definition subscript (value : PyVal) (key : string) : Outcome PyVal :=
  match value with
  | PDict d =>
      match dict_get d key with
      | Some v => Ok v
      | None => Raise (KeyError key)
      end
  | PList _ => Raise (TypeError "list indices must be integers or slices, not str")
  | PStr _ => Raise (TypeError "string indices must be integers, not 'str'")
  | other =>
      Raise (TypeError ("'" +:+ type_name other
                          +:+ "' object is not subscriptable"))
  end.

(** [value.get(key, default)]: only a dictionary has the method. *)
Definition get_or (value : PyVal) (key : string) (default : PyVal)
  : Outcome PyVal :=
  match value with
  | PDict d => Ok (match dict_get d key with Some v => v | None => default end)
  | other => Raise (AttributeError (type_name other) "get")
  end.

(** [MCPClient.execute_tool] as the workflow calls it, with whatever
    values the step holds. *)
Definition execute_tool_any (w : World) (self : MCPClient)
  (server_name tool_name tool_params : PyVal) : Outcome PyVal :=
  obind (registry_lookup (connected_servers self) server_name) (fun found =>
    match found with
    | None =>
        Raise (ValueError ("No conectado al servidor "
                             +:+ py_str (render w) server_name))
    | Some server =>
        let message :=
          {| Mcp.id := client_name self +:+ "_"
                         +:+ py_str (render w) tool_name
                         +:+ "_" +:+ loop_time w;
             Mcp.type := REQUEST; Mcp.method := "execute_tool";
             Mcp.params := Some [("tool_name", tool_name);
                                 ("tool_params", tool_params)];
             Mcp.result := PNone; Mcp.error := None |} in
        obind (handle_request w server message) (fun resp =>
          if truthy_opt_str (Mcp.error resp)
          then Raise (Exception ("Error ejecutando herramienta: "
                                   +:+ default "" (Mcp.error resp)))
          else Ok (Mcp.result resp))
    end).

Definition is_mapping (value : PyVal) : bool :=
  match value with PDict _ => true | _ => false end.

(** One entry of the workflow's [results]. *)
Inductive StepReport : Type :=
| Done (step : nat) (agent tool result : PyVal)
| Failed (step : nat) (agent tool : PyVal) (error : string).

Definition is_done (r : StepReport) : bool :=
  match r with Done _ _ _ _ => true | Failed _ _ _ _ => false end.

Definition step_number (r : StepReport) : nat :=
  match r with Done n _ _ _ => n | Failed n _ _ _ => n end.

(** The body of the loop of [_custom_workflow] for the step at index
    [i]: the [try] and its [except] branch, which reads the step
    again. *)
Definition run_step (w : World) (self : OrchestratorAgent) (i : nat)
  (step : PyVal) : Outcome StepReport :=
  match
    obind (subscript step "agent") (fun agent =>
    obind (subscript step "tool") (fun tool =>
    obind (get_or step "params" (PDict [])) (fun params =>
    obind (execute_tool_any w (client self) agent tool params)
      (fun step_result => Ok (Done (i + 1) agent tool step_result)))))
  with
  | Ok report => Ok report
  | Raise e =>
      obind (get_or step "agent" (PStr "unknown")) (fun agent =>
      obind (get_or step "tool" (PStr "unknown")) (fun tool =>
        Ok (Failed (i + 1) agent tool (exn_msg e))))
  end.

(** The loop: a failed step is recorded and ends it. *)
Fixpoint run_steps (w : World) (self : OrchestratorAgent) (i : nat)
  (steps : list PyVal) (results : list StepReport)
  : Outcome (list StepReport) :=
  match steps with
  | [] => Ok results
  | step :: rest =>
      obind (run_step w self i step) (fun report =>
        if is_done report
        then run_steps w self (S i) rest (results ++ [report])%list
        else Ok (results ++ [report])%list)
  end.

Record WorkflowReport : Type := MkWorkflowReport {
  workflow_steps : nat;
  completed_steps : nat;
  results : list StepReport;
  success : bool
}.

Definition _custom_workflow (w : World) (self : OrchestratorAgent)
  (steps : list PyVal) : Outcome WorkflowReport :=
  obind (run_steps w self 0 steps []) (fun results =>
    Ok {| workflow_steps := length steps;
          completed_steps := length results;
          results := results;
          success := forallb is_done results |}).

(** A workflow of three steps: a Cypher query that the sample graph
    agent rejects, and two steps that are not reached. *)
Definition sample_workflow : list PyVal :=
  [PDict [("agent", PStr "neo4j"); ("tool", PStr "execute_cypher");
          ("params", PDict [("query", PStr "MATCH (n) RETURN n")])];
   PDict [("agent", PStr "postgres"); ("tool", PStr "execute_sql")];
   PDict [("tool", PStr "execute_sql")]].

End Service.

(** ** llm/gemini_client.py: the retry loop of [generate_content] *)

Module Retry.

(** What one call of the model within the time limit gives: the text of
    the response, the time limit of [wait_for], or an exception raised
    by the call itself. *)
Inductive ModelCall : Type :=
| Text (text : string)
| TimedOut
| Broken (e : PyExn).

(** What the loop does, in order: calls of the model and waits. *)
Inductive Event : Type :=
| Call (attempt : nat)
| Sleep (seconds : Z).

Definition RuntimeError (m : string) : PyExn := MkExn "RuntimeError" m.
Definition TimeoutError (m : string) : PyExn := MkExn "TimeoutError" m.

(** [isinstance(e, asyncio.TimeoutError)]: since Python 3.11 that class
    is the built-in [TimeoutError], so an exception of this class that
    the call itself raises is caught by the first handler, like the time
    limit. *)
Definition is_timeout (e : PyExn) : bool :=
  String.eqb (exn_class e) "TimeoutError".

(** The loop [for attempt in range(self.max_retries)] from [attempt]
    on, with [remaining] iterations left; [model attempt] is the
    outcome of the call made in that iteration.  [base_delay] is [1.0],
    so the wait after attempt [k] is [2 ** k] seconds. *)
Fixpoint attempts (max_retries : Z) (model : nat -> ModelCall)
  (remaining attempt : nat) : Outcome string * list Event :=
  match remaining with
  | O =>
      (Raise (RuntimeError ("Falló después de " +:+ pretty max_retries
                              +:+ " intentos")), [])
  | S remaining' =>
      let last := (Z.of_nat attempt =? max_retries - 1)%Z in
      let failed (e : PyExn) :=
        if last then (Raise e, [Call attempt])
        else
          let '(o, trace) :=
            attempts max_retries model remaining' (S attempt) in
          (o, Call attempt :: Sleep (2 ^ Z.of_nat attempt) :: trace) in
      let time_limit :=
        if last then
          (Raise (TimeoutError ("Timeout después de " +:+ pretty max_retries
                                  +:+ " intentos")),
           [Call attempt])
        else
          let '(o, trace) :=
            attempts max_retries model remaining' (S attempt) in
          (o, Call attempt :: trace) in
      match model attempt with
      | Text text =>
          let result_text := strip text in
          if String.eqb result_text ""
          then failed (ValueError "Respuesta vacía del modelo")
          else (Ok result_text, [Call attempt])
      | TimedOut => time_limit
      | Broken e => if is_timeout e then time_limit else failed e
      end
  end.

(** [generate_content]: the client is initialised first when it is not
    yet; [max_retries] is [int(os.getenv("LLM_MAX_RETRIES", "3"))]. *)
Definition generate_content (w : World) (initialized : bool)
  (max_retries : Z) (model : nat -> ModelCall)
  : Outcome string * list Event :=
  match (if initialized then Ok tt else gemini_initialize w) with
  | Raise e => (Raise e, [])
  | Ok _ => attempts max_retries model (Z.to_nat max_retries) 0
  end.

(** The calls made and the seconds waited in a trace. *)
Definition calls (trace : list Event) : list nat :=
  omap (fun ev => match ev with Call k => Some k | Sleep _ => None end) trace.

Definition seconds_waited (trace : list Event) : Z :=
  foldr (fun ev acc => match ev with Sleep s => s + acc | Call _ => acc end)%Z
        0%Z trace.

(** A response whose text is not blank. *)
Definition usable (c : ModelCall) : bool :=
  match c with
  | Text text => negb (String.eqb (strip text) "")
  | _ => false
  end.


(** A model that times out, answers with blanks, and then answers. *)
Definition flaky_model (attempt : nat) : ModelCall :=
  match attempt with
  | 0%nat => TimedOut
  | 1%nat => Text "   "
  | _ => Text " {} "
  end.

End Retry.

(** ** llm/gemini_client.py: cleaning the reply before it is parsed *)

Module Parsing.

(** The line separator. *)
Definition newline : ascii := "010"%char.
Definition nl : string := String newline "".

(** [s.find(c)] and [s.rfind(c)] for a one-character [c]: the index of
    the first and of the last occurrence, [-1] when there is none. *)
Fixpoint first_index (c : ascii) (s : string) : option nat :=
  match s with
  | EmptyString => None
  | String c' s' =>
      if Ascii.eqb c' c then Some 0%nat else option_map S (first_index c s')
  end.

Fixpoint last_index (c : ascii) (s : string) : option nat :=
  match s with
  | EmptyString => None
  | String c' s' =>
      match last_index c s' with
      | Some i => Some (S i)
      | None => if Ascii.eqb c' c then Some 0%nat else None
      end
  end.

Definition py_index (o : option nat) : Z :=
  match o with Some i => Z.of_nat i | None => (-1)%Z end.

Definition find (c : ascii) (s : string) : Z := py_index (first_index c s).
Definition rfind (c : ascii) (s : string) : Z := py_index (last_index c s).

(** [s[start:stop]]: a negative bound counts from the end, and both are
    clipped to the string. *)
Definition slice (s : string) (start stop : Z) : string :=
  let len := Z.of_nat (String.length s) in
  let clip (i : Z) :=
    if (i <? 0)%Z then Z.max 0 (i + len) else Z.min i len in
  let start := clip start in
  let stop := clip stop in
  if (stop <=? start)%Z then ""
  else substring (Z.to_nat start) (Z.to_nat (stop - start)) s.

(** [s.split('\n')]: the text before the first separator and the
    lines of the rest; the result is never empty. *)
Fixpoint split_lines (s : string) : list string :=
  match s with
  | EmptyString => [""]
  | String c s' =>
      match split_lines s' with
      | [] => [String c ""]
      | line :: rest =>
          if Ascii.eqb c newline then "" :: line :: rest
          else String c line :: rest
      end
  end.

(** The lines kept from a fenced block: not blank, and not starting
    with the fence. *)
Definition json_line (line : string) : bool :=
  negb (String.eqb (strip line) "") && negb (String.prefix "```" line).

(** The text that [_parse_analysis_response] hands to [json.loads]. *)
Definition clean_response (response : string) : string :=
  let clean_response := strip response in
  if String.prefix "```json" clean_response then
    let start := find "{" clean_response in
    let stop := (rfind "}" clean_response + 1)%Z in
    slice clean_response start stop
  else if String.prefix "```" clean_response then
    let lines := split_lines clean_response in
    String.concat nl (List.filter json_line lines)
  else clean_response.

(** [_parse_analysis_response]; [json_loads] is [json.loads], which
    raises [JSONDecodeError] on a text that is not JSON. *)
Definition _parse_analysis_response (json_loads : string -> Outcome PyVal)
  (response : string) : Outcome PyVal :=
  match json_loads (clean_response response) with
  | Ok result => Ok result
  | Raise e =>
      if String.eqb (exn_class e) "JSONDecodeError"
      then Raise (ValueError "Respuesta inválida del LLM: no es JSON válido")
      else Raise e
  end.

End Parsing.

(* ===================================================================== *)
(** * Part II.  Properties                                                *)
(* ===================================================================== *)

Import Analyzer Orchestrator Props.

(** ** Strings and dictionaries *)

Lemma list_in_In (x : string) (xs : list string) :
  list_in x xs = true <-> In x xs.
Proof.
  unfold list_in. rewrite existsb_exists. split.
  - intros (y & Hy & Heq). apply String.eqb_eq in Heq. now subst.
  - intros H. exists x. split; [assumption | apply String.eqb_refl].
Qed.

Lemma list_in_false (x : string) (xs : list string) :
  list_in x xs = false <-> ~ In x xs.
Proof.
  rewrite <- list_in_In. destruct (list_in x xs); split; intros; congruence.
Qed.

Lemma dict_get_set_same {V} (d : list (string * V)) (k : string) (v : V) :
  dict_get (dict_set d k v) k = Some v.
Proof.
  induction d as [| [k' x] rest IH]; simpl.
  - now rewrite String.eqb_refl.
  - destruct (String.eqb k' k) eqn:Hk; simpl; now rewrite Hk.
Qed.

Lemma dict_get_set_other {V} (d : list (string * V)) (k k' : string) (v : V) :
  k' <> k -> dict_get (dict_set d k v) k' = dict_get d k'.
Proof.
  intros Hne. induction d as [| [k0 x] rest IH]; simpl.
  - apply String.eqb_neq in Hne. rewrite String.eqb_sym. now rewrite Hne.
  - destruct (String.eqb k0 k) eqn:Hk; simpl.
    + apply String.eqb_eq in Hk. subst k0.
      assert (String.eqb k k' = false) as ->; [| reflexivity].
      apply String.eqb_neq. congruence.
    + destruct (String.eqb k0 k'); [reflexivity | exact IH].
Qed.

Lemma In_drop {A} (n : nat) (l : list A) (x : A) :
  In x (drop n l) -> In x l.
Proof.
  revert n. induction l as [| y l IH]; intros [| n]; simpl; auto.
  intros H. right. now apply (IH n).
Qed.

Lemma dict_set_length {V} (d : list (string * V)) (k : string) (v : V) :
  (length (dict_set d k v) <= S (length d))%nat.
Proof.
  induction d as [| [k' x] rest IH]; simpl.
  - lia.
  - destruct (String.eqb k' k); simpl; lia.
Qed.

Lemma dict_get_None {V} (d : list (string * V)) (k : string) :
  dict_get d k = None <-> ~ In k (map fst d).
Proof.
  induction d as [| [k' x] rest IH]; simpl.
  - tauto.
  - destruct (String.eqb_spec k' k) as [-> | Hne].
    + split; [discriminate | intros H; exfalso; apply H; now left].
    + rewrite IH. tauto.
Qed.

Lemma dict_set_fresh {V} (d : list (string * V)) (k : string) (v : V) :
  dict_get d k = None -> dict_set d k v = (d ++ [(k, v)])%list.
Proof.
  induction d as [| [k' x] rest IH]; simpl.
  - reflexivity.
  - destruct (String.eqb k' k); [discriminate |].
    intros H. now rewrite IH.
Qed.

Lemma dict_get_In {V} (d : list (string * V)) (k : string) (v : V) :
  List.NoDup (map fst d) -> In (k, v) d -> dict_get d k = Some v.
Proof.
  induction d as [| [k' x] rest IH]; simpl; [tauto |].
  intros Hnd [Heq | Hin].
  - injection Heq as -> ->. now rewrite String.eqb_refl.
  - apply List.NoDup_cons_iff in Hnd as [Hfresh Hnd].
    destruct (String.eqb_spec k' k) as [-> | Hne].
    + exfalso. apply Hfresh. change k with (fst (k, v)). now apply in_map.
    + now apply IH.
Qed.

(** Deleting the first key of a dictionary leaves its tail: the step of
    the eviction loop. *)
Lemma dict_del_oldest {V} (k : string) (v : V) (d : list (string * V)) :
  dict_del ((k, v) :: d) k = d.
Proof. simpl. now rewrite String.eqb_refl. Qed.

(** ** Strategy selector *)

Section Selector.

(** C3: the strategy selector depends on [needs_both], [complexity] and
    [suggested_agents] only, and follows the four-row table: both and
    hybrid gives sequential; both and any other complexity gives
    parallel; not both with exactly one suggested agent gives
    single_agent; everything else gives parallel. *)
Theorem strategy_selector_table (a : Analysis) :
  (needs_both a = true -> complexity a = "hybrid" ->
   _determine_execution_strategy a = "sequential") /\
  (needs_both a = true -> complexity a <> "hybrid" ->
   _determine_execution_strategy a = "parallel") /\
  (needs_both a = false -> length (suggested_agents a) = 1%nat ->
   _determine_execution_strategy a = "single_agent") /\
  (needs_both a = false -> length (suggested_agents a) <> 1%nat ->
   _determine_execution_strategy a = "parallel") /\
  (forall b : Analysis,
     needs_both b = needs_both a -> complexity b = complexity a ->
     suggested_agents b = suggested_agents a ->
     _determine_execution_strategy b = _determine_execution_strategy a).
Proof.
  unfold _determine_execution_strategy. repeat split.
  - intros -> ->. reflexivity.
  - intros -> Hcx. apply String.eqb_neq in Hcx. now rewrite Hcx.
  - intros -> ->. reflexivity.
  - intros -> Hlen. apply Nat.eqb_neq in Hlen. now rewrite Hlen.
  - intros b -> -> ->. reflexivity.
Qed.

Lemma strategy_selector_table_witness :
  _determine_execution_strategy
    (analysis_for true "hybrid" ["neo4j"; "postgres"]) = "sequential" /\
  _determine_execution_strategy
    (analysis_for true "simple" ["neo4j"; "postgres"]) = "parallel" /\
  _determine_execution_strategy
    (analysis_for false "simple" ["postgres"]) = "single_agent" /\
  _determine_execution_strategy
    (analysis_for false "simple" ["neo4j"]) = "single_agent" /\
  _determine_execution_strategy
    (analysis_for false "simple" ["neo4j"; "postgres"]) = "parallel".
Proof.
  split; [| split; [| split; [| split]]].
  - destruct (strategy_selector_table
                (analysis_for true "hybrid" ["neo4j"; "postgres"]))
      as (H & _).
    apply H; reflexivity.
  - destruct (strategy_selector_table
                (analysis_for true "simple" ["neo4j"; "postgres"]))
      as (_ & H & _).
    apply H; [reflexivity | simpl; discriminate].
  - destruct (strategy_selector_table (analysis_for false "simple" ["postgres"]))
      as (_ & _ & H & _).
    apply H; reflexivity.
  - destruct (strategy_selector_table (analysis_for false "simple" ["neo4j"]))
      as (_ & _ & H & _).
    apply H; reflexivity.
  - destruct (strategy_selector_table
                (analysis_for false "simple" ["neo4j"; "postgres"]))
      as (_ & _ & _ & H & _).
    apply H; [reflexivity | simpl; discriminate].
Defined.

End Selector.

(** ** Capability protocol *)

Section Protocol.

Variable w : World.
Variable self : Mcp.MCPServer.

(** Whatever the body of [handle_request] returns is a response to the
    message it was given. *)
Lemma handle_request_body_response (message resp : Mcp.MCPMessage) :
  Mcp.handle_request_body w self message = Ok resp ->
  exists res err, resp = Mcp.response message res err.
Proof.
  unfold Mcp.handle_request_body, Mcp.registry_lookup, obind.
  intros H. repeat case_match; simplify_eq; eauto.
Qed.

Lemma handle_request_ok (message : Mcp.MCPMessage) :
  exists res err,
    Mcp.handle_request w self message = Ok (Mcp.response message res err).
Proof.
  unfold Mcp.handle_request, try_except.
  destruct (Mcp.handle_request_body w self message) as [resp | e] eqn:Hbody.
  - apply handle_request_body_response in Hbody as (res & err & ->). eauto.
  - eauto.
Qed.

(** C8: [handle_request] answers every message with a response and never
    raises; a request for an unregistered resource or tool is answered
    with the not-found text in the error field and no result; and the
    failure of a registered tool's function comes back in the error
    field of the response. *)
Theorem handle_request_never_raises (message : Mcp.MCPMessage) :
  (exists resp,
     Mcp.handle_request w self message = Ok resp /\
     Mcp.type resp = Mcp.RESPONSE /\
     Mcp.id resp = Mcp.id message /\
     Mcp.method resp = Mcp.method message) /\
  (forall d n,
     Mcp.method message = "get_resource" ->
     Mcp.params message = Some d ->
     dict_get d "resource_name" = Some (PStr n) ->
     Mcp.resources self !! n = None ->
     exists resp,
       Mcp.handle_request w self message = Ok resp /\
       Mcp.error resp = Some (Mcp.resource_not_found (Mcp.agent_class self) n) /\
       Mcp.result resp = PNone) /\
  (forall d n,
     Mcp.method message = "execute_tool" ->
     Mcp.params message = Some d ->
     dict_get d "tool_name" = Some (PStr n) ->
     Mcp.tools self !! n = None ->
     exists resp,
       Mcp.handle_request w self message = Ok resp /\
       Mcp.error resp = Some (Mcp.tool_not_found (Mcp.agent_class self) n) /\
       Mcp.result resp = PNone) /\
  (forall d n tool e,
     Mcp.method message = "execute_tool" ->
     Mcp.params message = Some d ->
     dict_get d "tool_name" = Some (PStr n) ->
     Mcp.tools self !! n = Some tool ->
     Mcp.call_tool_func tool (default (PDict []) (dict_get d "tool_params"))
       = Raise e ->
     exists resp,
       Mcp.handle_request w self message = Ok resp /\
       Mcp.error resp = Some (exn_msg e) /\
       Mcp.result resp = PNone).
Proof.
  split; [| split; [| split]].
  - destruct (handle_request_ok message) as (res & err & H).
    exists (Mcp.response message res err). now rewrite H.
  - intros d n Hm Hp Hd Hr. eexists. split.
    + unfold Mcp.handle_request, Mcp.handle_request_body, Mcp.params_get,
        Mcp.registry_lookup.
      rewrite Hm, Hp, Hd. simpl. rewrite Hr. reflexivity.
    + split; reflexivity.
  - intros d n Hm Hp Hd Hr. eexists. split.
    + unfold Mcp.handle_request, Mcp.handle_request_body, Mcp.params_get,
        Mcp.registry_lookup.
      rewrite Hm, Hp, Hd. simpl. rewrite Hr. reflexivity.
    + split; reflexivity.
  - intros d n tool e Hm Hp Hd Hr Hcall. eexists. split.
    + unfold Mcp.handle_request, Mcp.handle_request_body, Mcp.params_get,
        Mcp.registry_lookup.
      rewrite Hm, Hp, Hd. simpl. rewrite Hr. simpl.
      destruct (dict_get d "tool_params"); simpl in Hcall |- *;
        rewrite Hcall; reflexivity.
    + split; reflexivity.
Qed.

End Protocol.

(** The three cases of C8 on the sample graph agent: an unknown
    resource, an unknown tool, and the tool [execute_cypher], whose
    function raises. *)
Lemma handle_request_never_raises_witness :
  (exists resp,
     Mcp.handle_request Samples.world Samples.neo4j_server
       (Samples.request "get_resource" [("resource_name", PStr "nope")])
       = Ok resp /\
     Mcp.error resp = Some "Recurso 'nope' no encontrado" /\
     Mcp.result resp = PNone) /\
  (exists resp,
     Mcp.handle_request Samples.world Samples.neo4j_server
       (Samples.request "execute_tool" [("tool_name", PStr "nope")])
       = Ok resp /\
     Mcp.error resp = Some "Herramienta 'nope' no encontrada" /\
     Mcp.result resp = PNone) /\
  (exists resp,
     Mcp.handle_request Samples.world Samples.neo4j_server
       (Samples.request "execute_tool"
          [("tool_name", PStr "execute_cypher");
           ("tool_params", PDict [("query", PStr "MATCH")])]) = Ok resp /\
     Mcp.error resp = Some "syntax error" /\
     Mcp.result resp = PNone).
Proof.
  split; [| split].
  - destruct (handle_request_never_raises Samples.world Samples.neo4j_server
                (Samples.request "get_resource"
                   [("resource_name", PStr "nope")]))
      as (_ & H & _).
    apply (H [("resource_name", PStr "nope")] "nope"); reflexivity.
  - destruct (handle_request_never_raises Samples.world Samples.neo4j_server
                (Samples.request "execute_tool" [("tool_name", PStr "nope")]))
      as (_ & _ & H & _).
    apply (H [("tool_name", PStr "nope")] "nope"); reflexivity.
  - destruct (handle_request_never_raises Samples.world Samples.neo4j_server
                (Samples.request "execute_tool"
                   [("tool_name", PStr "execute_cypher");
                    ("tool_params", PDict [("query", PStr "MATCH")])]))
      as (_ & _ & _ & H).
    apply (H [("tool_name", PStr "execute_cypher");
              ("tool_params", PDict [("query", PStr "MATCH")])]
             "execute_cypher"
             (Mcp.MkTool (fun _ => Raise (MkExn "ClientError" "syntax error"))
                "Ejecuta una consulta Cypher personalizada en el grafo")
             (MkExn "ClientError" "syntax error")); reflexivity.
Defined.

(** A resource that is registered and succeeds reaches the requester
    unchanged. *)
Lemma request_resource_registered (w : World) (c : Mcp.MCPClient)
  (srv : Mcp.MCPServer) (server_name resource_name : string) (v : PyVal) :
  Mcp.connected_servers c !! server_name = Some srv ->
  Mcp.resources srv !! resource_name = Some (Ok v) ->
  Mcp.request_resource w c server_name resource_name = Ok v.
Proof.
  intros Hsrv Hres. unfold Mcp.request_resource. rewrite Hsrv.
  unfold Mcp.handle_request, Mcp.handle_request_body, Mcp.params_get,
    Mcp.registry_lookup.
  simpl. rewrite Hres. reflexivity.
Qed.

(** ** Execution engine *)

Section EngineProps.

Variables qn qp : Translator.

Lemma combine_two (r1 r2 : Outcome PyVal) :
  combine_results ["neo4j"; "postgres"] 0 [r1; r2] [] =
  Ok [("neo4j", match r1 with
                | Raise e => PDict [("error", PStr (exn_msg e))]
                | Ok v => v
                end);
      ("postgres", match r2 with
                   | Raise e => PDict [("error", PStr (exn_msg e))]
                   | Ok v => v
                   end)].
Proof. reflexivity. Qed.

(** With both agents suggested, the parallel shape always returns, with
    one entry per agent. *)
Lemma execute_parallel_both (query : string) (analysis : Analysis)
  (context : list (string * PyVal)) :
  In "neo4j" (suggested_agents analysis) ->
  In "postgres" (suggested_agents analysis) ->
  _execute_parallel qn qp query analysis context =
  Ok {| results :=
          ByAgent [("neo4j", match qn query context with
                             | Raise e => PDict [("error", PStr (exn_msg e))]
                             | Ok v => v
                             end);
                   ("postgres", match qp query context with
                                | Raise e => PDict [("error", PStr (exn_msg e))]
                                | Ok v => v
                                end)];
        agents_used := ["neo4j"; "postgres"];
        strategy := "parallel" |}.
Proof.
  intros Hn Hp. apply list_in_In in Hn, Hp.
  unfold _execute_parallel. rewrite Hn, Hp. simpl app.
  rewrite combine_two. reflexivity.
Qed.

(** C4: a parallel execution over the two suggested agents in which
    exactly one agent's call raises still returns a result: the data of
    the agent that succeeded is stored under its id, the entry
    [{error: message}] under the id of the one that failed, and
    [agents_used] lists both. *)
Theorem parallel_tolerates_one_failure (query : string) (analysis : Analysis)
  (context : list (string * PyVal)) :
  In "neo4j" (suggested_agents analysis) ->
  In "postgres" (suggested_agents analysis) ->
  (forall e v,
     qn query context = Raise e -> qp query context = Ok v ->
     exists r d,
       _execute_parallel qn qp query analysis context = Ok r /\
       strategy r = "parallel" /\
       agents_used r = ["neo4j"; "postgres"] /\
       results r = ByAgent d /\
       dict_get d "postgres" = Some v /\
       dict_get d "neo4j" = Some (PDict [("error", PStr (exn_msg e))])) /\
  (forall e v,
     qn query context = Ok v -> qp query context = Raise e ->
     exists r d,
       _execute_parallel qn qp query analysis context = Ok r /\
       strategy r = "parallel" /\
       agents_used r = ["neo4j"; "postgres"] /\
       results r = ByAgent d /\
       dict_get d "neo4j" = Some v /\
       dict_get d "postgres" = Some (PDict [("error", PStr (exn_msg e))])).
Proof.
  intros Hn Hp. split; intros e v Hqn Hqp;
    rewrite (execute_parallel_both query analysis context Hn Hp);
    rewrite Hqn, Hqp; do 2 eexists; repeat split.
Qed.

(** C5, as the code has it: when the suggested agents include both the
    relational and the graph agent and both calls succeed, the result
    has exactly two steps, the relational one first, and the graph call
    is made with the caller's context in which the key [postgres_data]
    holds the raw output of the relational step; when a call raises, so
    does the execution; when the suggested agents do not include both,
    the step list and [agents_used] are empty. *)
Theorem sequential_two_steps (query : string) (analysis : Analysis)
  (context : list (string * PyVal)) :
  (In "postgres" (suggested_agents analysis) ->
   In "neo4j" (suggested_agents analysis) ->
   (forall r1 r2,
      qp query context = Ok r1 ->
      qn query (dict_set context "postgres_data" r1) = Ok r2 ->
      _execute_sequential qn qp query analysis context =
      Ok {| results := Steps [MkStep "postgres" r1; MkStep "neo4j" r2];
            agents_used := ["postgres"; "neo4j"];
            strategy := "sequential" |}) /\
   (forall e,
      qp query context = Raise e ->
      _execute_sequential qn qp query analysis context = Raise e) /\
   (forall r1 e,
      qp query context = Ok r1 ->
      qn query (dict_set context "postgres_data" r1) = Raise e ->
      _execute_sequential qn qp query analysis context = Raise e)) /\
  (~ (In "postgres" (suggested_agents analysis) /\
      In "neo4j" (suggested_agents analysis)) ->
   _execute_sequential qn qp query analysis context =
   Ok {| results := Steps []; agents_used := []; strategy := "sequential" |}) /\
  (forall r1,
     dict_get (dict_set context "postgres_data" r1) "postgres_data" = Some r1 /\
     forall k, k <> "postgres_data" ->
       dict_get (dict_set context "postgres_data" r1) k = dict_get context k).
Proof.
  unfold _execute_sequential. split; [| split].
  - intros Hp Hn. apply list_in_In in Hp, Hn. rewrite Hp, Hn. simpl.
    repeat split.
    + intros r1 r2 -> H2. simpl. now rewrite H2.
    + intros e ->. reflexivity.
    + intros r1 e -> H2. simpl. now rewrite H2.
  - intros Hnot.
    destruct (list_in "postgres" (suggested_agents analysis)) eqn:Hp;
      destruct (list_in "neo4j" (suggested_agents analysis)) eqn:Hn;
      try reflexivity.
    exfalso. apply Hnot. split; now apply list_in_In.
  - intros r1. split.
    + apply dict_get_set_same.
    + intros k Hk. now apply dict_get_set_other.
Qed.

End EngineProps.

(** C4 on the sample orchestrator whose relational agent is down: the
    graph statistics arrive, the relational failure is recorded. *)
Lemma parallel_tolerates_one_failure_witness :
  exists r d,
    execute_parallel Samples.world
      (Samples.orchestrator_with Samples.postgres_down Samples.analyzer_ready)
      "hola" (analysis_for true "simple" ["neo4j"; "postgres"]) [] = Ok r /\
    strategy r = "parallel" /\
    agents_used r = ["neo4j"; "postgres"] /\
    results r = ByAgent d /\
    dict_get d "neo4j" = Some Samples.stats_payload /\
    dict_get d "postgres" =
      Some (PDict [("error",
                    PStr "Error obteniendo recurso: connection refused")]).
Proof.
  destruct (parallel_tolerates_one_failure
              (_query_neo4j_natural Samples.world
                 (Samples.orchestrator_with Samples.postgres_down
                    Samples.analyzer_ready))
              (_query_postgres_natural Samples.world
                 (Samples.orchestrator_with Samples.postgres_down
                    Samples.analyzer_ready))
              "hola" (analysis_for true "simple" ["neo4j"; "postgres"]) [])
    as (_ & H).
  - simpl. auto.
  - simpl. auto.
  - apply (H (Exception "Error obteniendo recurso: connection refused")
             Samples.stats_payload); reflexivity.
Defined.

Lemma pair_is_exactly_the_pair : exactly_the_pair ["neo4j"; "postgres"].
Proof. intros x. simpl. intuition. Qed.

(** C5 as stated fails on the code in two ways.  A suggested-agent list
    that is not the pair but contains it still produces the two steps;
    and with the pair itself, an agent call that raises ends the
    execution with that error and no result. *)
Lemma sequential_not_exactly_pair_counterexample :
  (~ exactly_the_pair ["postgres"; "neo4j"; "orchestrator"] /\
   execute_sequential Samples.world Samples.orchestrator "hola"
     (analysis_for true "hybrid" ["postgres"; "neo4j"; "orchestrator"]) [] =
   Ok {| results := Steps [MkStep "postgres" Samples.tables_payload;
                           MkStep "neo4j" Samples.stats_payload];
         agents_used := ["postgres"; "neo4j"];
         strategy := "sequential" |}) /\
  (exactly_the_pair ["neo4j"; "postgres"] /\
   execute_sequential Samples.world
     (Samples.orchestrator_with Samples.postgres_down Samples.analyzer_ready)
     "hola" (analysis_for true "hybrid" ["neo4j"; "postgres"]) [] =
   Raise (Exception "Error obteniendo recurso: connection refused")).
Proof.
  split; split.
  - intros H. destruct (H "orchestrator") as [Hin _].
    destruct Hin as [Heq | Heq]; [simpl; auto | discriminate | discriminate].
  - reflexivity.
  - exact pair_is_exactly_the_pair.
  - reflexivity.
Qed.

(** The amended C5 on the sample orchestrator. *)
Lemma sequential_two_steps_witness :
  execute_sequential Samples.world Samples.orchestrator "hola"
    (analysis_for true "hybrid" ["neo4j"; "postgres"]) [("user", PStr "ana")] =
  Ok {| results := Steps [MkStep "postgres" Samples.tables_payload;
                          MkStep "neo4j" Samples.stats_payload];
        agents_used := ["postgres"; "neo4j"];
        strategy := "sequential" |} /\
  execute_sequential Samples.world Samples.orchestrator "hola"
    (analysis_for false "simple" ["neo4j"]) [("user", PStr "ana")] =
  Ok {| results := Steps []; agents_used := []; strategy := "sequential" |}.
Proof.
  split.
  - destruct (sequential_two_steps
                (_query_neo4j_natural Samples.world Samples.orchestrator)
                (_query_postgres_natural Samples.world Samples.orchestrator)
                "hola" (analysis_for true "hybrid" ["neo4j"; "postgres"])
                [("user", PStr "ana")]) as (H & _).
    destruct H as (H & _); [simpl; auto | simpl; auto |].
    apply H; reflexivity.
  - destruct (sequential_two_steps
                (_query_neo4j_natural Samples.world Samples.orchestrator)
                (_query_postgres_natural Samples.world Samples.orchestrator)
                "hola" (analysis_for false "simple" ["neo4j"])
                [("user", PStr "ana")]) as (_ & H & _).
    apply H. simpl. intros [[Hp | []] _]. discriminate.
Defined.

(** ** Analysis wrapper of the orchestrator *)

Section Wrapper.

Variable w : World.

(** C10: when the classifier's [analyze_query] raises to the
    orchestrator (as it does when its initialisation fails), the wrapper
    [_analyze_query] answers with the relational-only default; unlike
    the classifier's emergency stage it suggests one agent, so the
    selector picks single_agent and the query goes to the relational
    translator alone. *)
Theorem analysis_failure_defaults_to_relational (query : string)
  (self : OrchestratorAgent) :
  (forall e0,
     initialized (pattern_analyzer self) = false ->
     gemini_initialize w = Raise e0 ->
     fst (analyze_query w query None (pattern_analyzer self)) =
     Raise (Exception ("No se pudo inicializar el analizador IA: "
                         +:+ exn_msg e0))) /\
  (forall e,
     fst (analyze_query w query None (pattern_analyzer self)) = Raise e ->
     exists a,
       fst (_analyze_query w query self) = a /\
       needs_relational a = true /\
       needs_graph a = false /\
       needs_both a = false /\
       complexity a = "simple" /\
       suggested_agents a = ["postgres"] /\
       analysis_method a = Some "emergency_default" /\
       confidence a = Some (0.5)%Q /\
       error a = Some (exn_msg e) /\
       suggested_agents (_emergency_analysis query []) = ["neo4j"; "postgres"] /\
       _determine_execution_strategy a = "single_agent" /\
       forall context,
         _execute_strategy w self query a "single_agent" context =
         obind (_query_postgres_natural w self query context) (fun res =>
           Ok {| results := Raw res;
                 agents_used := ["postgres"];
                 strategy := "single_agent" |})).
Proof.
  split.
  - intros e0 Hinit Hgem.
    unfold analyze_query, bind, get, initialize. simpl.
    rewrite Hinit. simpl. rewrite Hinit, Hgem. reflexivity.
  - intros e Hraise. unfold _analyze_query.
    destruct (analyze_query w query None (pattern_analyzer self))
      as [[a | e'] pa]; simpl in Hraise; [discriminate |].
    injection Hraise as ->.
    exists (emergency_default query e). repeat split.
Qed.

End Wrapper.

(** C10 with a remote service that cannot be initialised: the query is
    answered by the relational agent's schema. *)
Lemma analysis_failure_defaults_to_relational_witness :
  exists a,
    fst (_analyze_query Samples.world_offline "hola"
           (Samples.orchestrator_with Samples.postgres_server (__init__ 100)))
      = a /\
    suggested_agents a = ["postgres"] /\
    analysis_method a = Some "emergency_default" /\
    error a = Some "No se pudo inicializar el analizador IA: Error inicializando cliente Gemini: offline" /\
    _determine_execution_strategy a = "single_agent" /\
    _execute_strategy Samples.world_offline
      (Samples.orchestrator_with Samples.postgres_server (__init__ 100))
      "hola" a "single_agent" [] =
    Ok {| results := Raw Samples.tables_payload;
          agents_used := ["postgres"];
          strategy := "single_agent" |}.
Proof.
  destruct (analysis_failure_defaults_to_relational Samples.world_offline "hola"
              (Samples.orchestrator_with Samples.postgres_server (__init__ 100)))
    as (Hinit & Hdefault).
  specialize (Hinit (MkExn "RuntimeError"
                       "Error inicializando cliente Gemini: offline")
                eq_refl eq_refl).
  destruct (Hdefault _ Hinit)
    as (a & Ha & _ & _ & _ & _ & Hag & Hm & _ & He & _ & Hs & Hx).
  exists a. repeat split; try assumption.
  rewrite (Hx []). subst a. reflexivity.
Defined.

(** ** The graph-schema scenario *)

Section Scenario.

Variable w : World.
Variable self : OrchestratorAgent.

(** C9, as the code has it.  For the query "show me the graph schema":
    a heuristic stage that finds one graph pattern and no relational or
    hybrid pattern yields the graph-only analysis of complexity
    [simple]; the selector then chooses single_agent; the graph
    translator, whose keywords are "esquema", "estructura" and "labels",
    finds none of its keywords in this query and fetches the resource
    [graph_stats]; a query that contains one of the three keywords
    fetches [graph_schema]; and the payload of a registered resource is
    returned unchanged as [results]. *)
Theorem graph_schema_scenario (context : list (string * PyVal)) :
  (forall pa table g s h,
     fallback_patterns pa = Some table ->
     scan_patterns w "graph: " (graph_patterns table)
       (lower "show me the graph schema") = Ok (1%Z, g) ->
     scan_patterns w "sql: " (sql_patterns table)
       (lower "show me the graph schema") = Ok (0%Z, s) ->
     scan_patterns w "hybrid: " (hybrid_patterns table)
       (lower "show me the graph schema") = Ok (0%Z, h) ->
     exists a,
       _analyze_with_fallback w pa "show me the graph schema" context = Ok a /\
       needs_graph a = true /\ needs_relational a = false /\
       needs_both a = false /\ complexity a = "simple" /\
       suggested_agents a = ["neo4j"]) /\
  (forall a,
     needs_both a = false -> suggested_agents a = ["neo4j"] ->
     _determine_execution_strategy a = "single_agent" /\
     _execute_strategy w self "show me the graph schema" a "single_agent"
       context =
     obind (Mcp.request_resource w (client self) "neo4j" "graph_stats")
       (fun res => Ok {| results := Raw res;
                         agents_used := ["neo4j"];
                         strategy := "single_agent" |})) /\
  (forall query a,
     any_in ["esquema"; "estructura"; "labels"] (lower query) = true ->
     suggested_agents a = ["neo4j"] ->
     _execute_strategy w self query a "single_agent" context =
     obind (Mcp.request_resource w (client self) "neo4j" "graph_schema")
       (fun res => Ok {| results := Raw res;
                         agents_used := ["neo4j"];
                         strategy := "single_agent" |})) /\
  (forall srv resource_name v,
     Mcp.connected_servers (client self) !! "neo4j" = Some srv ->
     Mcp.resources srv !! resource_name = Some (Ok v) ->
     Mcp.request_resource w (client self) "neo4j" resource_name = Ok v).
Proof.
  split; [| split; [| split]].
  - intros pa table g s h Htable Hg Hs Hh.
    unfold _analyze_with_fallback, attr_fallback_patterns.
    rewrite Htable. simpl in Hg, Hs, Hh |- *.
    rewrite Hg. simpl. rewrite Hs. simpl. rewrite Hh. simpl.
    eexists. repeat split.
  - intros a Hboth Hagents. split.
    + unfold _determine_execution_strategy. now rewrite Hboth, Hagents.
    + unfold _execute_strategy, execute_single_agent, _execute_single_agent.
      simpl. rewrite Hagents. reflexivity.
  - intros query a Hkw Hagents.
    unfold _execute_strategy, execute_single_agent, _execute_single_agent.
    simpl. rewrite Hagents. simpl. unfold _query_neo4j_natural.
    now rewrite Hkw.
  - intros srv resource_name v Hsrv Hres.
    now apply request_resource_registered with srv.
Qed.

End Scenario.

(** C9 as stated fails on the code: for "show me the graph schema" the
    single-agent shape returns the graph statistics, which are not the
    registered schema. *)
Lemma graph_schema_scenario_counterexample :
  Mcp.request_resource Samples.world (client Samples.orchestrator)
    "neo4j" "graph_schema" = Ok Samples.schema_payload /\
  _execute_strategy Samples.world Samples.orchestrator
    "show me the graph schema" (analysis_for false "simple" ["neo4j"])
    (_determine_execution_strategy (analysis_for false "simple" ["neo4j"]))
    [] =
  Ok {| results := Raw Samples.stats_payload;
        agents_used := ["neo4j"];
        strategy := "single_agent" |} /\
  Samples.stats_payload <> Samples.schema_payload.
Proof. repeat split. discriminate. Qed.

(** The amended C9 on the samples: the heuristic analysis of the query,
    the statistics it is answered with, and the schema returned for the
    query "muéstrame el esquema del grafo". *)
Lemma graph_schema_scenario_witness :
  (exists a,
     _analyze_with_fallback Samples.world Samples.analyzer_no_llm_patterns
       "show me the graph schema" [] = Ok a /\
     needs_graph a = true /\ needs_relational a = false /\
     needs_both a = false /\ complexity a = "simple" /\
     suggested_agents a = ["neo4j"]) /\
  _execute_strategy Samples.world Samples.orchestrator
    "show me the graph schema" (analysis_for false "simple" ["neo4j"])
    "single_agent" [] =
  Ok {| results := Raw Samples.stats_payload;
        agents_used := ["neo4j"];
        strategy := "single_agent" |} /\
  _execute_strategy Samples.world Samples.orchestrator
    "muéstrame el esquema del grafo" (analysis_for false "simple" ["neo4j"])
    "single_agent" [] =
  Ok {| results := Raw Samples.schema_payload;
        agents_used := ["neo4j"];
        strategy := "single_agent" |}.
Proof.
  destruct (graph_schema_scenario Samples.world Samples.orchestrator [])
    as (Hheur & Hstats & Hschema & _).
  split; [| split].
  - apply (Hheur Samples.analyzer_no_llm_patterns Samples.patterns
             ["graph: graph"] [] []); reflexivity.
  - destruct (Hstats (analysis_for false "simple" ["neo4j"]) eq_refl eq_refl)
      as (_ & ->). reflexivity.
  - rewrite (Hschema "muéstrame el esquema del grafo"
               (analysis_for false "simple" ["neo4j"]) eq_refl eq_refl).
    reflexivity.
Defined.

(** ** The analysis cache *)

Section Cache.

Lemma evict_positive (max_size : Z) (cache : list (string * Analysis)) :
  (1 <= max_size)%Z ->
  evict_while_full max_size cache =
  (Ok tt, drop (length cache + 1 - Z.to_nat max_size) cache).
Proof.
  intros Hmax. induction cache as [| entry rest IH].
  - simpl. destruct (Z.geb_spec 0 max_size); [lia | now rewrite drop_nil].
  - cbn [evict_while_full].
    destruct (Z.geb_spec (Z.of_nat (length (entry :: rest))) max_size)
      as [Hfull | Hroom]; simpl length in *.
    + rewrite IH.
      replace (S (length rest) + 1 - Z.to_nat max_size)%nat
        with (S (length rest + 1 - Z.to_nat max_size)) by lia.
      reflexivity.
    + replace (S (length rest) + 1 - Z.to_nat max_size)%nat with 0%nat by lia.
      reflexivity.
Qed.

Lemma evict_nonpositive (max_size : Z) (cache : list (string * Analysis)) :
  (max_size <= 0)%Z ->
  evict_while_full max_size cache = (Raise StopIteration, []).
Proof.
  intros Hmax. induction cache as [| entry rest IH].
  - simpl. destruct (Z.geb_spec 0 max_size); [reflexivity | lia].
  - cbn [evict_while_full].
    destruct (Z.geb_spec (Z.of_nat (length (entry :: rest))) max_size);
      [exact IH | simpl length in *; lia].
Qed.

Lemma cache_result_positive (k : string) (v : Analysis) (self : PatternAnalyzer) :
  (1 <= cache_max_size self)%Z ->
  _cache_result k v self =
  (Ok tt,
   set_cache
     (dict_set (drop (length (analysis_cache self) + 1
                        - Z.to_nat (cache_max_size self))
                     (analysis_cache self))
               k (pop_transient v))
     self).
Proof.
  intros Hmax. unfold _cache_result. now rewrite evict_positive.
Qed.

Lemma cache_result_max_size (k : string) (v : Analysis) (self : PatternAnalyzer) :
  cache_max_size (snd (_cache_result k v self)) = cache_max_size self.
Proof.
  unfold _cache_result.
  destruct (evict_while_full (cache_max_size self) (analysis_cache self))
    as [[[] | e] c]; reflexivity.
Qed.

(** One insertion leaves at most [cache_max_size] entries. *)
Lemma cache_result_bound (k : string) (v : Analysis) (self : PatternAnalyzer) :
  (0 <= cache_max_size self)%Z ->
  (Z.of_nat (length (analysis_cache (snd (_cache_result k v self))))
   <= cache_max_size self)%Z.
Proof.
  intros Hmax.
  destruct (Z.le_gt_cases 1 (cache_max_size self)) as [Hpos | Hzero].
  - rewrite cache_result_positive by assumption. simpl.
    pose proof (dict_set_length
                  (drop (length (analysis_cache self) + 1
                           - Z.to_nat (cache_max_size self))
                        (analysis_cache self)) k (pop_transient v)) as Hlen.
    rewrite length_drop in Hlen. lia.
  - unfold _cache_result. rewrite evict_nonpositive by lia. simpl. lia.
Qed.

Lemma insert_all_max_size (entries : list (string * Analysis))
  (self : PatternAnalyzer) :
  cache_max_size (insert_all entries self) = cache_max_size self.
Proof.
  revert self. induction entries as [| entry rest IH]; intros self.
  - reflexivity.
  - unfold insert_all in *. simpl. rewrite IH. apply cache_result_max_size.
Qed.

Lemma insert_all_bound (entries : list (string * Analysis))
  (self : PatternAnalyzer) :
  (0 <= cache_max_size self)%Z ->
  (Z.of_nat (length (analysis_cache self)) <= cache_max_size self)%Z ->
  (Z.of_nat (length (analysis_cache (insert_all entries self)))
   <= cache_max_size self)%Z.
Proof.
  revert self. induction entries as [| entry rest IH]; intros self Hmax Hlen.
  - exact Hlen.
  - unfold insert_all in *. simpl.
    rewrite <- (cache_result_max_size (fst entry) (snd entry) self).
    apply IH; rewrite cache_result_max_size; [assumption |].
    now apply cache_result_bound.
Qed.

Lemma insert_all_snoc (entries : list (string * Analysis))
  (entry : string * Analysis) (self : PatternAnalyzer) :
  insert_all (entries ++ [entry]) self =
  snd (_cache_result (fst entry) (snd entry) (insert_all entries self)).
Proof. unfold insert_all. now rewrite fold_left_app. Qed.

(** From an empty cache, distinct keys leave the last [cache_max_size]
    insertions, oldest first. *)
Lemma insert_all_distinct (entries : list (string * Analysis))
  (self : PatternAnalyzer) :
  (1 <= cache_max_size self)%Z ->
  analysis_cache self = [] ->
  List.NoDup (map fst entries) ->
  analysis_cache (insert_all entries self) =
  map stored (drop (length entries - Z.to_nat (cache_max_size self)) entries).
Proof.
  intros Hmax Hempty.
  induction entries as [| entry entries IH] using rev_ind; intros Hnd.
  - simpl. exact Hempty.
  - rewrite map_app in Hnd. simpl in Hnd.
    apply List.NoDup_remove in Hnd as [Hnd Hfresh].
    rewrite app_nil_r in Hnd, Hfresh. specialize (IH Hnd).
    rewrite insert_all_snoc, cache_result_positive
      by (rewrite insert_all_max_size; assumption).
    rewrite insert_all_max_size. simpl. rewrite IH.
    set (n := Z.to_nat (cache_max_size self)).
    assert (1 <= n)%nat as Hn by lia.
    rewrite length_map, length_drop, <- fmap_drop, drop_drop.
    rewrite length_app. simpl length.
    replace (length entries - n + (length entries - (length entries - n) + 1 - n))%nat
      with (length entries + 1 - n)%nat by lia.
    rewrite dict_set_fresh.
    + rewrite drop_app_le by lia. now rewrite fmap_app.
    + apply dict_get_None. intros Hin. apply Hfresh.
      rewrite map_map in Hin. simpl in Hin.
      apply in_map_iff in Hin as (x & Hx & Hin).
      apply in_map_iff. exists x. split; [assumption |].
      now apply (In_drop _ _ _ Hin).
Qed.

End Cache.

Lemma map_fst_stored (entries : list (string * Analysis)) :
  map fst (map stored entries) = map fst entries.
Proof. rewrite map_map. reflexivity. Qed.

(** C7: after any sequence of insertions the cache holds at most
    [cache_max_size] entries, and eviction is first in, first out: an
    insertion of a new key into a full cache removes the oldest entry
    and appends the new one, so that after [cache_max_size + 1]
    insertions of distinct keys into an empty cache the first key is
    gone and the others are all present. *)
Theorem cache_bounded_fifo (self : PatternAnalyzer) :
  (0 <= cache_max_size self)%Z ->
  (forall entries,
     (Z.of_nat (length (analysis_cache self)) <= cache_max_size self)%Z ->
     (Z.of_nat (length (analysis_cache (insert_all entries self)))
      <= cache_max_size self)%Z) /\
  (forall k v oldest rest,
     analysis_cache self = oldest :: rest ->
     Z.of_nat (length (oldest :: rest)) = cache_max_size self ->
     dict_get (analysis_cache self) k = None ->
     _cache_result k v self =
     (Ok tt, set_cache (rest ++ [(k, pop_transient v)]) self)) /\
  (forall first others,
     analysis_cache self = [] ->
     List.NoDup (map fst (first :: others)) ->
     Z.of_nat (length others) = cache_max_size self ->
     analysis_cache (insert_all (first :: others) self) = map stored others /\
     dict_get (analysis_cache (insert_all (first :: others) self)) (fst first)
       = None /\
     forall k v,
       In (k, v) others ->
       dict_get (analysis_cache (insert_all (first :: others) self)) k
         = Some (pop_transient v)).
Proof.
  intros Hmax. split; [| split].
  - intros entries Hlen. now apply insert_all_bound.
  - intros k v oldest rest Hcache Hfull Hnew.
    rewrite cache_result_positive by (simpl length in Hfull; lia).
    rewrite Hcache in Hnew |- *.
    replace (length (oldest :: rest) + 1 - Z.to_nat (cache_max_size self))%nat
      with 1%nat by lia.
    simpl drop. rewrite dict_set_fresh; [reflexivity |].
    destruct oldest as [k0 v0]. simpl in Hnew.
    now destruct (String.eqb k0 k).
  - intros first others Hempty Hnd Hlen.
    assert (analysis_cache (insert_all (first :: others) self)
            = map stored others) as Hfinal.
    { destruct (Z.le_gt_cases 1 (cache_max_size self)) as [Hpos | Hzero].
      - rewrite insert_all_distinct by assumption.
        replace (length (first :: others) - Z.to_nat (cache_max_size self))%nat
          with 1%nat by (simpl length; lia).
        reflexivity.
      - destruct others; [| simpl length in Hlen; lia].
        unfold insert_all, _cache_result. simpl.
        now rewrite evict_nonpositive by lia. }
    rewrite Hfinal. simpl in Hnd.
    apply List.NoDup_cons_iff in Hnd as [Hfirst Hnd].
    split; [reflexivity | split].
    + apply dict_get_None. now rewrite map_fst_stored.
    + intros k v Hin. apply dict_get_In.
      * now rewrite map_fst_stored.
      * change (k, pop_transient v) with (stored (k, v)). now apply in_map.
Qed.

(** C7 for a cache of two entries and three distinct keys. *)
Lemma cache_bounded_fifo_witness :
  let entry (k : string) := (k, _emergency_analysis k []) in
  let final :=
    analysis_cache
      (insert_all [entry "k1"; entry "k2"; entry "k3"] (__init__ 2)) in
  (Z.of_nat (length final) <= 2)%Z /\
  dict_get final "k1" = None /\
  dict_get final "k2" = Some (pop_transient (_emergency_analysis "k2" [])) /\
  dict_get final "k3" = Some (pop_transient (_emergency_analysis "k3" [])).
Proof.
  intros entry final.
  destruct (cache_bounded_fifo (__init__ 2)) as (Hbound & _ & Hfifo);
    [simpl; lia |].
  destruct (Hfifo (entry "k1") [entry "k2"; entry "k3"]) as (_ & Hgone & Hkept).
  - reflexivity.
  - simpl. repeat constructor; simpl; intuition discriminate.
  - reflexivity.
  - split; [| split; [| split]].
    + apply (Hbound [entry "k1"; entry "k2"; entry "k3"]). simpl. lia.
    + exact Hgone.
    + apply Hkept. simpl. auto.
    + apply Hkept. simpl. auto.
Defined.

(** ** The consistency invariant of analyses *)

Section Consistency.

Variable w : World.

Lemma validate_consistent (parsed : PyVal) (i : Gemini.Intent) :
  Gemini._validate_analysis_result parsed = Ok i -> consistent_intent i.
Proof.
  unfold Gemini._validate_analysis_result, obind. intros H.
  repeat case_match; simplify_eq; unfold consistent_intent; simpl;
    intros Hboth; (discriminate || (split; reflexivity)).
Qed.

Lemma fallback_intent_consistent (query : string) :
  consistent_intent (Gemini._fallback_intent_analysis query).
Proof.
  unfold consistent_intent, Gemini._fallback_intent_analysis. simpl.
  destruct (0 <? count_in Gemini.sql_keywords (lower query))%Z;
    destruct (0 <? count_in Gemini.graph_keywords (lower query))%Z;
    simpl; intros H; (discriminate || (split; reflexivity)).
Qed.

Lemma intent_consistent (query : string) (i : Gemini.Intent) :
  Gemini.analyze_query_intent w query = Ok i -> consistent_intent i.
Proof.
  unfold Gemini.analyze_query_intent, try_except, obind. intros H.
  repeat case_match; simplify_eq;
    eauto using validate_consistent, fallback_intent_consistent.
Qed.

Lemma fallback_consistent (self : PatternAnalyzer) (query : string)
  (context : list (string * PyVal)) (a : Analysis) :
  _analyze_with_fallback w self query context = Ok a -> consistent a.
Proof.
  unfold _analyze_with_fallback, obind. intros H.
  repeat case_match; simplify_eq; unfold consistent; simpl;
    intros Hboth; (discriminate || (split; reflexivity)).
Qed.

Lemma emergency_consistent (query : string) (context : list (string * PyVal)) :
  consistent (_emergency_analysis query context).
Proof. unfold consistent. simpl. intros _. split; reflexivity. Qed.

Lemma llm_consistent (self : PatternAnalyzer) (query : string)
  (context : list (string * PyVal)) (a : Analysis) :
  _analyze_with_llm w self query context = Ok a -> consistent a.
Proof.
  unfold _analyze_with_llm, try_except, obind. intros H.
  destruct (Gemini.analyze_query_intent w query) as [i | e] eqn:Hi.
  - simplify_eq. apply intent_consistent in Hi.
    unfold consistent, consistent_intent in *. simpl. tauto.
  - now apply fallback_consistent in H.
Qed.

Lemma evict_consistent (max_size : Z) (cache : list (string * Analysis)) :
  Forall (fun entry => consistent (snd entry)) cache ->
  Forall (fun entry => consistent (snd entry))
         (snd (evict_while_full max_size cache)).
Proof.
  induction cache as [| entry rest IH]; intros Hall.
  - simpl. destruct (0 >=? max_size)%Z; constructor.
  - cbn [evict_while_full].
    destruct (Z.of_nat (length (entry :: rest)) >=? max_size)%Z.
    + apply IH. now inversion Hall.
    + exact Hall.
Qed.

Lemma dict_set_Forall {V} (P : string * V -> Prop) (d : list (string * V))
  (k : string) (v : V) :
  Forall P d -> (forall k', P (k', v)) -> Forall P (dict_set d k v).
Proof.
  intros Hall Hv. induction Hall as [| [k' x] rest Hx Hrest IH]; simpl.
  - repeat constructor. apply Hv.
  - destruct (String.eqb k' k); constructor; auto.
Qed.

Lemma dict_get_Forall {V} (P : string * V -> Prop) (d : list (string * V))
  (k : string) (v : V) :
  Forall P d -> dict_get d k = Some v -> exists k', P (k', v).
Proof.
  intros Hall. induction Hall as [| [k' x] rest Hx Hrest IH]; simpl.
  - discriminate.
  - destruct (String.eqb k' k); [| exact IH].
    intros [= <-]. eauto.
Qed.

Lemma cache_result_consistent (k : string) (a : Analysis)
  (self : PatternAnalyzer) :
  cache_consistent self -> consistent a ->
  cache_consistent (snd (_cache_result k a self)).
Proof.
  unfold cache_consistent, _cache_result. intros Hcache Ha.
  pose proof (evict_consistent (cache_max_size self) _ Hcache) as Hevict.
  destruct (evict_while_full (cache_max_size self) (analysis_cache self))
    as [[[] | e] c]; simpl in *.
  - apply dict_set_Forall; [assumption | intros k'; exact Ha].
  - assumption.
Qed.

Lemma stats_incr_cache (key : string) (self : PatternAnalyzer) :
  analysis_cache (snd (stats_incr key self)) = analysis_cache self.
Proof. unfold stats_incr. now destruct (stats self !! key). Qed.

Lemma initialize_cache (self : PatternAnalyzer) :
  analysis_cache (snd (initialize w self)) = analysis_cache self.
Proof.
  unfold initialize.
  destruct (initialized self); [reflexivity |].
  now destruct (gemini_initialize w).
Qed.

End Consistency.

Section ClassifierInvariant.

Variable w : World.

Lemma stats_incr_consistent (key : string) (self self' : PatternAnalyzer)
  (o : Outcome unit) :
  stats_incr key self = (o, self') ->
  cache_consistent self -> cache_consistent self'.
Proof.
  intros H Hc. unfold cache_consistent.
  replace self' with (snd (stats_incr key self)) by now rewrite H.
  now rewrite stats_incr_cache.
Qed.

Lemma cache_result_consistent_eq (k : string) (a : Analysis)
  (self self' : PatternAnalyzer) (o : Outcome unit) :
  _cache_result k a self = (o, self') ->
  cache_consistent self -> consistent a -> cache_consistent self'.
Proof.
  intros H Hc Ha.
  replace self' with (snd (_cache_result k a self)) by now rewrite H.
  now apply cache_result_consistent.
Qed.

(** The analysis inside the [try]: whatever happens the cache stays
    consistent, and an analysis that is returned is consistent. *)
Lemma analyze_uncached_consistent (query : string)
  (context : list (string * PyVal)) (key : string) (self : PatternAnalyzer) :
  cache_consistent self ->
  cache_consistent (snd (analyze_uncached w query context key self)) /\
  forall a,
    fst (analyze_uncached w query context key self) = Ok a -> consistent a.
Proof.
  intros Hc.
  unfold analyze_uncached, bind, get, ret, lift, attr_fallback_only.
  repeat case_match; simplify_eq; simpl;
    try (split; [assumption | discriminate]);
    repeat match goal with
      | H : _analyze_with_llm _ _ _ _ = Ok _ |- _ =>
          apply llm_consistent in H
      | H : _analyze_with_fallback _ _ _ _ = Ok _ |- _ =>
          apply fallback_consistent in H
      | H : stats_incr _ _ = _ |- _ =>
          apply stats_incr_consistent in H; [| assumption]
      end;
    (split;
     [ try assumption;
       match goal with
       | H : _cache_result _ _ _ = _ |- _ =>
           apply cache_result_consistent_eq in H; assumption
       end
     | intros a' Ha'; try discriminate; injection Ha' as <-; assumption ]).
Qed.

Lemma analyze_emergency_consistent (query : string)
  (context : list (string * PyVal)) (e : PyExn) (self : PatternAnalyzer) :
  cache_consistent self ->
  cache_consistent (snd (analyze_emergency query context e self)) /\
  forall a,
    fst (analyze_emergency query context e self) = Ok a -> consistent a.
Proof.
  intros Hc. unfold analyze_emergency, bind, ret.
  destruct (stats_incr "errors" self) as [[[] | e'] self'] eqn:Hst;
    apply stats_incr_consistent in Hst; try assumption; simpl.
  - split; [assumption |].
    intros a [= <-]. apply (emergency_consistent query context).
  - split; [assumption | discriminate].
Qed.

(** One call of [analyze_query] keeps the cache consistent and returns
    a consistent analysis, whichever stage answers. *)
Lemma analyze_query_consistent (query : string)
  (context : option (list (string * PyVal))) (self : PatternAnalyzer) :
  cache_consistent self ->
  cache_consistent (snd (analyze_query w query context self)) /\
  forall a, fst (analyze_query w query context self) = Ok a -> consistent a.
Proof.
  intros Hc. unfold analyze_query, bind, get, try_catch.
  assert (cache_consistent
            (snd ((if initialized self then ret () else initialize w) self)))
    as Hinit.
  { unfold cache_consistent. destruct (initialized self); [exact Hc |].
    now rewrite initialize_cache. }
  destruct ((if initialized self then ret () else initialize w) self)
    as [[[] | e0] s1]; simpl in Hinit; [| split; [assumption | discriminate]].
  destruct (stats_incr "total_queries" s1) as [[[] | e1] s2] eqn:Hst;
    apply stats_incr_consistent in Hst; try assumption;
    [| split; [assumption | discriminate]].
  destruct (dict_get (analysis_cache s2) _) as [cached |] eqn:Hhit.
  - apply (dict_get_Forall _ _ _ _ Hst) in Hhit as (k' & Hcached).
    unfold ret.
    destruct (stats_incr "cache_hits" s2) as [[[] | e2] s3] eqn:Hst2;
      apply stats_incr_consistent in Hst2; try assumption; simpl.
    + split; [assumption |]. intros a [= <-]. exact Hcached.
    + split; [assumption | discriminate].
  - pose proof (analyze_uncached_consistent query (default [] context)
                  (_generate_cache_key w query (default [] context)) s2 Hst)
      as (Hs3 & Ha).
    destruct (analyze_uncached w query (default [] context)
                (_generate_cache_key w query (default [] context)) s2)
      as [[a | e3] s3]; simpl in *.
    + split; [assumption | exact Ha].
    + now apply analyze_emergency_consistent.
Qed.

End ClassifierInvariant.

Lemma reachable_consistent (self : PatternAnalyzer) :
  reachable self -> cache_consistent self.
Proof.
  induction 1 as [self Hempty | w self _ IH | w query context self _ IH
                 | self _ IH | self _ IH].
  - unfold cache_consistent. rewrite Hempty. constructor.
  - unfold cache_consistent. now rewrite initialize_cache.
  - now apply analyze_query_consistent.
  - constructor.
  - constructor.
Qed.

(** C2: every analysis the classifier produces satisfies
    [needs_both -> needs_graph /\ needs_relational]: the validated
    remote reply and the keyword analysis that replaces it, the
    analysis built from either, the heuristic analysis, the emergency
    analysis, and whatever [analyze_query] returns in any state the
    classifier can reach, a cache hit included. *)
Theorem classifier_outputs_consistent :
  (forall parsed i,
     Gemini._validate_analysis_result parsed = Ok i -> consistent_intent i) /\
  (forall query, consistent_intent (Gemini._fallback_intent_analysis query)) /\
  (forall w self query context a,
     _analyze_with_llm w self query context = Ok a -> consistent a) /\
  (forall w self query context a,
     _analyze_with_fallback w self query context = Ok a -> consistent a) /\
  (forall query context, consistent (_emergency_analysis query context)) /\
  (forall self,
     reachable self ->
     forall w query context a,
       fst (analyze_query w query context self) = Ok a -> consistent a).
Proof.
  split; [| split; [| split; [| split; [| split]]]].
  - exact validate_consistent.
  - exact fallback_intent_consistent.
  - exact llm_consistent.
  - exact fallback_consistent.
  - exact emergency_consistent.
  - intros self Hreach w query context a Ha.
    apply reachable_consistent in Hreach.
    now apply (analyze_query_consistent w query context self Hreach).
Qed.

(** C2 on two calls: the first is answered by the remote stage, the
    second, for the same query in another spelling, by the cache. *)
Lemma classifier_outputs_consistent_witness :
  exists a1 a2,
    fst (analyze_query Samples.world "show me the graph schema" None
           (Samples.analyzer_configured true 100)) = Ok a1 /\
    fst (analyze_query Samples.world " Show me the GRAPH schema " None
           (snd (analyze_query Samples.world "show me the graph schema" None
                   (Samples.analyzer_configured true 100)))) = Ok a2 /\
    analysis_method a1 = Some "llm" /\
    analysis_method a2 = Some "cache" /\
    consistent a1 /\ consistent a2.
Proof.
  destruct classifier_outputs_consistent as (_ & _ & _ & _ & _ & H).
  do 2 eexists.
  split; [vm_compute; reflexivity |].
  split; [vm_compute; reflexivity |].
  split; [reflexivity |]. split; [reflexivity |]. split.
  - apply (H (Samples.analyzer_configured true 100)
             (reach_new (Samples.analyzer_configured true 100) eq_refl)
             Samples.world "show me the graph schema" None).
    vm_compute. reflexivity.
  - apply (H (snd (analyze_query Samples.world "show me the graph schema" None
                     (Samples.analyzer_configured true 100)))
             (reach_analyze _ _ _ _
                (reach_new (Samples.analyzer_configured true 100) eq_refl))
             Samples.world " Show me the GRAPH schema " None).
    vm_compute. reflexivity.
Defined.

(** ** Cache keys *)

Section CacheKey.

Lemma lower_app (s1 s2 : string) : lower (s1 +:+ s2) = lower s1 +:+ lower s2.
Proof. induction s1 as [| c s1 IH]; simpl; [reflexivity | now rewrite IH]. Qed.

Lemma ascii_lower_space (c : ascii) :
  ascii_isspace c = true -> ascii_lower c = c.
Proof.
  destruct c as [[] [] [] [] [] [] [] []]; vm_compute;
    (reflexivity || discriminate).
Qed.

Lemma ascii_lower_idempotent (c : ascii) :
  ascii_lower (ascii_lower c) = ascii_lower c.
Proof. destruct c as [[] [] [] [] [] [] [] []]; vm_compute; reflexivity. Qed.

Lemma same_letter_lower (c1 c2 : ascii) :
  same_letter c1 c2 -> ascii_lower c1 = ascii_lower c2.
Proof.
  intros [-> | [<- | ->]];
    [reflexivity | | ]; now rewrite ascii_lower_idempotent.
Qed.

Lemma same_up_to_case_lower (s1 s2 : string) :
  same_up_to_case s1 s2 -> lower s1 = lower s2.
Proof.
  revert s2. induction s1 as [| c1 s1 IH]; intros [| c2 s2]; simpl;
    try tauto.
  intros [Hc Hs]. now rewrite (same_letter_lower _ _ Hc), (IH _ Hs).
Qed.

Lemma all_space_lower (s : string) : all_space s -> lower s = s.
Proof.
  induction s as [| c s IH]; simpl; [reflexivity |].
  intros [Hc Hs]. now rewrite (ascii_lower_space _ Hc), (IH Hs).
Qed.

Lemma lstrip_space (pre s : string) :
  all_space pre -> lstrip (pre +:+ s) = lstrip s.
Proof.
  induction pre as [| c pre IH]; simpl; [reflexivity |].
  intros [-> Hs]. now apply IH.
Qed.

Lemma lstrip_all_space (suf : string) : all_space suf -> lstrip suf = "".
Proof.
  induction suf as [| c suf IH]; simpl; [reflexivity |].
  intros [-> Hs]. now apply IH.
Qed.

Lemma rstrip_all_space (suf : string) : all_space suf -> rstrip suf = "".
Proof.
  induction suf as [| c suf IH]; simpl; [reflexivity |].
  intros [-> Hs]. now rewrite (IH Hs).
Qed.

Lemma rstrip_space (s suf : string) :
  all_space suf -> rstrip (s +:+ suf) = rstrip s.
Proof.
  intros Hsuf. induction s as [| c s IH]; simpl.
  - now apply rstrip_all_space.
  - now rewrite IH.
Qed.

Lemma strip_inner_space (s suf : string) :
  all_space suf -> strip (s +:+ suf) = strip s.
Proof.
  intros Hsuf. unfold strip. induction s as [| c s IH].
  - simpl. now rewrite lstrip_all_space.
  - simpl. destruct (ascii_isspace c).
    + exact IH.
    + change (String c (s +:+ suf)) with (String c s +:+ suf).
      now apply rstrip_space.
Qed.

(** Surrounding white space does not survive [strip]. *)
Lemma strip_outer_space (pre core suf : string) :
  all_space pre -> all_space suf ->
  strip (pre +:+ core +:+ suf) = strip core.
Proof.
  intros Hpre Hsuf. rewrite <- (strip_inner_space core suf Hsuf).
  unfold strip. now rewrite lstrip_space.
Qed.

(** Queries that differ by case and outer white space only are
    normalised to one text and hence to one cache key. *)
Lemma cache_key_insensitive (w : World) (q1 q2 : string)
  (context : list (string * PyVal)) :
  differ_by_case_or_outer_space q1 q2 ->
  _generate_cache_key w q1 context = _generate_cache_key w q2 context.
Proof.
  intros (pre1 & core1 & suf1 & pre2 & core2 & suf2
          & -> & -> & Hp1 & Hs1 & Hp2 & Hs2 & Hcore).
  unfold _generate_cache_key.
  rewrite !lower_app.
  rewrite (all_space_lower _ Hp1), (all_space_lower _ Hs1),
    (all_space_lower _ Hp2), (all_space_lower _ Hs2).
  rewrite !strip_outer_space by assumption.
  now rewrite (same_up_to_case_lower _ _ Hcore).
Qed.

End CacheKey.

(** ** Cache hits *)

Section CacheHit.

Variable w : World.

(** An analysis returned from inside the [try] was stored under the
    key, and came from the remote or from the heuristic stage. *)
Lemma analyze_uncached_stored (query : string)
  (context : list (string * PyVal)) (key : string)
  (self s3 : PatternAnalyzer) (a : Analysis) :
  analyze_uncached w query context key self = (Ok a, s3) ->
  initialized s3 = initialized self /\
  (is_Some (stats self !! "total_queries") ->
   is_Some (stats s3 !! "total_queries")) /\
  stats s3 !! "cache_hits" = stats self !! "cache_hits" /\
  dict_get (analysis_cache s3) key = Some (pop_transient a) /\
  (analysis_method a = Some "llm" \/ analysis_method a = Some "fallback").
Proof.
  unfold analyze_uncached, bind, get, ret, lift, attr_fallback_only,
    stats_incr, _cache_result.
  intros H. repeat case_match; simplify_eq; simpl;
    (split; [reflexivity |]);
    (split; [now rewrite lookup_insert_ne |]);
    (split; [now rewrite lookup_insert_ne |]);
    (split; [apply dict_get_set_same | auto]).
Qed.

Lemma analyze_query_stored (query : string)
  (context : option (list (string * PyVal)))
  (self s1 : PatternAnalyzer) (a1 : Analysis) :
  analyze_query w query context self = (Ok a1, s1) ->
  analysis_method a1 = Some "llm" \/ analysis_method a1 = Some "fallback" ->
  initialized s1 = true /\
  is_Some (stats s1 !! "total_queries") /\
  dict_get (analysis_cache s1)
           (_generate_cache_key w query (default [] context))
    = Some (pop_transient a1).
Proof.
  unfold analyze_query, bind, get, try_catch. intros H Hm.
  destruct ((if initialized self then ret () else initialize w) self)
    as [[[] | e0] s0] eqn:Hinit; [| discriminate].
  assert (initialized s0 = true) as Hi0.
  { destruct (initialized self) eqn:Hi.
    - unfold ret in Hinit. now simplify_eq.
    - unfold initialize in Hinit. rewrite Hi in Hinit.
      destruct (gemini_initialize w); now simplify_eq. }
  unfold stats_incr at 1 in H.
  destruct (stats s0 !! "total_queries") as [t |] eqn:Ht; [| discriminate].
  set (s2 := set_stats (<["total_queries" := (t + 1)%Z]> (stats s0)) s0) in *.
  destruct (dict_get (analysis_cache s2) _) as [cached |] eqn:Hhit.
  - unfold stats_incr, ret in H.
    destruct (stats s2 !! "cache_hits"); simplify_eq.
    simpl in Hm. destruct Hm; discriminate.
  - destruct (analyze_uncached w query (default [] context)
                (_generate_cache_key w query (default [] context)) s2)
      as [[a | e] s3] eqn:Hun.
    + simplify_eq.
      apply analyze_uncached_stored in Hun as (Hi & Htot & _ & Hget & _).
      split; [now rewrite Hi |]. split; [| exact Hget].
      apply Htot. subst s2. simpl. rewrite lookup_insert_eq. eauto.
    + unfold analyze_emergency, bind, ret, stats_incr in H.
      destruct (stats s3 !! "errors"); simplify_eq.
      simpl in Hm. destruct Hm; discriminate.
Qed.

(** The caching code on its own: queries that differ by letter case or
    surrounding white space only have the same cache key; and whenever
    a first query was answered by the remote or by the heuristic stage
    (so that its analysis was stored), a second call with the other
    query returns the stored analysis marked as coming from the cache
    and adds one to [cache_hits].  No classifier made by the
    constructor gets that far (section Constructed below). *)
Lemma cache_hit_after_stored_analysis (q1 q2 : string)
  (context : option (list (string * PyVal)))
  (self s1 : PatternAnalyzer) (a1 : Analysis) (n : Z) :
  differ_by_case_or_outer_space q1 q2 ->
  _generate_cache_key w q1 (default [] context)
    = _generate_cache_key w q2 (default [] context) /\
  (analyze_query w q1 context self = (Ok a1, s1) ->
   analysis_method a1 = Some "llm" \/ analysis_method a1 = Some "fallback" ->
   stats s1 !! "cache_hits" = Some n ->
   exists a2 s2,
     analyze_query w q2 context s1 = (Ok a2, s2) /\
     a2 = set_method "cache" (set_from_cache true (pop_transient a1)) /\
     analysis_method a2 = Some "cache" /\
     from_cache a2 = Some true /\
     stats s2 !! "cache_hits" = Some (n + 1)%Z).
Proof.
  intros Hdiff.
  pose proof (cache_key_insensitive w q1 q2 (default [] context) Hdiff) as Hkey.
  split; [exact Hkey |].
  intros Hfirst Hm Hhits.
  destruct (analyze_query_stored q1 context self s1 a1 Hfirst Hm)
    as (Hinit & [t Ht] & Hstored).
  rewrite Hkey in Hstored.
  unfold analyze_query, bind, get, try_catch.
  rewrite Hinit. unfold ret at 1. unfold stats_incr at 1. rewrite Ht.
  cbn [analysis_cache set_stats]. rewrite Hstored.
  unfold stats_incr. cbn [stats set_stats].
  rewrite lookup_insert_ne by discriminate. rewrite Hhits.
  unfold ret. do 2 eexists. split; [reflexivity |].
  split; [reflexivity |]. split; [reflexivity |]. split; [reflexivity |].
  cbn [stats set_stats]. now rewrite lookup_insert_eq.
Qed.

End CacheHit.

(** ** The heuristic stage behind the missing counter *)

Section HeuristicStage.

Variable w : World.

Lemma fallback_reads_patterns_only (self : PatternAnalyzer)
  (st : gmap string Z) (query : string) (context : list (string * PyVal)) :
  _analyze_with_fallback w (set_stats st self) query context =
  _analyze_with_fallback w self query context.
Proof. reflexivity. Qed.

(** The counter [fallback_queries] is not created either: were the
    classifier initialised with the remote stage unavailable (a state
    that no method of the class leaves, see section Constructed), an
    uncached query would be answered by the emergency stage whether the
    heuristic stage raises or not. *)
Lemma uncounted_heuristic_is_emergency (query : string)
  (context : option (list (string * PyVal))) (self : PatternAnalyzer)
  (t er : Z) :
  initialized self = true ->
  llm_available self = false ->
  stats self !! "total_queries" = Some t ->
  stats self !! "fallback_queries" = None ->
  stats self !! "errors" = Some er ->
  dict_get (analysis_cache self)
           (_generate_cache_key w query (default [] context)) = None ->
  exists a s',
    analyze_query w query context self = (Ok a, s') /\
    analysis_method a = Some "emergency" /\
    confidence a = Some (0.5)%Q /\
    needs_both a = true /\
    complexity a = "unknown" /\
    (forall h,
       _analyze_with_fallback w self query (default [] context) = Ok h ->
       error a = Some "'fallback_queries'") /\
    analysis_cache s' = analysis_cache self.
Proof.
  intros Hinit Hllm Ht Hfq Her Hmiss.
  unfold analyze_query, bind, get. rewrite Hinit. unfold ret at 1.
  unfold stats_incr at 1. rewrite Ht.
  cbn [analysis_cache set_stats]. rewrite Hmiss.
  unfold try_catch, analyze_uncached, bind, get.
  cbn [llm_available set_stats]. rewrite Hllm. unfold ret at 1, lift.
  rewrite fallback_reads_patterns_only.
  destruct (_analyze_with_fallback w self query (default [] context))
    as [h | e] eqn:Hheur.
  - unfold stats_incr at 1. cbn [stats set_stats].
    rewrite lookup_insert_ne by discriminate. rewrite Hfq.
    unfold analyze_emergency, bind, stats_incr. cbn [stats set_stats].
    rewrite lookup_insert_ne by discriminate. rewrite Her. unfold ret.
    do 2 eexists. repeat split.
  - unfold analyze_emergency, bind, stats_incr. cbn [stats set_stats].
    rewrite lookup_insert_ne by discriminate. rewrite Her. unfold ret.
    do 2 eexists. split; [reflexivity |]. repeat split. discriminate.
Qed.

End HeuristicStage.

(** ** Two spellings of one query *)

Lemma spellings_differ_by_case_and_space :
  differ_by_case_or_outer_space
    "show me the graph schema" " Show me the GRAPH schema ".
Proof.
  exists "", "show me the graph schema", "",
         " ", "Show me the GRAPH schema", " ".
  split; [reflexivity |]. split; [reflexivity |].
  repeat (split; [exact I || (simpl; tauto) |]).
  simpl. unfold same_letter.
  repeat split;
    first [left; reflexivity | right; left; reflexivity
          | right; right; reflexivity].
Qed.

(** On a classifier whose missing attributes and counter were supplied
    by hand and whose remote stage answers, the second spelling is a
    cache hit. *)
Lemma cache_hit_after_stored_analysis_example :
  exists a1 s1 a2 s2,
    analyze_query Samples.world "show me the graph schema" None
      (Samples.analyzer_configured true 100) = (Ok a1, s1) /\
    analysis_method a1 = Some "llm" /\
    analyze_query Samples.world " Show me the GRAPH schema " None s1
      = (Ok a2, s2) /\
    analysis_method a2 = Some "cache" /\
    needs_graph a2 = true /\
    suggested_agents a2 = ["neo4j"] /\
    stats s2 !! "cache_hits" = Some 1%Z.
Proof.
  destruct (analyze_query Samples.world "show me the graph schema" None
              (Samples.analyzer_configured true 100)) as [o s1] eqn:Hfirst.
  assert (exists a1, o = Ok a1 /\ analysis_method a1 = Some "llm" /\
                     needs_graph a1 = true /\
                     suggested_agents a1 = ["neo4j"] /\
                     stats s1 !! "cache_hits" = Some 0%Z)
    as (a1 & -> & Hm & Hg & Hag & Hhits).
  { vm_compute in Hfirst. injection Hfirst as <- <-.
    eexists. split; [reflexivity |]. repeat split. }
  destruct (cache_hit_after_stored_analysis Samples.world
              "show me the graph schema" " Show me the GRAPH schema " None
              (Samples.analyzer_configured true 100) s1 a1 0
              spellings_differ_by_case_and_space) as (_ & Hhit).
  destruct (Hhit Hfirst (or_introl Hm) Hhits)
    as (a2 & s2 & Hsecond & -> & Hm2 & _ & Hhits2).
  exists a1, s1. do 2 eexists.
  split; [reflexivity |]. split; [exact Hm |]. split; [exact Hsecond |].
  split; [exact Hm2 |]. split; [exact Hg |]. split; [exact Hag |].
  exact Hhits2.
Defined.

(* ===================================================================== *)
(** * Part III.  Further properties of the code                           *)
(* ===================================================================== *)

(** ** Requester and provider together *)

Section RequesterProvider.

Variable w : World.

(** What a requester gets for a resource of a connected provider. *)
Lemma request_resource_connected (c : Mcp.MCPClient) (srv : Mcp.MCPServer)
  (server_name n : string) :
  Mcp.connected_servers c !! server_name = Some srv ->
  Mcp.request_resource w c server_name n =
  match Mcp.resources srv !! n with
  | Some (Ok v) => Ok v
  | Some (Raise e) =>
      if String.eqb (exn_msg e) "" then Ok PNone
      else Raise (Exception ("Error obteniendo recurso: " +:+ exn_msg e))
  | None =>
      Raise (Exception ("Error obteniendo recurso: "
                          +:+ Mcp.resource_not_found (Mcp.agent_class srv) n))
  end.
Proof.
  intros Hsrv. unfold Mcp.request_resource. rewrite Hsrv.
  unfold Mcp.handle_request, Mcp.handle_request_body, Mcp.params_get,
    Mcp.registry_lookup.
  simpl. destruct (Mcp.resources srv !! n) as [[v | e] |]; simpl.
  - reflexivity.
  - now destruct (String.eqb (exn_msg e) "").
  - now destruct (Mcp.agent_class srv).
Qed.

(** What a requester gets for a tool of a connected provider. *)
Lemma execute_tool_connected (c : Mcp.MCPClient) (srv : Mcp.MCPServer)
  (server_name n : string) (kwargs : list (string * PyVal)) :
  Mcp.connected_servers c !! server_name = Some srv ->
  Mcp.execute_tool w c server_name n kwargs =
  match Mcp.tools srv !! n with
  | Some tool =>
      match Mcp.function tool kwargs with
      | Ok v => Ok v
      | Raise e =>
          if String.eqb (exn_msg e) "" then Ok PNone
          else Raise (Exception ("Error ejecutando herramienta: "
                                   +:+ exn_msg e))
      end
  | None =>
      Raise (Exception ("Error ejecutando herramienta: "
                          +:+ Mcp.tool_not_found (Mcp.agent_class srv) n))
  end.
Proof.
  intros Hsrv. unfold Mcp.execute_tool. rewrite Hsrv.
  unfold Mcp.handle_request, Mcp.handle_request_body, Mcp.params_get,
    Mcp.registry_lookup.
  simpl. destruct (Mcp.tools srv !! n) as [tool |]; simpl.
  - destruct (Mcp.function tool kwargs) as [v | e]; simpl.
    + reflexivity.
    + now destruct (String.eqb (exn_msg e) "").
  - now destruct (Mcp.agent_class srv).
Qed.

(** X1: what a provider registers is what a connected requester
    obtains: a registered resource that yields [v] is received as [v],
    and a registered tool is called with the requester's arguments and
    its result received unchanged; a later registration under another
    name does not disturb it. *)
Theorem registered_capability_round_trip (c : Mcp.MCPClient)
  (srv : Mcp.MCPServer) (server_name n other : string) (v : PyVal)
  (f : list (string * PyVal) -> Outcome PyVal) (descr : string)
  (o : Outcome PyVal) (kwargs : list (string * PyVal)) :
  Mcp.request_resource w
    (Mcp.connect_to_server c server_name (Mcp.register_resource srv n (Ok v)))
    server_name n = Ok v /\
  (f kwargs = Ok v ->
   Mcp.execute_tool w
     (Mcp.connect_to_server c server_name (Mcp.register_tool srv n f descr))
     server_name n kwargs = Ok v) /\
  (other <> n ->
   Mcp.request_resource w
     (Mcp.connect_to_server c server_name
        (Mcp.register_resource (Mcp.register_resource srv n (Ok v)) other o))
     server_name n = Ok v).
Proof.
  split; [| split].
  - rewrite (request_resource_connected _ (Mcp.register_resource srv n (Ok v)))
      by apply lookup_insert_eq.
    simpl. now rewrite lookup_insert_eq.
  - intros Hf.
    rewrite (execute_tool_connected _ (Mcp.register_tool srv n f descr))
      by apply lookup_insert_eq.
    simpl. rewrite lookup_insert_eq. simpl. now rewrite Hf.
  - intros Hne.
    rewrite (request_resource_connected _
               (Mcp.register_resource (Mcp.register_resource srv n (Ok v))
                  other o))
      by apply lookup_insert_eq.
    simpl. rewrite lookup_insert_ne by assumption.
    now rewrite lookup_insert_eq.
Qed.

(** X2: a failure on the provider's side reaches the requester as an
    exception that carries the provider's text after a fixed prefix:
    the message of the exception the resource or tool raised, or the
    not-found text for a name that is not registered; and a request to
    a provider that is not connected raises [ValueError] at once. *)
Theorem provider_failure_reaches_requester (c : Mcp.MCPClient)
  (srv : Mcp.MCPServer) (server_name n cls : string) (ch : ascii)
  (msg : string) (kwargs : list (string * PyVal)) :
  Mcp.connected_servers c !! server_name = Some srv ->
  (Mcp.resources srv !! n = Some (Raise (MkExn cls (String ch msg))) ->
   Mcp.request_resource w c server_name n =
   Raise (Exception ("Error obteniendo recurso: " +:+ String ch msg))) /\
  (Mcp.resources srv !! n = None ->
   Mcp.request_resource w c server_name n =
   Raise (Exception ("Error obteniendo recurso: "
                       +:+ Mcp.resource_not_found (Mcp.agent_class srv) n))) /\
  (forall tool,
     Mcp.tools srv !! n = Some tool ->
     Mcp.function tool kwargs = Raise (MkExn cls (String ch msg)) ->
     Mcp.execute_tool w c server_name n kwargs =
     Raise (Exception ("Error ejecutando herramienta: " +:+ String ch msg))) /\
  (Mcp.tools srv !! n = None ->
   Mcp.execute_tool w c server_name n kwargs =
   Raise (Exception ("Error ejecutando herramienta: "
                       +:+ Mcp.tool_not_found (Mcp.agent_class srv) n))) /\
  (forall missing,
     Mcp.connected_servers c !! missing = None ->
     Mcp.request_resource w c missing n =
       Raise (ValueError ("No conectado al servidor " +:+ missing)) /\
     Mcp.execute_tool w c missing n kwargs =
       Raise (ValueError ("No conectado al servidor " +:+ missing))).
Proof.
  intros Hsrv. split; [| split; [| split; [| split]]].
  - intros Hres. rewrite (request_resource_connected c srv) by assumption.
    now rewrite Hres.
  - intros Hres. rewrite (request_resource_connected c srv) by assumption.
    now rewrite Hres.
  - intros tool Htool Hf.
    rewrite (execute_tool_connected c srv) by assumption.
    now rewrite Htool, Hf.
  - intros Htool. rewrite (execute_tool_connected c srv) by assumption.
    now rewrite Htool.
  - intros missing Hmiss.
    unfold Mcp.request_resource, Mcp.execute_tool. now rewrite Hmiss.
Qed.

(** X3: the requester tests the error field for truth, so a provider
    failure whose message is the empty string (as [str] of an exception
    raised without arguments is) is not reported: the request returns
    [None] as if it had succeeded. *)
Theorem empty_error_message_is_swallowed (c : Mcp.MCPClient)
  (srv : Mcp.MCPServer) (server_name n cls : string)
  (kwargs : list (string * PyVal)) :
  Mcp.connected_servers c !! server_name = Some srv ->
  (Mcp.resources srv !! n = Some (Raise (MkExn cls "")) ->
   Mcp.request_resource w c server_name n = Ok PNone) /\
  (forall tool,
     Mcp.tools srv !! n = Some tool ->
     Mcp.function tool kwargs = Raise (MkExn cls "") ->
     Mcp.execute_tool w c server_name n kwargs = Ok PNone).
Proof.
  intros Hsrv. split.
  - intros Hres. rewrite (request_resource_connected c srv) by assumption.
    now rewrite Hres.
  - intros tool Htool Hf.
    rewrite (execute_tool_connected c srv) by assumption.
    now rewrite Htool, Hf.
Qed.

End RequesterProvider.

(** X2 on the sample orchestrator whose relational agent is down. *)
Lemma provider_failure_reaches_requester_witness :
  Mcp.request_resource Samples.world
    (client (Samples.orchestrator_with Samples.postgres_down
               Samples.analyzer_ready))
    "postgres" "database_schema" =
  Raise (Exception "Error obteniendo recurso: connection refused") /\
  Mcp.request_resource Samples.world
    (client (Samples.orchestrator_with Samples.postgres_down
               Samples.analyzer_ready))
    "postgres" "columns_info" =
  Raise (Exception
           "Error obteniendo recurso: Recurso 'columns_info' no encontrado").
Proof.
  destruct (provider_failure_reaches_requester Samples.world
              (client (Samples.orchestrator_with Samples.postgres_down
                         Samples.analyzer_ready))
              Samples.postgres_down "postgres" "database_schema" "OSError"
              "c" "onnection refused" [] eq_refl) as (H & _).
  destruct (provider_failure_reaches_requester Samples.world
              (client (Samples.orchestrator_with Samples.postgres_down
                         Samples.analyzer_ready))
              Samples.postgres_down "postgres" "columns_info" "OSError"
              "c" "" [] eq_refl) as (_ & H' & _).
  split; [apply H | apply H']; reflexivity.
Defined.

(** X3 on a graph agent that times out without a message. *)
Lemma empty_error_message_is_swallowed_witness :
  Mcp.request_resource Samples.world Cases.silent_client "neo4j" "graph_stats"
    = Ok PNone /\
  Mcp.execute_tool Samples.world Cases.silent_client "neo4j" "find_nodes"
    [("label", PStr "User")] = Ok PNone.
Proof.
  destruct (empty_error_message_is_swallowed Samples.world Cases.silent_client
              Cases.silent_server "neo4j" "graph_stats" "TimeoutError"
              [("label", PStr "User")] eq_refl) as (H & _).
  destruct (empty_error_message_is_swallowed Samples.world Cases.silent_client
              Cases.silent_server "neo4j" "find_nodes" "TimeoutError"
              [("label", PStr "User")] eq_refl) as (_ & H').
  split; [apply H; reflexivity |].
  apply (H' (Mcp.MkTool (fun _ => Raise (MkExn "TimeoutError" ""))
               "Busca nodos en el grafo por etiqueta y propiedades"));
    reflexivity.
Defined.

(** ** Validation of the remote reply *)

Section ReplyValidation.

Lemma check_required_dict (fields : list string) (d : list (string * PyVal)) :
  Gemini.check_required fields (PDict d) = Ok tt <->
  forall f, In f fields -> dict_has d f = true.
Proof.
  induction fields as [| field rest IH]; simpl.
  - split; [intros _ f [] | reflexivity].
  - destruct (dict_has d field) eqn:Hfield; simpl.
    + rewrite IH. split.
      * intros H f [<- | Hin]; [assumption | now apply H].
      * intros H f Hin. apply H. now right.
    + split; [discriminate |].
      intros H. specialize (H field (or_introl eq_refl)). congruence.
Qed.

Lemma check_required_first_missing (pre post : list string) (field : string)
  (d : list (string * PyVal)) :
  (forall f, In f pre -> dict_has d f = true) ->
  dict_has d field = false ->
  Gemini.check_required (pre ++ field :: post) (PDict d) =
  Raise (ValueError ("Campo requerido '" +:+ field
                       +:+ "' no encontrado en análisis")).
Proof.
  intros Hpre Hmiss. induction pre as [| p pre IH]; simpl.
  - now rewrite Hmiss.
  - rewrite (Hpre p (or_introl eq_refl)). simpl. apply IH.
    intros f Hin. apply Hpre. now right.
Qed.

Lemma dict_has_item (d : list (string * PyVal)) (key : string) :
  dict_has d key = true -> exists v, Gemini.item (PDict d) key = Ok v.
Proof.
  unfold dict_has, Gemini.item. destruct (dict_get d key); [eauto | discriminate].
Qed.

Lemma clamp_complexity_valid (v : PyVal) :
  In (Gemini.clamp_complexity v) Gemini.valid_complexity.
Proof.
  unfold Gemini.clamp_complexity.
  destruct v; try (simpl; tauto).
  destruct (list_in s Gemini.valid_complexity) eqn:Hs.
  - now apply list_in_In.
  - simpl. tauto.
Qed.

(** X4: the validation accepts a reply exactly when it is an object
    that has the five required fields; the rejection names the first
    field that is missing; and in an accepted reply the three flags are
    the truth values of the reply's fields (with both stores forced when
    [needs_both] holds) and the complexity is one of simple, hybrid and
    complex, an unknown value being replaced by simple. *)
Theorem validation_accepts_complete_replies (parsed : PyVal) :
  ((exists i, Gemini._validate_analysis_result parsed = Ok i) <->
   exists d, parsed = PDict d /\
             forall f, In f Gemini.required_fields -> dict_has d f = true) /\
  (forall d pre field post,
     parsed = PDict d ->
     Gemini.required_fields = (pre ++ field :: post)%list ->
     (forall f, In f pre -> dict_has d f = true) ->
     dict_has d field = false ->
     Gemini._validate_analysis_result parsed =
     Raise (ValueError ("Campo requerido '" +:+ field
                          +:+ "' no encontrado en análisis"))) /\
  (forall i,
     Gemini._validate_analysis_result parsed = Ok i ->
     In (Gemini.complexity i) Gemini.valid_complexity /\
     exists d pg neo both,
       parsed = PDict d /\
       dict_get d "needs_postgresql" = Some pg /\
       dict_get d "needs_neo4j" = Some neo /\
       dict_get d "needs_both" = Some both /\
       Gemini.needs_both i = truthy both /\
       Gemini.needs_postgresql i = (truthy both || truthy pg) /\
       Gemini.needs_neo4j i = (truthy both || truthy neo)).
Proof.
  split; [| split].
  - split.
    + intros (i & Hi). unfold Gemini._validate_analysis_result in Hi.
      destruct (Gemini.check_required Gemini.required_fields parsed)
        as [[] | e] eqn:Hreq; [| discriminate].
      destruct parsed as [| | | | s | l | d].
      1-4: discriminate.
      * simpl in Hi. unfold obind in Hi. repeat case_match; discriminate.
      * simpl in Hi. unfold obind in Hi. repeat case_match; discriminate.
      * exists d. split; [reflexivity |]. now apply check_required_dict.
    + intros (d & -> & Hall).
      unfold Gemini._validate_analysis_result.
      rewrite (proj2 (check_required_dict _ d) Hall).
      destruct (dict_has_item d "needs_postgresql") as (v1 & H1);
        [apply Hall; simpl; tauto |].
      destruct (dict_has_item d "needs_neo4j") as (v2 & H2);
        [apply Hall; simpl; tauto |].
      destruct (dict_has_item d "needs_both") as (v3 & H3);
        [apply Hall; simpl; tauto |].
      destruct (dict_has_item d "complexity") as (v4 & H4);
        [apply Hall; simpl; tauto |].
      destruct (dict_has_item d "reasoning") as (v5 & H5);
        [apply Hall; simpl; tauto |].
      cbn [obind]. rewrite H1. cbn [obind]. rewrite H2. cbn [obind].
      rewrite H3. cbn [obind]. rewrite H4. cbn [obind]. rewrite H5.
      cbn [obind]. eauto.
  - intros d pre field post -> Hfields Hpre Hmiss.
    unfold Gemini._validate_analysis_result. rewrite Hfields.
    now rewrite check_required_first_missing.
  - intros i Hi. unfold Gemini._validate_analysis_result, obind in Hi.
    destruct (Gemini.check_required Gemini.required_fields parsed)
      as [[] | e]; [| discriminate].
    destruct parsed as [| | | | s | l | d]; try discriminate.
    unfold Gemini.item in Hi.
    destruct (dict_get d "needs_postgresql") as [pg |] eqn:Hpg;
      [| discriminate].
    destruct (dict_get d "needs_neo4j") as [neo |] eqn:Hneo; [| discriminate].
    destruct (dict_get d "needs_both") as [both |] eqn:Hboth; [| discriminate].
    destruct (dict_get d "complexity") as [cx |]; [| discriminate].
    destruct (dict_get d "reasoning") as [why |]; [| discriminate].
    injection Hi as <-. simpl. split; [apply clamp_complexity_valid |].
    exists d, pg, neo, both.
    repeat split; try assumption; now destruct (truthy both).
Qed.

End ReplyValidation.

(** ** The remote stage and its keyword replacement *)

Section RemoteStage.

Lemma count_in_cons (kw : string) (words : list string) (text : string) :
  count_in (kw :: words) text =
  ((if str_in kw text then 1 else 0) + count_in words text)%Z.
Proof.
  unfold count_in. rewrite filter_cons.
  destruct (str_in kw text) eqn:Hkw.
  - rewrite decide_True by reflexivity. simpl length. lia.
  - rewrite decide_False by discriminate. lia.
Qed.

Lemma count_in_nonneg (words : list string) (text : string) :
  (0 <= count_in words text)%Z.
Proof. unfold count_in. lia. Qed.

Lemma count_in_positive (kw : string) (words : list string) (text : string) :
  In kw words -> str_in kw text = true -> (0 < count_in words text)%Z.
Proof.
  induction words as [| x words IH]; simpl; [tauto |].
  intros [-> | Hin] Hkw; rewrite count_in_cons.
  - rewrite Hkw. pose proof (count_in_nonneg words text). lia.
  - specialize (IH Hin Hkw). destruct (str_in x text); lia.
Qed.

Lemma count_in_zero (words : list string) (text : string) :
  (forall kw, In kw words -> str_in kw text = false) ->
  count_in words text = 0%Z.
Proof.
  induction words as [| x words IH]; intros Hnone.
  - reflexivity.
  - rewrite count_in_cons, (Hnone x (or_introl eq_refl)), IH; [reflexivity |].
    intros kw Hin. apply Hnone. now right.
Qed.

Lemma count_in_mentions (words : list string) (query : string) :
  (0 <? count_in words (lower query))%Z = true <-> mentions words query.
Proof.
  unfold mentions. split.
  - intros Hpos. apply Z.ltb_lt in Hpos.
    induction words as [| x words IH].
    + discriminate.
    + rewrite count_in_cons in Hpos.
      destruct (str_in x (lower query)) eqn:Hx.
      * exists x. split; [now left | exact Hx].
      * destruct IH as (kw & Hin & Hkw); [lia |].
        exists kw. split; [now right | exact Hkw].
  - intros (kw & Hin & Hkw). apply Z.ltb_lt.
    exact (count_in_positive kw words _ Hin Hkw).
Qed.

Lemma ascii_lower_is_ascii (c : ascii) :
  (nat_of_ascii c <? 128)%nat = true ->
  (nat_of_ascii (ascii_lower c) <? 128)%nat = true.
Proof.
  destruct c as [[] [] [] [] [] [] [] []]; intros H;
    first [discriminate H | reflexivity].
Qed.

Lemma lower_is_ascii (s : string) :
  is_ascii s = true -> is_ascii (lower s) = true.
Proof.
  induction s as [| c s IH]; [reflexivity |].
  cbn [is_ascii lower]. intros [Hc Hs]%andb_true_iff.
  now rewrite (ascii_lower_is_ascii c Hc), (IH Hs).
Qed.

Lemma prefix_is_ascii (needle hay : string) :
  String.prefix needle hay = true ->
  is_ascii hay = true -> is_ascii needle = true.
Proof.
  revert hay. induction needle as [| a needle IH]; intros hay; [reflexivity |].
  destruct hay as [| b hay]; [discriminate |].
  cbn [String.prefix is_ascii].
  destruct (ascii_dec a b) as [-> | _]; [| discriminate].
  intros Hp [Hb Hh]%andb_true_iff. now rewrite Hb, (IH hay Hp Hh).
Qed.

Lemma str_in_is_ascii (needle hay : string) :
  str_in needle hay = true ->
  is_ascii hay = true -> is_ascii needle = true.
Proof.
  induction hay as [| b hay IH].
  - cbn [str_in]. intros Hp _. now apply (prefix_is_ascii needle "").
  - cbn [str_in]. intros [Hp | Hin]%orb_true_iff Hh.
    + now apply (prefix_is_ascii needle (String b hay)).
    + cbn [is_ascii] in Hh. apply andb_true_iff in Hh as [_ Hh]. auto.
Qed.

(** X5.  For a query of ASCII characters, the keyword analysis that
    replaces a failed remote reply needs the relational store exactly
    when the lower-cased query mentions a relational keyword or no
    graph keyword, the graph store exactly when it mentions a graph
    keyword or no relational keyword, and both exactly when it mentions
    keywords of both kinds or of neither; so it always asks for at
    least one store.  Its complexity is hybrid when it needs both and
    simple otherwise, and it is flagged as a replacement.  A keyword
    counts wherever it occurs, also inside a longer word; the keywords
    with an accented letter are never found in such a query. *)
Theorem keyword_analysis_selects_a_store (query : string) :
  is_ascii query = true ->
  (Gemini.needs_postgresql (Gemini._fallback_intent_analysis query) = true <->
   mentions Gemini.sql_keywords query \/
   ~ mentions Gemini.graph_keywords query) /\
  (Gemini.needs_neo4j (Gemini._fallback_intent_analysis query) = true <->
   mentions Gemini.graph_keywords query \/
   ~ mentions Gemini.sql_keywords query) /\
  (Gemini.needs_both (Gemini._fallback_intent_analysis query) = true <->
   (mentions Gemini.sql_keywords query <->
    mentions Gemini.graph_keywords query)) /\
  (Gemini.needs_both (Gemini._fallback_intent_analysis query) = true <->
   Gemini.needs_postgresql (Gemini._fallback_intent_analysis query) = true /\
   Gemini.needs_neo4j (Gemini._fallback_intent_analysis query) = true) /\
  (Gemini.needs_postgresql (Gemini._fallback_intent_analysis query) = true \/
   Gemini.needs_neo4j (Gemini._fallback_intent_analysis query) = true) /\
  Gemini.complexity (Gemini._fallback_intent_analysis query)
  = (if Gemini.needs_both (Gemini._fallback_intent_analysis query)
     then "hybrid" else "simple") /\
  Gemini.fallback_used (Gemini._fallback_intent_analysis query) = true /\
  (forall kw, is_ascii kw = false -> str_in kw (lower query) = false).
Proof.
  intros Hascii.
  pose proof (count_in_mentions Gemini.sql_keywords query) as Hs.
  pose proof (count_in_mentions Gemini.graph_keywords query) as Hg.
  assert (forall kw, is_ascii kw = false -> str_in kw (lower query) = false)
    as Hplain.
  { intros kw Hkw. destruct (str_in kw (lower query)) eqn:Hin; [| reflexivity].
    rewrite (str_in_is_ascii kw _ Hin (lower_is_ascii _ Hascii)) in Hkw.
    discriminate. }
  unfold Gemini._fallback_intent_analysis.
  cbn -[count_in Z.ltb In Gemini.graph_keywords Gemini.sql_keywords app
        mentions is_ascii str_in lower].
  destruct (0 <? count_in Gemini.sql_keywords (lower query))%Z;
    destruct (0 <? count_in Gemini.graph_keywords (lower query))%Z;
    cbn [negb andb];
    (repeat split; [.. | exact Hplain]); try tauto; try discriminate;
    try (intros; exfalso; intuition discriminate);
    intuition (try discriminate).
Qed.

(** A query that mentions a graph keyword only. *)
Lemma keyword_analysis_selects_a_store_witness :
  is_ascii "show me the graph schema" = true /\
  Gemini.needs_neo4j
    (Gemini._fallback_intent_analysis "show me the graph schema") = true /\
  Gemini.needs_postgresql
    (Gemini._fallback_intent_analysis "show me the graph schema") = false /\
  Gemini.complexity
    (Gemini._fallback_intent_analysis "show me the graph schema") = "simple".
Proof.
  split; [reflexivity |].
  destruct (keyword_analysis_selects_a_store "show me the graph schema"
              eq_refl) as (_ & Hneo & _).
  split.
  - apply Hneo. left. exists "graph". split; [simpl; tauto | reflexivity].
  - split; vm_compute; reflexivity.
Defined.

(** X6: the remote stage never raises.  [analyze_query_intent] answers
    with the validated reply when there is one and with the keyword
    analysis of the query when the remote call fails or its reply is
    rejected; so [_analyze_with_llm] always returns an analysis of the
    query, never reaches its own [except] branch, and does not depend
    on the attributes of the classifier. *)
Theorem remote_stage_never_raises (w : World) (self : PatternAnalyzer)
  (query : string) (context : list (string * PyVal)) :
  (forall parsed i,
     gemini_reply w query = Ok parsed ->
     Gemini._validate_analysis_result parsed = Ok i ->
     Gemini.analyze_query_intent w query = Ok i) /\
  (forall parsed e,
     gemini_reply w query = Ok parsed ->
     Gemini._validate_analysis_result parsed = Raise e ->
     Gemini.analyze_query_intent w query =
     Ok (Gemini._fallback_intent_analysis query)) /\
  (forall e,
     gemini_reply w query = Raise e ->
     Gemini.analyze_query_intent w query =
     Ok (Gemini._fallback_intent_analysis query)) /\
  (exists i a,
     Gemini.analyze_query_intent w query = Ok i /\
     _analyze_with_llm w self query context = Ok a /\
     original_query a = query /\
     needs_graph a = Gemini.needs_neo4j i /\
     needs_relational a = Gemini.needs_postgresql i /\
     needs_both a = Gemini.needs_both i /\
     complexity a = Gemini.complexity i /\
     forall self' context',
       _analyze_with_llm w self' query context' = Ok a).
Proof.
  unfold Gemini.analyze_query_intent, try_except, obind.
  split; [| split; [| split]].
  - intros parsed i -> ->. reflexivity.
  - intros parsed e -> ->. reflexivity.
  - intros e ->. reflexivity.
  - unfold _analyze_with_llm, Gemini.analyze_query_intent, try_except, obind.
    destruct (gemini_reply w query) as [parsed | e].
    + destruct (Gemini._validate_analysis_result parsed) as [i | e];
        do 2 eexists; repeat split.
    + do 2 eexists; repeat split.
Qed.

End RemoteStage.

(** ** What every method of the classifier keeps *)

Import Invariants.

Section Keeps.

Variable R : PatternAnalyzer -> PatternAnalyzer -> Prop.
Hypothesis R_refl : forall s, R s s.
Hypothesis R_trans : forall s1 s2 s3, R s1 s2 -> R s2 s3 -> R s1 s3.

Lemma keeps_ret {A} (a : A) : keeps R (ret a).
Proof. intros s. apply R_refl. Qed.

Lemma keeps_lift {A} (o : Outcome A) : keeps R (lift o).
Proof. intros s. apply R_refl. Qed.

Lemma keeps_get : keeps R get.
Proof. intros s. apply R_refl. Qed.

Lemma keeps_bind {A B} (m : AM A) (k : A -> AM B) :
  keeps R m -> (forall a, keeps R (k a)) -> keeps R (bind m k).
Proof.
  intros Hm Hk s. unfold bind. specialize (Hm s).
  destruct (m s) as [[a | e] s']; simpl in *; [| assumption].
  eapply R_trans; [eassumption | apply Hk].
Qed.

Lemma keeps_try_catch {A} (body : AM A) (handler : PyExn -> AM A) :
  keeps R body -> (forall e, keeps R (handler e)) ->
  keeps R (try_catch body handler).
Proof.
  intros Hb Hh s. unfold try_catch. specialize (Hb s).
  destruct (body s) as [[a | e] s']; simpl in *; [assumption |].
  eapply R_trans; [eassumption | apply Hh].
Qed.

Lemma keeps_attr_fallback_only : keeps R attr_fallback_only.
Proof.
  intros s. unfold attr_fallback_only.
  destruct (fallback_only s); apply R_refl.
Qed.

Hypothesis R_stats_incr : forall key, keeps R (stats_incr key).
Hypothesis R_cache_result : forall key a, keeps R (_cache_result key a).
Hypothesis R_initialize : forall w, keeps R (initialize w).

Lemma keeps_analyze_uncached (w : World) (query : string)
  (context : list (string * PyVal)) (key : string) :
  keeps R (analyze_uncached w query context key).
Proof.
  unfold analyze_uncached.
  apply keeps_bind; [apply keeps_get | intros s].
  apply keeps_bind.
  - destruct (llm_available s); [| apply keeps_ret].
    apply keeps_bind; [apply keeps_attr_fallback_only | intros b].
    apply keeps_ret.
  - intros use_llm. apply keeps_bind.
    + destruct use_llm;
        (apply keeps_bind; [apply keeps_lift | intros r];
         apply keeps_bind; [apply R_stats_incr | intros _];
         apply keeps_ret).
    + intros result.
      apply keeps_bind; [apply R_cache_result | intros _]. apply keeps_ret.
Qed.

Lemma keeps_analyze_emergency (query : string)
  (context : list (string * PyVal)) (e : PyExn) :
  keeps R (analyze_emergency query context e).
Proof.
  unfold analyze_emergency.
  apply keeps_bind; [apply R_stats_incr | intros _]. apply keeps_ret.
Qed.

(** A relation between states that the three state-changing steps keep
    is kept by [analyze_query], however it ends. *)
Lemma keeps_analyze_query (w : World) (query : string)
  (context : option (list (string * PyVal))) :
  keeps R (analyze_query w query context).
Proof.
  unfold analyze_query.
  apply keeps_bind; [apply keeps_get | intros s0].
  apply keeps_bind.
  - destruct (initialized s0); [apply keeps_ret | apply R_initialize].
  - intros _. apply keeps_bind; [apply R_stats_incr | intros _].
    apply keeps_bind; [apply keeps_get | intros s].
    destruct (dict_get (analysis_cache s) _).
    + apply keeps_bind; [apply R_stats_incr | intros _]. apply keeps_ret.
    + apply keeps_try_catch.
      * apply keeps_analyze_uncached.
      * intros e. apply keeps_analyze_emergency.
Qed.

End Keeps.

(** ** The usage counters *)

Section UsageCounters.

Lemma stats_incr_counter (key k : string) (self : PatternAnalyzer) :
  counter (snd (stats_incr key self)) k =
  (counter self k
   + if String.eqb key k && is_ok (fst (stats_incr key self)) then 1 else 0)%Z.
Proof.
  unfold stats_incr, counter.
  destruct (stats self !! key) as [n |] eqn:Hkey; simpl.
  - destruct (String.eqb_spec key k) as [<- | Hne]; simpl.
    + now rewrite lookup_insert_eq, Hkey.
    + rewrite lookup_insert_ne by assumption. lia.
  - rewrite andb_false_r. lia.
Qed.

Lemma cache_result_stats (key : string) (a : Analysis) (self : PatternAnalyzer) :
  stats (snd (_cache_result key a self)) = stats self.
Proof.
  unfold _cache_result.
  now destruct (evict_while_full _ _) as [[[] | e] c].
Qed.

Lemma cache_result_counter (key k : string) (a : Analysis) (self : PatternAnalyzer) :
  counter (snd (_cache_result key a self)) k = counter self k.
Proof. unfold counter. now rewrite cache_result_stats. Qed.

Lemma initialize_stats (w : World) (self : PatternAnalyzer) :
  stats (snd (initialize w self)) = stats self.
Proof.
  unfold initialize. destruct (initialized self); [reflexivity |].
  now destruct (gemini_initialize w).
Qed.

(** A stage of [analyze_query] that computes an analysis, counts it
    under [K], marks it with [f] and stores it: only the counter [K]
    moves, by one when the count was made. *)
Lemma counted_stage_counters (o : Outcome Analysis) (K key : string)
  (f : Analysis -> Analysis) (self : PatternAnalyzer) :
  exists d : Z,
    (0 <= d <= 1)%Z /\
    (forall a,
       fst (bind (bind (lift o)
                    (fun r => bind (stats_incr K) (fun _ => ret (f r))))
              (fun result =>
                 bind (_cache_result key result) (fun _ => ret result))
              self) = Ok a ->
       d = 1%Z /\ exists r, a = f r) /\
    forall k,
      counter
        (snd (bind (bind (lift o)
                      (fun r => bind (stats_incr K) (fun _ => ret (f r))))
                (fun result =>
                   bind (_cache_result key result) (fun _ => ret result))
                self)) k
      = (counter self k + if String.eqb K k then d else 0)%Z.
Proof.
  unfold bind, lift, ret. destruct o as [r | e]; cbn [fst snd].
  - destruct (stats_incr K self) as [[[] | e] s1] eqn:Hincr; cbn [fst snd].
    + exists 1%Z. split; [lia |]. split.
      * intros a Ha. split; [reflexivity |].
        destruct (_cache_result key (f r) s1) as [[[] | e] s2];
          cbn [fst] in Ha; [injection Ha as <-; eauto | discriminate].
      * intros k.
        pose proof (stats_incr_counter K k self) as Hc.
        rewrite Hincr in Hc. cbn [fst snd is_ok] in Hc.
        rewrite andb_true_r in Hc.
        pose proof (cache_result_counter key k (f r) s1) as Hr.
        destruct (_cache_result key (f r) s1) as [[[] | e] s2];
          cbn [fst snd] in *; now rewrite Hr, Hc.
    + exists 0%Z. split; [lia |]. split; [intros a [=] |]. intros k.
      pose proof (stats_incr_counter K k self) as Hc.
      rewrite Hincr in Hc. cbn [fst snd is_ok] in Hc.
      rewrite andb_false_r in Hc.
      rewrite Hc. destruct (String.eqb K k); lia.
  - exists 0%Z. split; [lia |]. split; [intros a [=] |].
    intros k. destruct (String.eqb K k); lia.
Qed.


Lemma uncached_counters (w : World) (query : string)
  (context : list (string * PyVal)) (key : string) (self : PatternAnalyzer) :
  exists (d : Z) (K m : string),
    (0 <= d <= 1)%Z /\
    ((K = "llm_queries" /\ m = "llm") \/
     (K = "fallback_queries" /\ m = "fallback")) /\
    (forall a,
       fst (analyze_uncached w query context key self) = Ok a ->
       d = 1%Z /\ analysis_method a = Some m) /\
    forall k,
      counter (snd (analyze_uncached w query context key self)) k
      = (counter self k + if String.eqb K k then d else 0)%Z.
Proof.
  remember (analyze_uncached w query context key self) as res eqn:Hres.
  unfold analyze_uncached in Hres. unfold bind at 1 2 in Hres.
  unfold get at 1 in Hres. cbn [fst snd] in Hres.
  assert (forall (o : Outcome Analysis) (K m : string) (c : Q),
            exists d : Z,
              (0 <= d <= 1)%Z /\
              (forall a,
                 fst (bind (bind (lift o)
                              (fun r => bind (stats_incr K)
                                 (fun _ => ret (set_confidence c (set_method m r)))))
                        (fun result =>
                           bind (_cache_result key result) (fun _ => ret result))
                        self) = Ok a ->
                 d = 1%Z /\ analysis_method a = Some m) /\
              forall k,
                counter
                  (snd (bind (bind (lift o)
                                (fun r => bind (stats_incr K)
                                   (fun _ => ret (set_confidence c (set_method m r)))))
                          (fun result =>
                             bind (_cache_result key result) (fun _ => ret result))
                          self)) k
                = (counter self k + if String.eqb K k then d else 0)%Z)
    as Hstage.
  { intros o K m c.
    destruct (counted_stage_counters o K key
                (fun r => set_confidence c (set_method m r)) self)
      as (d & Hd & Hok & Hk).
    exists d. split; [exact Hd |]. split; [| exact Hk].
    intros a Ha. destruct (Hok a Ha) as (-> & r & ->). now split. }
  destruct (llm_available self).
  - unfold bind at 1 in Hres. unfold attr_fallback_only in Hres.
    destruct (fallback_only self) as [[] |]; cbn [ret negb] in Hres;
      rewrite Hres.
    + destruct (Hstage (_analyze_with_fallback w self query context)
                  "fallback_queries" "fallback" (0.7)%Q) as (d & Hd & Hok & Hk).
      exists d, "fallback_queries", "fallback".
      split; [exact Hd |]. split; [now right |]. split; [exact Hok | exact Hk].
    + destruct (Hstage (_analyze_with_llm w self query context)
                  "llm_queries" "llm" (0.9)%Q) as (d & Hd & Hok & Hk).
      exists d, "llm_queries", "llm".
      split; [exact Hd |]. split; [now left |]. split; [exact Hok | exact Hk].
    + exists 0%Z, "llm_queries", "llm". split; [lia |]. split; [now left |].
      unfold bind. cbn [fst snd]. split; [intros a [=] |].
      intros k. destruct (String.eqb "llm_queries" k); lia.
  - cbn [ret] in Hres. rewrite Hres.
    destruct (Hstage (_analyze_with_fallback w self query context)
                "fallback_queries" "fallback" (0.7)%Q) as (d & Hd & Hok & Hk).
    exists d, "fallback_queries", "fallback".
      split; [exact Hd |]. split; [now right |]. split; [exact Hok | exact Hk].
Qed.

Lemma emergency_counters (query : string) (context : list (string * PyVal))
  (e : PyExn) (self : PatternAnalyzer) :
  exists d : Z,
    (0 <= d <= 1)%Z /\
    (forall a,
       fst (analyze_emergency query context e self) = Ok a ->
       d = 1%Z /\ analysis_method a = Some "emergency") /\
    forall k,
      counter (snd (analyze_emergency query context e self)) k
      = (counter self k + if String.eqb "errors" k then d else 0)%Z.
Proof.
  unfold analyze_emergency, bind, ret.
  destruct (stats_incr "errors" self) as [[[] | e'] s1] eqn:Hincr;
    cbn [fst snd].
  - exists 1%Z. split; [lia |].
    split; [intros a [= <-]; now split |]. intros k.
    pose proof (stats_incr_counter "errors" k self) as Hc.
    rewrite Hincr in Hc. cbn [fst snd is_ok] in Hc.
    now rewrite andb_true_r in Hc.
  - exists 0%Z. split; [lia |]. split; [intros a [=] |]. intros k.
    pose proof (stats_incr_counter "errors" k self) as Hc.
    rewrite Hincr in Hc. cbn [fst snd is_ok] in Hc.
    rewrite andb_false_r in Hc.
    rewrite Hc. destruct (String.eqb "errors" k); lia.
Qed.

(** The counters after [analyze_query], however it ends: each of the
    five counters moved by zero or one, the others not at all. *)
Lemma analyze_query_deltas (w : World) (query : string)
  (context : option (list (string * PyVal))) (self s' : PatternAnalyzer)
  (o : Outcome Analysis) :
  analyze_query w query context self = (o, s') ->
  exists dt dc dl df de : Z,
    (0 <= dc /\ 0 <= dl /\ 0 <= df /\ 0 <= de /\
     dc + dl + df <= dt /\ dc + de <= dt /\ dt <= 1)%Z /\
    (forall a,
       o = Ok a ->
       dt = 1%Z /\
       ((analysis_method a = Some "cache" /\ dc = 1%Z) \/
        (analysis_method a = Some "llm" /\ dl = 1%Z) \/
        (analysis_method a = Some "fallback" /\ df = 1%Z) \/
        (analysis_method a = Some "emergency" /\ de = 1%Z))) /\
    forall k,
      counter s' k
      = (counter self k
         + (if String.eqb "total_queries" k then dt else 0)
         + (if String.eqb "cache_hits" k then dc else 0)
         + (if String.eqb "llm_queries" k then dl else 0)
         + (if String.eqb "fallback_queries" k then df else 0)
         + (if String.eqb "errors" k then de else 0))%Z.
Proof.
  unfold analyze_query, bind, get, try_catch, ret. intros H.
  cbn [fst snd] in H.
  match type of H with
  | context [let (_, _) := ?t in _] =>
      assert (forall k, counter (snd t) k = counter self k) as Hinit;
      [ intros k; unfold counter; destruct (initialized self);
        [reflexivity | now rewrite initialize_stats]
      | destruct t as [[[] | e0] s0]; cbn [fst snd] in * ]
  end.
  2:{ injection H as <- <-. exists 0%Z, 0%Z, 0%Z, 0%Z, 0%Z. split; [lia |].
      split; [intros a [=] |]. intros k. rewrite Hinit.
      repeat case_match; lia. }
  destruct (stats_incr "total_queries" s0) as [[[] | e1] s1] eqn:Htotal.
  2:{ injection H as <- <-. exists 0%Z, 0%Z, 0%Z, 0%Z, 0%Z. split; [lia |].
      split; [intros a [=] |]. intros k.
      pose proof (stats_incr_counter "total_queries" k s0) as Hc.
      rewrite Htotal in Hc. cbn [fst snd is_ok] in Hc.
      rewrite andb_false_r in Hc.
      rewrite Hc, Hinit. repeat case_match; lia. }
  assert (forall k, counter s1 k
                    = (counter self k
                       + if String.eqb "total_queries" k then 1 else 0)%Z)
    as Hs1.
  { intros k. pose proof (stats_incr_counter "total_queries" k s0) as Hc.
    rewrite Htotal in Hc. cbn [fst snd is_ok] in Hc.
    rewrite andb_true_r in Hc. now rewrite Hc, Hinit. }
  destruct (dict_get (analysis_cache s1) _) as [cached |].
  - destruct (stats_incr "cache_hits" s1) as [[[] | e2] s2] eqn:Hhit;
      injection H as <- <-.
    + exists 1%Z, 1%Z, 0%Z, 0%Z, 0%Z. split; [lia |].
      split; [intros a [= <-]; split; [reflexivity | left; now split] |].
      intros k. pose proof (stats_incr_counter "cache_hits" k s1) as Hc.
      rewrite Hhit in Hc. cbn [fst snd is_ok] in Hc.
      rewrite andb_true_r in Hc.
      rewrite Hc, Hs1. repeat case_match; lia.
    + exists 1%Z, 0%Z, 0%Z, 0%Z, 0%Z. split; [lia |].
      split; [intros a [=] |].
      intros k. pose proof (stats_incr_counter "cache_hits" k s1) as Hc.
      rewrite Hhit in Hc. cbn [fst snd is_ok] in Hc.
      rewrite andb_false_r in Hc.
      rewrite Hc, Hs1. repeat case_match; lia.
  - destruct (uncached_counters w query (default [] context)
                (_generate_cache_key w query (default [] context)) s1)
      as (d & K & m & Hd & HK & Hok & Hun).
    destruct (analyze_uncached w query (default [] context)
                (_generate_cache_key w query (default [] context)) s1)
      as [[a | e3] s3]; cbn [fst snd] in *.
    + injection H as <- <-. destruct (Hok a eq_refl) as (-> & Hm).
      destruct HK as [[-> ->] | [-> ->]].
      * exists 1%Z, 0%Z, 1%Z, 0%Z, 0%Z. split; [lia |].
        split; [intros a' [= <-]; split; [reflexivity | right; left; now split] |].
        intros k. rewrite Hun, Hs1. repeat case_match; lia.
      * exists 1%Z, 0%Z, 0%Z, 1%Z, 0%Z. split; [lia |].
        split; [intros a' [= <-]; split;
                [reflexivity | right; right; left; now split] |].
        intros k. rewrite Hun, Hs1. repeat case_match; lia.
    + destruct (emergency_counters query (default [] context) e3 s3)
        as (de & Hde & Hoke & Hem).
      rewrite H in Hem, Hoke. cbn [fst snd] in Hem, Hoke.
      assert (forall a, o = Ok a ->
                de = 1%Z /\ analysis_method a = Some "emergency") as Hoke'
        by exact Hoke.
      destruct HK as [[-> ->] | [-> ->]].
      * exists 1%Z, 0%Z, d, 0%Z, de. split; [lia |].
        split; [intros a' Ha'; destruct (Hoke' a' Ha') as (-> & Hm');
                split; [reflexivity | right; right; right; now split] |].
        intros k. rewrite Hem, Hun, Hs1. repeat case_match; lia.
      * exists 1%Z, 0%Z, 0%Z, d, de. split; [lia |].
        split; [intros a' Ha'; destruct (Hoke' a' Ha') as (-> & Hm');
                split; [reflexivity | right; right; right; now split] |].
        intros k. rewrite Hem, Hun, Hs1. repeat case_match; lia.
Qed.


Lemma counters_grow_refl (s : PatternAnalyzer) : counters_grow s s.
Proof. intros key. destruct (stats s !! key); [lia | exact I]. Qed.

Lemma counters_grow_trans (s1 s2 s3 : PatternAnalyzer) :
  counters_grow s1 s2 -> counters_grow s2 s3 -> counters_grow s1 s3.
Proof.
  intros H12 H23 key. specialize (H12 key). specialize (H23 key).
  destruct (stats s1 !! key), (stats s2 !! key), (stats s3 !! key);
    try contradiction; try exact I; lia.
Qed.

Lemma counters_grow_same_stats (s s' : PatternAnalyzer) :
  stats s' = stats s -> counters_grow s s'.
Proof. intros Heq key. rewrite Heq. destruct (stats s !! key); [lia | exact I]. Qed.

Lemma counters_grow_stats_incr (key : string) :
  keeps counters_grow (stats_incr key).
Proof.
  intros s k. unfold stats_incr.
  destruct (stats s !! key) as [n |] eqn:Hkey; cbn [snd stats set_stats].
  - destruct (String.eqb_spec key k) as [<- | Hne].
    + rewrite lookup_insert_eq, Hkey. lia.
    + rewrite lookup_insert_ne by assumption.
      destruct (stats s !! k); [lia | exact I].
  - destruct (stats s !! k); [lia | exact I].
Qed.

Lemma same_configuration_refl (s : PatternAnalyzer) : same_configuration s s.
Proof. now repeat split. Qed.

Lemma same_configuration_trans (s1 s2 s3 : PatternAnalyzer) :
  same_configuration s1 s2 -> same_configuration s2 s3 ->
  same_configuration s1 s3.
Proof.
  intros (Ha & Hb & Hc) (Ha' & Hb' & Hc'). unfold same_configuration.
  now rewrite Ha', Hb', Hc'.
Qed.

(** X7.  However a classification ends - with an analysis or with an
    exception - no usage counter is lowered, created or removed, and the
    attributes [fallback_only], [fallback_patterns] and [cache_max_size]
    are what they were: a classifier that lacks an attribute or a
    counter never acquires it by classifying. *)
Theorem classification_keeps_counters_and_configuration (w : World)
  (query : string) (context : option (list (string * PyVal)))
  (self : PatternAnalyzer) :
  counters_grow self (snd (analyze_query w query context self)) /\
  same_configuration self (snd (analyze_query w query context self)).
Proof.
  apply (keeps_analyze_query
           (fun s s' => counters_grow s s' /\ same_configuration s s')).
  - intros s. split; [apply counters_grow_refl | apply same_configuration_refl].
  - intros s1 s2 s3 [Hc Hs] [Hc' Hs'].
    split; [eapply counters_grow_trans | eapply same_configuration_trans];
      eassumption.
  - intros key s. split; [apply counters_grow_stats_incr |].
    unfold stats_incr. destruct (stats s !! key); now repeat split.
  - intros key a s. split.
    + apply counters_grow_same_stats, cache_result_stats.
    + unfold _cache_result.
      destruct (evict_while_full _ _) as [[[] | e] c]; now repeat split.
  - intros w' s. split.
    + apply counters_grow_same_stats, initialize_stats.
    + unfold initialize. destruct (initialized s); [now repeat split |].
      destruct (gemini_initialize w'); now repeat split.
Qed.

(** X8.  A classification that returns an analysis has counted the
    query once in [total_queries] and once in the counter of the stage
    that the analysis names as its method; no counter moved by more
    than one. *)
Theorem every_answer_is_counted (w : World) (query : string)
  (context : option (list (string * PyVal))) (self s' : PatternAnalyzer)
  (a : Analysis) :
  analyze_query w query context self = (Ok a, s') ->
  counter s' "total_queries" = (counter self "total_queries" + 1)%Z /\
  (exists key,
     In (analysis_method a, key)
        [(Some "cache", "cache_hits"); (Some "llm", "llm_queries");
         (Some "fallback", "fallback_queries"); (Some "emergency", "errors")] /\
     counter s' key = (counter self key + 1)%Z) /\
  forall k, (counter self k <= counter s' k <= counter self k + 1)%Z.
Proof.
  intros H.
  destruct (analyze_query_deltas w query context self s' (Ok a) H)
    as (dt & dc & dl & df & de & Hd & Hok & Hk).
  destruct (Hok a eq_refl) as (-> & Hm).
  split; [rewrite Hk; cbn -[counter]; lia |].
  split.
  - destruct Hm as [[Hm ->] | [[Hm ->] | [[Hm ->] | [Hm ->]]]]; rewrite Hm.
    + exists "cache_hits". split; [simpl; tauto |]. rewrite Hk. cbn -[counter]. lia.
    + exists "llm_queries". split; [simpl; tauto |]. rewrite Hk. cbn -[counter]. lia.
    + exists "fallback_queries". split; [simpl; tauto |]. rewrite Hk. cbn -[counter]. lia.
    + exists "errors". split; [simpl; tauto |]. rewrite Hk. cbn -[counter]. lia.
  - intros k. rewrite Hk.
    destruct (String.eqb_spec "total_queries" k) as [<- | ?];
      [cbn -[counter]; lia |].
    destruct (String.eqb_spec "cache_hits" k) as [<- | ?];
      [cbn -[counter]; lia |].
    destruct (String.eqb_spec "llm_queries" k) as [<- | ?];
      [cbn -[counter]; lia |].
    destruct (String.eqb_spec "fallback_queries" k) as [<- | ?];
      [cbn -[counter]; lia |].
    destruct (String.eqb_spec "errors" k) as [<- | ?]; lia.
Qed.

Lemma every_answer_is_counted_witness :
  exists a s',
    analyze_query Samples.world "show me the graph schema" None
      (Samples.analyzer_configured true 100) = (Ok a, s') /\
    analysis_method a = Some "llm" /\
    counter s' "total_queries" = 1%Z.
Proof.
  destruct (analyze_query Samples.world "show me the graph schema" None
              (Samples.analyzer_configured true 100)) as [o s'] eqn:Hrun.
  assert (exists a, o = Ok a /\ analysis_method a = Some "llm")
    as (a & -> & Hm).
  { vm_compute in Hrun. injection Hrun as <- <-.
    eexists. split; reflexivity. }
  destruct (every_answer_is_counted Samples.world "show me the graph schema"
              None (Samples.analyzer_configured true 100) s' a Hrun)
    as (Htotal & _).
  exists a, s'. split; [reflexivity |]. split; [exact Hm |]. exact Htotal.
Defined.

(** X9.  The counters stay consistent: if no more queries were counted
    by stage than in total, and no more hits and errors than in total,
    this is still so after any classification, initialisation, cache
    reset or shutdown. *)
Theorem counters_stay_accounted (w : World) (query : string)
  (context : option (list (string * PyVal))) (self : PatternAnalyzer) :
  accounted self ->
  accounted (snd (analyze_query w query context self)) /\
  accounted (snd (initialize w self)) /\
  accounted (snd (clear_cache self)) /\
  accounted (snd (close self)).
Proof.
  intros [H1 H2]. split; [| split; [| split]].
  - destruct (analyze_query w query context self) as [o s'] eqn:H.
    destruct (analyze_query_deltas w query context self s' o H)
      as (dt & dc & dl & df & de & Hd & _ & Hk).
    cbn [snd]. unfold accounted. rewrite !Hk. cbn -[counter]. lia.
  - unfold accounted, counter. rewrite initialize_stats. exact (conj H1 H2).
  - exact (conj H1 H2).
  - exact (conj H1 H2).
Qed.

Lemma counters_stay_accounted_witness :
  accounted (__init__ 100) /\
  accounted (snd (analyze_query Samples.world "show me the graph schema" None
                    (__init__ 100))).
Proof.
  assert (accounted (__init__ 100)) as H by (split; vm_compute; discriminate).
  split; [exact H |].
  exact (proj1 (counters_stay_accounted Samples.world
                  "show me the graph schema" None (__init__ 100) H)).
Defined.

End UsageCounters.

(** ** The classifier as its constructor leaves it *)

Import Monitoring.

Section Constructed.

Lemma unconfigured_init (max_size : Z) : unconfigured (__init__ max_size).
Proof.
  repeat (split; [reflexivity |]). exists 0%Z.
  split; [lia |]. split; reflexivity.
Qed.

Lemma unconfigured_initialize (w : World) (self : PatternAnalyzer) :
  unconfigured self -> unconfigured (snd (initialize w self)).
Proof.
  intros (Hc & Hfo & Hfp & Hllm & Hfq & Hh & Hl & n & Hn & Ht & He).
  unfold initialize. destruct (initialized self) eqn:Hi.
  - cbn [snd]. unfold unconfigured. rewrite Hi. eauto 12.
  - destruct (gemini_initialize w); cbn [snd]; unfold unconfigured;
      cbn [analysis_cache fallback_only fallback_patterns llm_available
           initialized stats set_flags]; rewrite ?Hi; eauto 12.
Qed.

Lemma unconfigured_analyze (w : World) (query : string)
  (context : option (list (string * PyVal))) (self : PatternAnalyzer) :
  unconfigured self ->
  unconfigured (snd (analyze_query w query context self)) /\
  (forall a,
     fst (analyze_query w query context self) = Ok a ->
     a = emergency_answer query context
           "'PatternAnalyzer' object has no attribute 'fallback_only'") /\
  (initialized self = true \/ gemini_initialize w = Ok tt ->
   exists a, fst (analyze_query w query context self) = Ok a).
Proof.
  intros Hun.
  assert (forall s : PatternAnalyzer,
            unconfigured s -> initialized s = true ->
            forall r,
              r = bind (stats_incr "total_queries")
                    (fun _ =>
                       bind get (fun self =>
                         match dict_get (analysis_cache self)
                                 (_generate_cache_key w query (default [] context))
                         with
                         | Some cached =>
                             bind (stats_incr "cache_hits")
                               (fun _ => ret (set_method "cache"
                                                (set_from_cache true cached)))
                         | None =>
                             try_catch
                               (analyze_uncached w query (default [] context)
                                  (_generate_cache_key w query (default [] context)))
                               (analyze_emergency query (default [] context))
                         end)) s ->
              unconfigured (snd r) /\
              fst r = Ok (emergency_answer query context
                "'PatternAnalyzer' object has no attribute 'fallback_only'"))
    as Hrest.
  { intros s (Hc & Hfo & Hfp & Hllm & Hfq & Hh & Hl & n & Hn & Ht & He) Hi r Hr.
    unfold bind at 1 in Hr. unfold stats_incr at 1 in Hr. rewrite Ht in Hr.
    unfold bind at 1, get at 1 in Hr. cbn [analysis_cache set_stats] in Hr.
    rewrite Hc in Hr. cbn [dict_get] in Hr.
    unfold try_catch, analyze_uncached in Hr.
    unfold bind at 1 2, get at 1 in Hr.
    cbn [llm_available set_stats] in Hr. rewrite Hllm, Hi in Hr.
    unfold bind at 1 in Hr. unfold attr_fallback_only in Hr.
    cbn [fallback_only set_stats] in Hr. rewrite Hfo in Hr.
    unfold analyze_emergency, bind in Hr. unfold stats_incr in Hr.
    cbn [stats set_stats] in Hr.
    rewrite lookup_insert_ne in Hr by discriminate. rewrite He in Hr.
    unfold ret in Hr. rewrite Hr. cbn [fst snd]. split; [| reflexivity].
    unfold unconfigured.
    cbn [analysis_cache fallback_only fallback_patterns llm_available
         initialized stats set_stats].
    split; [exact Hc |]. split; [exact Hfo |]. split; [exact Hfp |].
    split; [exact Hllm |].
    split; [now rewrite !lookup_insert_ne by discriminate |].
    split; [now rewrite !lookup_insert_ne by discriminate |].
    split; [now rewrite !lookup_insert_ne by discriminate |].
    exists (n + 1)%Z. split; [lia |]. split.
    - rewrite lookup_insert_ne by discriminate. now rewrite lookup_insert_eq.
    - now rewrite lookup_insert_eq. }
  remember (analyze_query w query context self) as res eqn:Hres.
  unfold analyze_query in Hres. unfold bind at 1 2 in Hres.
  unfold get at 1 in Hres.
  destruct (initialized self) eqn:Hi.
  - unfold ret at 1 in Hres.
    destruct (Hrest self Hun Hi res Hres) as [H1 H2].
    split; [exact H1 |]. split; [| eauto].
    intros a Ha. rewrite H2 in Ha. now injection Ha as <-.
  - pose proof (unconfigured_initialize w self Hun) as Hun'.
    unfold initialize in *. rewrite Hi in *.
    destruct (gemini_initialize w) as [[] | e0]; cbn [snd] in Hun'.
    + destruct (Hrest (set_flags true true self) Hun' eq_refl res Hres)
        as [H1 H2].
      split; [exact H1 |]. split; [| eauto].
      intros a Ha. rewrite H2 in Ha. now injection Ha as <-.
    + rewrite Hres. split; [exact Hun' |].
      split; [intros a [=] | intros [? | ?]; discriminate].
Qed.

Lemma built_unconfigured (self : PatternAnalyzer) :
  built self -> unconfigured self.
Proof.
  induction 1 as [max_size | w self _ IH | w query context self _ IH
                 | self _ IH | self _ IH].
  - apply unconfigured_init.
  - now apply unconfigured_initialize.
  - now apply unconfigured_analyze.
  - destruct IH as (Hc & Hfo & Hfp & Hllm & Hrest).
    unfold unconfigured. cbn. auto.
  - destruct IH as (Hc & Hfo & Hfp & Hllm & Hrest).
    unfold unconfigured. cbn. auto.
Qed.




(** C6 on the code.  On a classifier made by the constructor and driven
    through its methods, a first classification that returns stores
    nothing, and a second classification, of whatever query, is
    answered by the emergency analysis again: it is not marked as
    coming from the cache and [cache_hits] stays at zero. *)
Theorem constructed_classifier_never_answers_from_cache
  (self : PatternAnalyzer) :
  built self ->
  forall (w : World) (q1 q2 : string)
         (context : option (list (string * PyVal)))
         (a1 a2 : Analysis) (s1 s2 : PatternAnalyzer),
    analyze_query w q1 context self = (Ok a1, s1) ->
    analyze_query w q2 context s1 = (Ok a2, s2) ->
    analysis_method a1 = Some "emergency" /\
    analysis_cache s1 = [] /\
    a2 = emergency_answer q2 context
           "'PatternAnalyzer' object has no attribute 'fallback_only'" /\
    analysis_method a2 = Some "emergency" /\
    from_cache a2 = None /\
    analysis_cache s2 = [] /\
    stats s2 !! "cache_hits" = Some 0%Z.
Proof.
  intros Hb w q1 q2 context a1 a2 s1 s2 Hfirst Hsecond.
  pose proof (built_unconfigured self Hb) as Hun.
  destruct (unconfigured_analyze w q1 context self Hun) as (Hun1 & Hem1 & _).
  rewrite Hfirst in Hun1, Hem1. cbn [fst snd] in Hun1, Hem1.
  destruct (unconfigured_analyze w q2 context s1 Hun1) as (Hun2 & Hem2 & _).
  rewrite Hsecond in Hun2, Hem2. cbn [fst snd] in Hun2, Hem2.
  rewrite (Hem1 a1 eq_refl), (Hem2 a2 eq_refl).
  split; [reflexivity |]. split; [apply Hun1 |].
  split; [reflexivity |]. split; [reflexivity |]. split; [reflexivity |].
  split; [apply Hun2 | apply Hun2].
Qed.

(** The failing input of C6: the two spellings have the same cache
    key, and on a fresh classifier whose remote service initialises the
    second one is not a cache hit. *)
Lemma constructed_classifier_never_answers_from_cache_witness :
  _generate_cache_key Samples.world "show me the graph schema" []
  = _generate_cache_key Samples.world " Show me the GRAPH schema " [] /\
  exists a1 s1 a2 s2,
    analyze_query Samples.world "show me the graph schema" None
      (__init__ 100) = (Ok a1, s1) /\
    analyze_query Samples.world " Show me the GRAPH schema " None s1
      = (Ok a2, s2) /\
    analysis_method a1 = Some "emergency" /\
    analysis_cache s1 = [] /\
    analysis_method a2 = Some "emergency" /\
    from_cache a2 = None /\
    stats s2 !! "cache_hits" = Some 0%Z.
Proof.
  split; [vm_compute; reflexivity |].
  destruct (analyze_query Samples.world "show me the graph schema" None
              (__init__ 100)) as [o1 s1] eqn:Hfirst.
  assert (exists a1, o1 = Ok a1) as (a1 & ->).
  { vm_compute in Hfirst. injection Hfirst as <- <-. eexists. reflexivity. }
  destruct (analyze_query Samples.world " Show me the GRAPH schema " None s1)
    as [o2 s2] eqn:Hsecond.
  assert (exists a2, o2 = Ok a2) as (a2 & ->).
  { vm_compute in Hfirst. injection Hfirst as <- <-.
    vm_compute in Hsecond. injection Hsecond as <- <-. eexists. reflexivity. }
  destruct (constructed_classifier_never_answers_from_cache _ (built_init 100)
              Samples.world _ _ None a1 a2 s1 s2 Hfirst Hsecond)
    as (H1 & H2 & _ & H3 & H4 & _ & H5).
  exists a1, s1, a2, s2. repeat (split; [assumption || reflexivity |]).
  exact H5.
Defined.

(** X10.  A classifier made by its constructor and used through its
    methods only (initialise, classify, clear the cache, close, in any
    order and number) never caches an analysis, never counts a hit or a
    remote answer, counts every query as an error, and answers every
    classification that returns with the emergency analysis whose error
    text names the attribute [fallback_only], which the constructor does
    not create. *)
Theorem constructed_classifier_answers_emergency_only
  (self : PatternAnalyzer) :
  built self ->
  analysis_cache self = [] /\
  counter self "cache_hits" = 0%Z /\
  counter self "llm_queries" = 0%Z /\
  counter self "errors" = counter self "total_queries" /\
  forall w query context a s',
    analyze_query w query context self = (Ok a, s') ->
    a = emergency_answer query context
          "'PatternAnalyzer' object has no attribute 'fallback_only'".
Proof.
  intros Hb. pose proof (built_unconfigured self Hb) as Hun.
  pose proof Hun as (Hc & _ & _ & _ & _ & Hh & Hl & n & _ & Ht & He).
  split; [exact Hc |]. unfold counter. rewrite Hh, Hl, Ht, He.
  repeat (split; [reflexivity |]).
  intros w query context a s' Hrun.
  apply (proj1 (proj2 (unconfigured_analyze w query context self Hun))).
  now rewrite Hrun.
Qed.

Lemma constructed_classifier_answers_emergency_only_witness :
  exists a s',
    analyze_query Samples.world "count the tables" None
      (snd (analyze_query Samples.world "show me the graph schema" None
              (__init__ 100))) = (Ok a, s') /\
    a = emergency_answer "count the tables" None
          "'PatternAnalyzer' object has no attribute 'fallback_only'".
Proof.
  destruct (analyze_query Samples.world "count the tables" None
              (snd (analyze_query Samples.world "show me the graph schema" None
                      (__init__ 100)))) as [o s'] eqn:Hrun.
  assert (exists a, o = Ok a) as (a & ->).
  { vm_compute in Hrun. injection Hrun as <- <-. eexists. reflexivity. }
  exists a, s'. split; [reflexivity |].
  exact (proj2 (proj2 (proj2 (proj2
           (constructed_classifier_answers_emergency_only _
              (built_analyze Samples.world "show me the graph schema" None _
                 (built_init 100))))))
           Samples.world "count the tables" None a s' Hrun).
Defined.

(** X11.  On such a classifier the monitoring operations do not
    return: [get_stats] (and [get_llm_stats] of an orchestrator that
    owns it) raises [KeyError] for the counter [fallback_queries],
    [get_capabilities] raises [AttributeError] for [fallback_only]; the
    efficiency score is the full score before the first query and the
    weighted score of no hits, no remote answers and only errors
    afterwards. *)
Theorem monitoring_raises_on_constructed_classifier
  (self : PatternAnalyzer) :
  built self ->
  get_stats self = Raise (KeyError "fallback_queries") /\
  (forall o, pattern_analyzer o = self ->
             get_llm_stats o = Raise (KeyError "fallback_queries")) /\
  (forall gemini_status,
     get_capabilities gemini_status self
     = Raise (AttributeError "PatternAnalyzer" "fallback_only")) /\
  _calculate_efficiency_score self
  = Ok (if (counter self "total_queries" =? 0)%Z then Full
        else Weighted 0 0 (counter self "total_queries")
                      (counter self "total_queries")).
Proof.
  intros Hb.
  destruct (built_unconfigured self Hb)
    as (_ & Hfo & _ & _ & Hfq & Hh & Hl & n & _ & Ht & He).
  assert (get_stats self = Raise (KeyError "fallback_queries")) as Hstats.
  { unfold get_stats, stat. rewrite Ht, Hl, Hfq. reflexivity. }
  split; [exact Hstats |].
  split; [intros o <-; exact Hstats |].
  split; [intros g; unfold get_capabilities; now rewrite Hfo |].
  unfold _calculate_efficiency_score, stat, counter.
  rewrite Ht, Hh, Hl, He. cbn [obind default].
  unfold id. now destruct (n =? 0)%Z.
Qed.

Lemma monitoring_raises_on_constructed_classifier_witness :
  get_stats (__init__ 100) = Raise (KeyError "fallback_queries").
Proof.
  exact (proj1 (monitoring_raises_on_constructed_classifier _ (built_init 100))).
Defined.

End Constructed.

(** ** The answers of the classifier *)

Section Answers.

Variable Q : Analysis -> Prop.

Hypothesis Q_llm :
  forall w self query context r,
    _analyze_with_llm w self query context = Ok r ->
    Q (pop_transient (set_confidence 0.9 (set_method "llm" r))).

Hypothesis Q_fallback :
  forall w self query context r,
    _analyze_with_fallback w self query context = Ok r ->
    Q (pop_transient (set_confidence 0.7 (set_method "fallback" r))).

Lemma evict_Forall (P : string * Analysis -> Prop) (max_size : Z)
  (cache : list (string * Analysis)) :
  Forall P cache -> Forall P (snd (evict_while_full max_size cache)).
Proof.
  induction cache as [| entry rest IH]; intros Hall.
  - simpl. destruct (0 >=? max_size)%Z; constructor.
  - cbn [evict_while_full].
    destruct (Z.of_nat (length (entry :: rest)) >=? max_size)%Z.
    + apply IH. now inversion Hall.
    + exact Hall.
Qed.

Lemma cache_result_all (key : string) (a : Analysis) (self : PatternAnalyzer) :
  cache_all Q self -> Q (pop_transient a) ->
  cache_all Q (snd (_cache_result key a self)).
Proof.
  unfold cache_all, _cache_result. intros Hcache Ha.
  pose proof (evict_Forall _ (cache_max_size self) _ Hcache) as Hevict.
  destruct (evict_while_full (cache_max_size self) (analysis_cache self))
    as [[[] | e] c]; cbn [snd analysis_cache set_cache] in *.
  - apply dict_set_Forall; [assumption | intros k'; exact Ha].
  - assumption.
Qed.

Lemma stats_incr_all (key : string) (self : PatternAnalyzer) :
  cache_all Q self -> cache_all Q (snd (stats_incr key self)).
Proof. unfold cache_all. now rewrite stats_incr_cache. Qed.

(** A stage that computes, counts, marks and stores. *)
Lemma counted_stage_answers (o : Outcome Analysis) (K key : string)
  (f : Analysis -> Analysis) (self : PatternAnalyzer) :
  (forall r, o = Ok r -> Q (pop_transient (f r))) ->
  cache_all Q self ->
  cache_all Q
    (snd (bind (bind (lift o)
                  (fun r => bind (stats_incr K) (fun _ => ret (f r))))
            (fun result =>
               bind (_cache_result key result) (fun _ => ret result))
            self)) /\
  forall a,
    fst (bind (bind (lift o)
                 (fun r => bind (stats_incr K) (fun _ => ret (f r))))
           (fun result =>
              bind (_cache_result key result) (fun _ => ret result))
           self) = Ok a ->
    exists r, o = Ok r /\ a = f r.
Proof.
  intros HQ Hc. unfold bind, lift, ret. destruct o as [r | e]; cbn [fst snd].
  - pose proof (stats_incr_all K self Hc) as Hc1.
    destruct (stats_incr K self) as [[[] | e] s1]; cbn [fst snd] in *.
    + pose proof (cache_result_all key (f r) s1 Hc1 (HQ r eq_refl)) as Hc2.
      destruct (_cache_result key (f r) s1) as [[[] | e] s2];
        cbn [fst snd] in *.
      * split; [exact Hc2 |]. intros a [= <-]. eauto.
      * split; [exact Hc2 | intros a [=]].
    + split; [exact Hc1 | intros a [=]].
  - split; [exact Hc | intros a [=]].
Qed.

Lemma analyze_uncached_answers (w : World) (query : string)
  (context : list (string * PyVal)) (key : string) (self : PatternAnalyzer) :
  cache_all Q self ->
  cache_all Q (snd (analyze_uncached w query context key self)) /\
  forall a,
    fst (analyze_uncached w query context key self) = Ok a ->
    answer_of w (fun _ => False) query context a.
Proof.
  intros Hc.
  remember (analyze_uncached w query context key self) as res eqn:Hres.
  unfold analyze_uncached in Hres. unfold bind at 1 2 in Hres.
  unfold get at 1 in Hres. cbn [fst snd] in Hres.
  assert (forall res',
            res' = bind (bind (lift (_analyze_with_llm w self query context))
                     (fun r => bind (stats_incr "llm_queries")
                        (fun _ => ret (set_confidence 0.9 (set_method "llm" r)))))
                  (fun result =>
                     bind (_cache_result key result) (fun _ => ret result))
                  self ->
            cache_all Q (snd res') /\
            forall a, fst res' = Ok a ->
                      answer_of w (fun _ => False) query context a) as Hllm.
  { intros res' ->.
    destruct (counted_stage_answers (_analyze_with_llm w self query context)
                "llm_queries" key
                (fun r => set_confidence 0.9 (set_method "llm" r)) self
                (Q_llm w self query context) Hc) as [H1 H2].
    split; [exact H1 |]. intros a Ha. destruct (H2 a Ha) as (r & Hr & ->).
    right. left. eauto. }
  assert (forall res',
            res' = bind (bind (lift (_analyze_with_fallback w self query context))
                     (fun r => bind (stats_incr "fallback_queries")
                        (fun _ => ret (set_confidence 0.7
                                         (set_method "fallback" r)))))
                  (fun result =>
                     bind (_cache_result key result) (fun _ => ret result))
                  self ->
            cache_all Q (snd res') /\
            forall a, fst res' = Ok a ->
                      answer_of w (fun _ => False) query context a) as Hfb.
  { intros res' ->.
    destruct (counted_stage_answers
                (_analyze_with_fallback w self query context)
                "fallback_queries" key
                (fun r => set_confidence 0.7 (set_method "fallback" r)) self
                (Q_fallback w self query context) Hc) as [H1 H2].
    split; [exact H1 |]. intros a Ha. destruct (H2 a Ha) as (r & Hr & ->).
    right. right. left. eauto. }
  destruct (llm_available self).
  - unfold bind at 1 in Hres. unfold attr_fallback_only in Hres.
    destruct (fallback_only self) as [[] |]; cbn [ret negb] in Hres.
    + now apply Hfb.
    + now apply Hllm.
    + rewrite Hres. unfold bind. cbn [fst snd].
      split; [exact Hc | intros a [=]].
  - cbn [ret] in Hres. now apply Hfb.
Qed.

(** One call of [analyze_query]: the cache keeps holding copies that
    satisfy [Q], and an analysis that is returned is one of the four
    answers. *)
Lemma analyze_query_answers (w : World) (query : string)
  (context : option (list (string * PyVal))) (self : PatternAnalyzer) :
  cache_all Q self ->
  cache_all Q (snd (analyze_query w query context self)) /\
  forall a,
    fst (analyze_query w query context self) = Ok a ->
    answer_of w Q query (default [] context) a.
Proof.
  intros Hc.
  remember (analyze_query w query context self) as res eqn:Hres.
  unfold analyze_query, bind, get, try_catch in Hres.
  cbn [fst snd] in Hres.
  match type of Hres with
  | context [let (_, _) := ?t in _] =>
      assert (cache_all Q (snd t)) as Hinit;
      [ unfold cache_all; destruct (initialized self);
        [exact Hc | now rewrite initialize_cache]
      | destruct t as [[[] | e0] s0]; cbn [fst snd] in * ]
  end.
  2:{ rewrite Hres. split; [exact Hinit | intros a [=]]. }
  pose proof (stats_incr_all "total_queries" s0 Hinit) as Hc1.
  destruct (stats_incr "total_queries" s0) as [[[] | e1] s1];
    cbn [fst snd] in *.
  2:{ rewrite Hres. split; [exact Hc1 | intros a [=]]. }
  destruct (dict_get (analysis_cache s1) _) as [cached |] eqn:Hhit.
  - apply (dict_get_Forall _ _ _ _ Hc1) in Hhit as (k' & Hcached).
    pose proof (stats_incr_all "cache_hits" s1 Hc1) as Hc2.
    destruct (stats_incr "cache_hits" s1) as [[[] | e2] s2];
      rewrite Hres; cbn [fst snd] in *.
    + split; [exact Hc2 |]. intros a [= <-]. left. eauto.
    + split; [exact Hc2 | intros a [=]].
  - destruct (analyze_uncached_answers w query (default [] context)
                (_generate_cache_key w query (default [] context)) s1 Hc1)
      as (Hc3 & Ha).
    destruct (analyze_uncached w query (default [] context)
                (_generate_cache_key w query (default [] context)) s1)
      as [[a | e3] s3]; cbn [fst snd] in *.
    + rewrite Hres. split; [exact Hc3 |]. intros a' [= <-].
      destruct (Ha a eq_refl) as [(c & [] & _) | Hrest]. now right.
    + pose proof (stats_incr_all "errors" s3 Hc3) as Hc4.
      unfold analyze_emergency, bind, ret in Hres.
      destruct (stats_incr "errors" s3) as [[[] | e4] s4];
        rewrite Hres; cbn [fst snd] in *.
      * split; [exact Hc4 |]. intros a [= <-].
        right. right. right. eauto.
      * split; [exact Hc4 | intros a [=]].
Qed.

Lemma reachable_cache_all (self : PatternAnalyzer) :
  reachable self -> cache_all Q self.
Proof.
  induction 1 as [self Hempty | w self _ IH | w query context self _ IH
                 | self _ IH | self _ IH].
  - unfold cache_all. rewrite Hempty. constructor.
  - unfold cache_all. now rewrite initialize_cache.
  - now apply analyze_query_answers.
  - constructor.
  - constructor.
Qed.

End Answers.

Section Routing.

Lemma well_routed_routing (a b : Analysis) :
  routing a = routing b -> well_routed a -> well_routed b.
Proof.
  unfold routing, well_routed. intros [= Hg Hr Hb Hc Hs].
  now rewrite Hg, Hr, Hb, Hc, Hs.
Qed.

Lemma validate_complexity_valid (parsed : PyVal) (i : Gemini.Intent) :
  Gemini._validate_analysis_result parsed = Ok i ->
  In (Gemini.complexity i) Gemini.valid_complexity.
Proof.
  unfold Gemini._validate_analysis_result, obind. intros H.
  repeat case_match; simplify_eq; cbn [Gemini.complexity];
    apply clamp_complexity_valid.
Qed.

Lemma intent_complexity_valid (w : World) (query : string) (i : Gemini.Intent) :
  Gemini.analyze_query_intent w query = Ok i ->
  In (Gemini.complexity i) Gemini.valid_complexity.
Proof.
  assert (In (Gemini.complexity (Gemini._fallback_intent_analysis query))
             Gemini.valid_complexity) as Hkw.
  { unfold Gemini._fallback_intent_analysis. cbn [Gemini.complexity].
    match goal with |- In (if ?b then _ else _) _ => destruct b end;
      simpl; tauto. }
  unfold Gemini.analyze_query_intent, try_except, obind.
  destruct (gemini_reply w query) as [parsed | e].
  - destruct (Gemini._validate_analysis_result parsed) as [i' | e] eqn:Hv;
      intros [= <-]; [now apply (validate_complexity_valid parsed) | exact Hkw].
  - intros [= <-]. exact Hkw.
Qed.

Lemma fallback_well_routed (w : World) (self : PatternAnalyzer)
  (query : string) (context : list (string * PyVal)) (a : Analysis) :
  _analyze_with_fallback w self query context = Ok a -> well_routed a.
Proof.
  unfold _analyze_with_fallback, obind. intros H.
  repeat case_match; simplify_eq; unfold well_routed; simpl;
    intuition (discriminate || auto).
Qed.

Lemma llm_well_routed (w : World) (self : PatternAnalyzer)
  (query : string) (context : list (string * PyVal)) (a : Analysis) :
  _analyze_with_llm w self query context = Ok a -> well_routed a.
Proof.
  unfold _analyze_with_llm, try_except, obind. intros H.
  destruct (Gemini.analyze_query_intent w query) as [i | e] eqn:Hi.
  - injection H as <-.
    pose proof (intent_complexity_valid w query i Hi) as Hcx.
    pose proof (intent_consistent w query i Hi) as Hcons.
    unfold well_routed, consistent_intent, _determine_agents_from_llm in *.
    cbn [suggested_agents needs_graph needs_relational needs_both complexity].
    simpl in Hcx.
    destruct (Gemini.needs_postgresql i), (Gemini.needs_neo4j i);
      simpl; intuition (discriminate || auto).
  - now apply fallback_well_routed in H.
Qed.

Lemma emergency_well_routed (query : string) (context : list (string * PyVal)) :
  well_routed (_emergency_analysis query context).
Proof. unfold well_routed. simpl. intuition. Qed.

End Routing.

Section Answered.

Lemma routed_copy_llm (w : World) (self : PatternAnalyzer) (query : string)
  (context : list (string * PyVal)) (r : Analysis) :
  _analyze_with_llm w self query context = Ok r ->
  well_routed (pop_transient (set_confidence 0.9 (set_method "llm" r))) /\
  clean_copy (pop_transient (set_confidence 0.9 (set_method "llm" r))).
Proof.
  intros H. split.
  - apply (well_routed_routing r); [reflexivity | now apply llm_well_routed in H].
  - unfold clean_copy. cbn. auto.
Qed.

Lemma routed_copy_fallback (w : World) (self : PatternAnalyzer)
  (query : string) (context : list (string * PyVal)) (r : Analysis) :
  _analyze_with_fallback w self query context = Ok r ->
  well_routed (pop_transient (set_confidence 0.7 (set_method "fallback" r))) /\
  clean_copy (pop_transient (set_confidence 0.7 (set_method "fallback" r))).
Proof.
  intros H. split.
  - apply (well_routed_routing r);
      [reflexivity | now apply fallback_well_routed in H].
  - unfold clean_copy. cbn. auto.
Qed.

Lemma reachable_outputs_well_routed (self : PatternAnalyzer)
  (w : World) (query : string) (context : option (list (string * PyVal)))
  (a : Analysis) :
  reachable self ->
  fst (analyze_query w query context self) = Ok a ->
  well_routed a.
Proof.
  intros Hreach Ha.
  pose proof (reachable_cache_all (fun c => well_routed c /\ clean_copy c)
                routed_copy_llm routed_copy_fallback
                self Hreach) as Hcache.
  destruct (analyze_query_answers (fun c => well_routed c /\ clean_copy c)
              routed_copy_llm routed_copy_fallback
              w query context self Hcache) as [_ Hans].
  destruct (Hans a Ha)
    as [(c & [Hc _] & ->) | [(s & r & Hr & ->) | [(s & r & Hr & ->) | (e & ->)]]].
  - now apply (well_routed_routing c).
  - apply (well_routed_routing r); [reflexivity | now apply llm_well_routed in Hr].
  - apply (well_routed_routing r);
      [reflexivity | now apply fallback_well_routed in Hr].
  - apply (well_routed_routing (_emergency_analysis query (default [] context)));
      [reflexivity | apply emergency_well_routed].
Qed.

(** X12.  Every analysis that the classifier returns, in any state it
    can reach from an empty cache, can be acted on: it suggests the
    graph agent, the relational agent or both and no other, each store
    it needs is among them, and its complexity is one of simple, hybrid,
    complex, exploratory and unknown. *)
Theorem classifier_outputs_are_routable (self : PatternAnalyzer)
  (w : World) (query : string) (context : option (list (string * PyVal)))
  (a : Analysis) :
  reachable self ->
  fst (analyze_query w query context self) = Ok a ->
  well_routed a.
Proof. apply reachable_outputs_well_routed. Qed.

Lemma classifier_outputs_are_routable_witness :
  exists a,
    fst (analyze_query Samples.world " Show me the GRAPH schema " None
           (snd (analyze_query Samples.world "show me the graph schema" None
                   (Samples.analyzer_configured true 100)))) = Ok a /\
    suggested_agents a = ["neo4j"] /\
    well_routed a.
Proof.
  eexists. split; [vm_compute; reflexivity |]. split; [reflexivity |].
  apply (classifier_outputs_are_routable
           (snd (analyze_query Samples.world "show me the graph schema" None
                   (Samples.analyzer_configured true 100)))
           Samples.world " Show me the GRAPH schema " None).
  - apply reach_analyze, reach_new. reflexivity.
  - vm_compute. reflexivity.
Defined.

(** X13.  What a cache hit returns: in any state the classifier can
    reach from an empty cache, an analysis answered from the cache is
    marked [from_cache], keeps the confidence of the stage that first
    produced it (0.9 for the remote stage, 0.7 for the heuristic one)
    and carries no error text and no emergency mark; an emergency
    analysis is never served from the cache. *)
Theorem cache_hit_returns_clean_copy (self : PatternAnalyzer)
  (w : World) (query : string) (context : option (list (string * PyVal)))
  (a : Analysis) :
  reachable self ->
  fst (analyze_query w query context self) = Ok a ->
  analysis_method a = Some "cache" ->
  from_cache a = Some true /\
  (confidence a = Some (0.9)%Q \/ confidence a = Some (0.7)%Q) /\
  error a = None /\
  emergency_mode a = None.
Proof.
  intros Hreach Ha Hm.
  pose proof (reachable_cache_all (fun c => well_routed c /\ clean_copy c)
                routed_copy_llm routed_copy_fallback
                self Hreach) as Hcache.
  destruct (analyze_query_answers (fun c => well_routed c /\ clean_copy c)
              routed_copy_llm routed_copy_fallback
              w query context self Hcache) as [_ Hans].
  destruct (Hans a Ha)
    as [(c & [_ Hc] & ->) | [(s & r & _ & ->) | [(s & r & _ & ->) | (e & ->)]]];
    try discriminate.
  destruct Hc as (Hconf & He & Hem & _). cbn.
  split; [reflexivity |]. split; [tauto | now split].
Qed.

Lemma cache_hit_returns_clean_copy_witness :
  exists a,
    fst (analyze_query Samples.world " Show me the GRAPH schema " None
           (snd (analyze_query Samples.world "show me the graph schema" None
                   (Samples.analyzer_configured true 100)))) = Ok a /\
    analysis_method a = Some "cache" /\
    from_cache a = Some true /\
    confidence a = Some (0.9)%Q.
Proof.
  eexists. split; [vm_compute; reflexivity |]. split; [reflexivity |].
  split; [| reflexivity].
  apply (cache_hit_returns_clean_copy
           (snd (analyze_query Samples.world "show me the graph schema" None
                   (Samples.analyzer_configured true 100)))
           Samples.world " Show me the GRAPH schema " None).
  - apply reach_analyze, reach_new. reflexivity.
  - vm_compute. reflexivity.
  - reflexivity.
Defined.

End Answered.

(** ** Cache lookups *)

Section Lookup.

Lemma analyze_query_lookup (w : World) (query : string)
  (context : option (list (string * PyVal))) (self : PatternAnalyzer)
  (a : Analysis) :
  fst (analyze_query w query context self) = Ok a ->
  match dict_get (analysis_cache self)
          (_generate_cache_key w query (default [] context)) with
  | Some cached => a = set_method "cache" (set_from_cache true cached)
  | None => analysis_method a <> Some "cache"
  end.
Proof.
  remember (analyze_query w query context self) as res eqn:Hres.
  unfold analyze_query, bind, get, try_catch in Hres.
  cbn [fst snd] in Hres.
  match type of Hres with
  | context [let (_, _) := ?t in _] =>
      assert (analysis_cache (snd t) = analysis_cache self) as Hinit;
      [ destruct (initialized self);
        [reflexivity | apply initialize_cache]
      | destruct t as [[[] | e0] s0]; cbn [fst snd] in * ]
  end.
  2:{ rewrite Hres. intros [=]. }
  pose proof (stats_incr_cache "total_queries" s0) as Hc1.
  destruct (stats_incr "total_queries" s0) as [[[] | e1] s1];
    cbn [fst snd] in *.
  2:{ rewrite Hres. intros [=]. }
  rewrite Hc1, Hinit in Hres.
  destruct (dict_get (analysis_cache self) _) as [cached |].
  - destruct (stats_incr "cache_hits" s1) as [[[] | e2] s2];
      rewrite Hres; cbn [fst]; intros [=]. congruence.
  - destruct (uncached_counters w query (default [] context)
                (_generate_cache_key w query (default [] context)) s1)
      as (d & K & m & _ & HK & Hok & _).
    destruct (analyze_uncached w query (default [] context)
                (_generate_cache_key w query (default [] context)) s1)
      as [[a' | e3] s3]; cbn [fst snd] in *.
    + rewrite Hres. intros [= <-]. destruct (Hok a' eq_refl) as [_ Hm].
      rewrite Hm. destruct HK as [[_ ->] | [_ ->]]; discriminate.
    + destruct (emergency_counters query (default [] context) e3 s3)
        as (de & _ & Hoke & _).
      rewrite <- Hres in Hoke. intros Ha.
      destruct (Hoke a Ha) as [_ Hm]. rewrite Hm. discriminate.
Qed.

(** X14.  The cache answers exactly the queries whose key it holds:
    a classification that returns is marked as answered by the cache
    if and only if the key of the query was stored, and it is then the
    stored copy; so after the cache is cleared or the classifier is
    closed, no query is answered from the cache. *)
Theorem cache_answers_exactly_stored_keys (w : World) (query : string)
  (context : option (list (string * PyVal))) (self : PatternAnalyzer)
  (a : Analysis) :
  fst (analyze_query w query context self) = Ok a ->
  (analysis_method a = Some "cache" <->
   dict_has (analysis_cache self)
            (_generate_cache_key w query (default [] context)) = true) /\
  (forall cached,
     dict_get (analysis_cache self)
              (_generate_cache_key w query (default [] context)) = Some cached ->
     a = set_method "cache" (set_from_cache true cached)) /\
  (forall self0,
     self = snd (clear_cache self0) \/ self = snd (close self0) ->
     analysis_method a <> Some "cache").
Proof.
  intros Ha. pose proof (analyze_query_lookup w query context self a Ha) as H.
  unfold dict_has.
  split; [| split].
  - destruct (dict_get (analysis_cache self) _) as [cached |].
    + rewrite H. split; reflexivity.
    + split; [intros Hm; contradiction | discriminate].
  - intros cached Hc. now rewrite Hc in H.
  - intros self0 Hreset. destruct Hreset as [-> | ->]; exact H.
Qed.

Lemma cache_answers_exactly_stored_keys_witness :
  exists a,
    fst (analyze_query Samples.world " Show me the GRAPH schema " None
           (snd (analyze_query Samples.world "show me the graph schema" None
                   (Samples.analyzer_configured true 100)))) = Ok a /\
    dict_has
      (analysis_cache
         (snd (analyze_query Samples.world "show me the graph schema" None
                 (Samples.analyzer_configured true 100))))
      "show me the graph schema|" = true /\
    analysis_method a = Some "cache".
Proof.
  eexists. split; [vm_compute; reflexivity |]. split; [reflexivity |].
  apply (cache_answers_exactly_stored_keys Samples.world
           " Show me the GRAPH schema " None
           (snd (analyze_query Samples.world "show me the graph schema" None
                   (Samples.analyzer_configured true 100)))).
  - vm_compute. reflexivity.
  - reflexivity.
Defined.

End Lookup.

(** ** From the analysis to the agents *)

Section EngineOnRoutedAnalyses.

Variable w : World.
Variable self : OrchestratorAgent.

Lemma engine_on_routed_analysis (query : string)
  (a : Analysis) (context : list (string * PyVal)) :
  well_routed a ->
  match _execute_strategy w self query a (_determine_execution_strategy a)
          context with
  | Ok res =>
      strategy res = _determine_execution_strategy a /\
      In (strategy res) ["single_agent"; "parallel"; "sequential"] /\
      agents_used res <> [] /\
      (forall x, In x (agents_used res) <-> In x (suggested_agents a))
  | Raise e =>
      _determine_execution_strategy a <> "parallel" /\
      exists context',
        (In "neo4j" (suggested_agents a) /\
         _query_neo4j_natural w self query context' = Raise e) \/
        (In "postgres" (suggested_agents a) /\
         _query_postgres_natural w self query context' = Raise e)
  end.
Proof.
  intros (Hs & Hg & Hr & Hb & _).
  unfold _determine_execution_strategy, _execute_strategy.
  destruct (needs_both a) eqn:Hboth.
  - destruct (Hb eq_refl) as [Hg' Hr'].
    specialize (Hg Hg'). specialize (Hr Hr').
    assert (suggested_agents a = ["neo4j"; "postgres"] \/
            suggested_agents a = ["postgres"; "neo4j"]) as Hpair.
    { simpl in Hs. destruct Hs as [Hs | [Hs | [Hs | [Hs | []]]]];
        rewrite <- Hs in *; simpl in Hg, Hr; intuition discriminate. }
    destruct (String.eqb (complexity a) "hybrid").
    + cbn [String.eqb Ascii.eqb Bool.eqb].
      unfold execute_sequential, _execute_sequential.
      destruct Hpair as [Hp | Hp]; rewrite Hp; cbn [list_in existsb String.eqb
        Ascii.eqb Bool.eqb orb andb];
        destruct (_query_postgres_natural w self query context)
          as [pg | e] eqn:Hpg; cbn [obind].
      1,3: destruct (_query_neo4j_natural w self query
                       (dict_set context "postgres_data" pg))
             as [neo | e] eqn:Hneo; cbn [obind].
      all: try (split; [discriminate |]; eexists; simpl; eauto 6).
      all: cbn; (split; [reflexivity |]); (split; [tauto |]);
           (split; [discriminate |]); intros x; tauto.
    + cbn [String.eqb Ascii.eqb Bool.eqb].
      unfold execute_parallel, _execute_parallel.
      destruct Hpair as [Hp | Hp]; rewrite Hp; cbn [list_in existsb String.eqb
        Ascii.eqb Bool.eqb orb andb app];
        cbn; (split; [reflexivity |]); (split; [tauto |]);
        (split; [discriminate |]); intros x; tauto.
  - simpl in Hs. destruct Hs as [Hs | [Hs | [Hs | [Hs | []]]]];
      rewrite <- Hs; cbn [length Nat.eqb String.eqb Ascii.eqb Bool.eqb].
    + unfold execute_single_agent, _execute_single_agent. rewrite <- Hs.
      cbn [String.eqb Ascii.eqb Bool.eqb].
      destruct (_query_neo4j_natural w self query context) as [v | e] eqn:Hv;
        cbn [obind].
      * cbn. repeat split; try tauto; discriminate.
      * split; [discriminate |]. exists context. left. simpl. auto.
    + unfold execute_single_agent, _execute_single_agent. rewrite <- Hs.
      cbn [String.eqb Ascii.eqb Bool.eqb].
      destruct (_query_postgres_natural w self query context) as [v | e] eqn:Hv;
        cbn [obind].
      * cbn. repeat split; try tauto; discriminate.
      * split; [discriminate |]. exists context. right. simpl. auto.
    + unfold execute_parallel, _execute_parallel. rewrite <- Hs.
      cbn. (split; [reflexivity |]); (split; [tauto |]);
        (split; [discriminate |]); intros x; tauto.
    + unfold execute_parallel, _execute_parallel. rewrite <- Hs.
      cbn. (split; [reflexivity |]); (split; [tauto |]);
        (split; [discriminate |]); intros x; tauto.
Qed.

(** X15.  The selector and the engine on an analysis the classifier can
    produce: the engine runs the strategy the selector chose, and a
    result it returns names exactly the suggested agents as used, at
    least one; the engine raises only under the single-agent and the
    sequential strategy, and then with the exception of a suggested
    agent's translator - never for an empty agent list or an unknown
    strategy. *)
Theorem engine_uses_exactly_the_suggested_agents (query : string)
  (a : Analysis) (context : list (string * PyVal)) :
  well_routed a ->
  match _execute_strategy w self query a (_determine_execution_strategy a)
          context with
  | Ok res =>
      strategy res = _determine_execution_strategy a /\
      In (strategy res) ["single_agent"; "parallel"; "sequential"] /\
      agents_used res <> [] /\
      (forall x, In x (agents_used res) <-> In x (suggested_agents a))
  | Raise e =>
      _determine_execution_strategy a <> "parallel" /\
      exists context',
        (In "neo4j" (suggested_agents a) /\
         _query_neo4j_natural w self query context' = Raise e) \/
        (In "postgres" (suggested_agents a) /\
         _query_postgres_natural w self query context' = Raise e)
  end.
Proof. apply engine_on_routed_analysis. Qed.

End EngineOnRoutedAnalyses.

Lemma engine_uses_exactly_the_suggested_agents_witness :
  well_routed (analysis_for false "simple" ["neo4j"]) /\
  exists res,
    _execute_strategy Samples.world Samples.orchestrator
      "show me the graph schema" (analysis_for false "simple" ["neo4j"])
      "single_agent" [] = Ok res /\
    agents_used res <> [] /\
    forall x, In x (agents_used res) <-> In x ["neo4j"].
Proof.
  assert (well_routed (analysis_for false "simple" ["neo4j"])) as Hwr.
  { unfold well_routed. simpl. intuition discriminate. }
  split; [exact Hwr |].
  pose proof (engine_uses_exactly_the_suggested_agents Samples.world
                Samples.orchestrator "show me the graph schema"
                (analysis_for false "simple" ["neo4j"]) [] Hwr) as H.
  destruct (_execute_strategy Samples.world Samples.orchestrator
              "show me the graph schema" (analysis_for false "simple" ["neo4j"])
              (_determine_execution_strategy
                 (analysis_for false "simple" ["neo4j"])) [])
    as [res | e] eqn:Hrun.
  - exists res. split; [exact Hrun |].
    destruct H as (_ & _ & Hne & Hin). split; [exact Hne | exact Hin].
  - vm_compute in Hrun. discriminate.
Defined.

Section EntryPoint.

Lemma wrapper_well_routed (w : World) (query : string)
  (self : OrchestratorAgent) :
  reachable (pattern_analyzer self) ->
  well_routed (fst (_analyze_query w query self)) /\
  reachable (pattern_analyzer (snd (_analyze_query w query self))).
Proof.
  intros Hreach. unfold _analyze_query.
  pose proof (reachable_outputs_well_routed (pattern_analyzer self) w query
                None) as Hwr.
  pose proof (reach_analyze w query None _ Hreach) as Hreach'.
  destruct (analyze_query w query None (pattern_analyzer self))
    as [[a | e] pa]; cbn [fst snd pattern_analyzer set_pattern_analyzer] in *.
  - split; [| exact Hreach'].
    apply (well_routed_routing a); [reflexivity | now apply Hwr].
  - split; [| exact Hreach'].
    unfold well_routed, emergency_default. simpl. intuition discriminate.
Qed.

(** The engine and the translators read the client of the orchestrator
    only, which the classification leaves alone; the translators do not
    read the context. *)
Lemma analyze_query_keeps_client (w : World) (query : string)
  (self : OrchestratorAgent) :
  client (snd (_analyze_query w query self)) = client self.
Proof.
  unfold _analyze_query.
  now destruct (analyze_query w query None (pattern_analyzer self)) as [[a | e] pa].
Qed.

Lemma neo4j_translator_reads_client (w : World) (self self' : OrchestratorAgent)
  (query : string) (context context' : list (string * PyVal)) :
  client self' = client self ->
  _query_neo4j_natural w self' query context'
  = _query_neo4j_natural w self query context.
Proof. intros H. unfold _query_neo4j_natural. now rewrite H. Qed.

Lemma postgres_translator_reads_client (w : World)
  (self self' : OrchestratorAgent)
  (query : string) (context context' : list (string * PyVal)) :
  client self' = client self ->
  _query_postgres_natural w self' query context'
  = _query_postgres_natural w self query context.
Proof. intros H. unfold _query_postgres_natural. now rewrite H. Qed.

Lemma engine_reads_client (w : World) (self self' : OrchestratorAgent)
  (query : string) (a : Analysis) (st : string)
  (context : list (string * PyVal)) :
  client self' = client self ->
  _execute_strategy w self' query a st context
  = _execute_strategy w self query a st context.
Proof.
  intros H.
  assert (_query_neo4j_natural w self' = _query_neo4j_natural w self) as Hn
    by (unfold _query_neo4j_natural; now rewrite H).
  assert (_query_postgres_natural w self' = _query_postgres_natural w self)
    as Hp by (unfold _query_postgres_natural; now rewrite H).
  unfold _execute_strategy, _execute_hybrid, execute_single_agent,
    execute_parallel, execute_sequential.
  now rewrite Hn, Hp.
Qed.

(** X16.  [process_query] on an orchestrator whose classifier started
    with an empty cache.  The analysis is the one [_analyze_query] gives
    for this query, and it can be acted on.  The reply is an answer
    exactly when the engine, run on this query, this analysis and the
    strategy the selector chose for it, returned: the answer carries
    the query, that analysis, that strategy - single agent, parallel or
    sequential, never hybrid - which is also the strategy of the data,
    and as agents used exactly the suggested agents.  The reply is an
    error report exactly when that run of the engine raised: the
    strategy is then not the parallel one, the translator of a
    suggested agent raised that exception on this query, and the report
    carries its text.  The orchestrator is left as [_analyze_query]
    left it, its classifier in a state reached from an empty cache. *)
Theorem process_query_asks_the_suggested_agents (w : World) (query : string)
  (context : option (list (string * PyVal))) (self : OrchestratorAgent) :
  reachable (pattern_analyzer self) ->
  snd (Service.process_query w query context self)
  = snd (_analyze_query w query self) /\
  reachable
    (pattern_analyzer (snd (Service.process_query w query context self))) /\
  well_routed (fst (_analyze_query w query self)) /\
  match fst (Service.process_query w query context self) with
  | Service.Answer data q a st used =>
      q = query /\
      a = fst (_analyze_query w query self) /\
      st = _determine_execution_strategy a /\
      _execute_strategy w self query a st (default [] context) = Ok data /\
      strategy data = st /\
      In st ["single_agent"; "parallel"; "sequential"] /\
      used = agents_used data /\
      used <> [] /\
      (forall x, In x used <-> In x (suggested_agents a))
  | Service.Failure q msg =>
      q = query /\
      _determine_execution_strategy (fst (_analyze_query w query self))
      <> "parallel" /\
      exists e,
        msg = exn_msg e /\
        _execute_strategy w self query (fst (_analyze_query w query self))
          (_determine_execution_strategy (fst (_analyze_query w query self)))
          (default [] context) = Raise e /\
        ((In "neo4j" (suggested_agents (fst (_analyze_query w query self))) /\
          _query_neo4j_natural w self query (default [] context) = Raise e) \/
         (In "postgres" (suggested_agents (fst (_analyze_query w query self))) /\
          _query_postgres_natural w self query (default [] context) = Raise e))
  end.
Proof.
  intros Hreach. unfold Service.process_query.
  destruct (wrapper_well_routed w query self Hreach) as [Hwr Hreach'].
  pose proof (analyze_query_keeps_client w query self) as Hclient.
  destruct (_analyze_query w query self) as [a self'];
    cbn [fst snd] in Hwr, Hreach', Hclient |- *.
  pose proof (engine_on_routed_analysis w self' query a (default [] context)
                Hwr) as Heng.
  rewrite (engine_reads_client w self self' query a _ _ Hclient) in Heng |- *.
  destruct (_execute_strategy w self query a
              (_determine_execution_strategy a) (default [] context))
    as [res | e] eqn:Hrun; cbn [fst snd].
  - split; [reflexivity |]. split; [exact Hreach' |]. split; [exact Hwr |].
    destruct Heng as (Hst & Hin & Hne & Hused).
    split; [reflexivity |]. split; [reflexivity |]. split; [reflexivity |].
    split; [exact Hrun |].
    split; [exact Hst |]. split; [now rewrite <- Hst |].
    split; [reflexivity |]. split; [exact Hne | exact Hused].
  - split; [reflexivity |]. split; [exact Hreach' |]. split; [exact Hwr |].
    split; [reflexivity |].
    destruct Heng as (Hnp & context' & Hraise).
    split; [exact Hnp |]. exists e. split; [reflexivity |].
    split; [reflexivity |].
    destruct Hraise as [[Hin Hr] | [Hin Hr]]; [left | right];
      (split; [exact Hin |]); rewrite <- Hr.
    + now apply neo4j_translator_reads_client.
    + now apply postgres_translator_reads_client.
Qed.

Lemma process_query_asks_the_suggested_agents_witness :
  match fst (Service.process_query Samples.world "show me the graph schema"
               None
               (Samples.orchestrator_with Samples.postgres_server
                  (Samples.analyzer_configured true 100))) with
  | Service.Answer data q a st used =>
      well_routed a /\ st = _determine_execution_strategy a /\ used <> []
  | Service.Failure _ _ => False
  end.
Proof.
  pose proof (process_query_asks_the_suggested_agents Samples.world
                "show me the graph schema" None
                (Samples.orchestrator_with Samples.postgres_server
                   (Samples.analyzer_configured true 100))
                (reach_new (Samples.analyzer_configured true 100) eq_refl))
    as (_ & _ & Hwr & H).
  destruct (fst (Service.process_query Samples.world
                   "show me the graph schema" None
                   (Samples.orchestrator_with Samples.postgres_server
                      (Samples.analyzer_configured true 100))))
    as [data q a st used | q msg] eqn:Hrun.
  - destruct H as (_ & -> & Hst & _ & _ & _ & _ & Hne & _).
    split; [exact Hwr |]. split; [exact Hst | exact Hne].
  - vm_compute in Hrun. discriminate.
Defined.

Lemma neo4j_translator_unconnected (w : World) (self : OrchestratorAgent)
  (query : string) (context : list (string * PyVal)) :
  Mcp.connected_servers (client self) !! "neo4j" = None ->
  _query_neo4j_natural w self query context
  = Raise (ValueError "No conectado al servidor neo4j").
Proof.
  intros H. unfold _query_neo4j_natural, Mcp.request_resource. rewrite H.
  now repeat case_match.
Qed.

Lemma postgres_translator_unconnected (w : World) (self : OrchestratorAgent)
  (query : string) (context : list (string * PyVal)) :
  Mcp.connected_servers (client self) !! "postgres" = None ->
  _query_postgres_natural w self query context
  = Raise (ValueError "No conectado al servidor postgres").
Proof.
  intros H. unfold _query_postgres_natural, Mcp.request_resource. rewrite H.
  now repeat case_match.
Qed.

(** X17.  [process_query] on an orchestrator whose classifier is as its
    constructor made it (and whose remote service can be initialised):
    whatever the query says, the analysis is the emergency analysis,
    the strategy is parallel, both agents are asked and the call never
    ends in an error report.  Under its name each agent has the payload
    its translator returned, or the entry [{"error": text}] when its
    translator raised; the translator of an agent that is not connected
    raises with the text [No conectado al servidor] and the name. *)
Theorem constructed_orchestrator_asks_both_agents (w : World)
  (query : string)
  (context : option (list (string * PyVal))) (self : OrchestratorAgent) :
  built (pattern_analyzer self) ->
  Analyzer.initialized (pattern_analyzer self) = true \/
  gemini_initialize w = Ok tt ->
  built
    (pattern_analyzer (snd (Service.process_query w query context self))) /\
  fst (Service.process_query w query context self)
  = Service.Answer
      {| results :=
           ByAgent
             [("neo4j",
               match _query_neo4j_natural w self query (default [] context) with
               | Ok payload => payload
               | Raise e => PDict [("error", PStr (exn_msg e))]
               end);
              ("postgres",
               match _query_postgres_natural w self query (default [] context)
               with
               | Ok payload => payload
               | Raise e => PDict [("error", PStr (exn_msg e))]
               end)];
         agents_used := ["neo4j"; "postgres"];
         strategy := "parallel" |}
      query (fst (_analyze_query w query self)) "parallel"
      ["neo4j"; "postgres"] /\
  analysis_method (fst (_analyze_query w query self)) = Some "emergency" /\
  confidence (fst (_analyze_query w query self)) = Some (0.5)%Q /\
  needs_both (fst (_analyze_query w query self)) = true /\
  complexity (fst (_analyze_query w query self)) = "unknown" /\
  suggested_agents (fst (_analyze_query w query self)) = ["neo4j"; "postgres"] /\
  (Mcp.connected_servers (client self) !! "neo4j" = None ->
   _query_neo4j_natural w self query (default [] context)
   = Raise (ValueError "No conectado al servidor neo4j")) /\
  (Mcp.connected_servers (client self) !! "postgres" = None ->
   _query_postgres_natural w self query (default [] context)
   = Raise (ValueError "No conectado al servidor postgres")).
Proof.
  intros Hb Hinit.
  assert (analysis_method (fst (_analyze_query w query self))
          = Some "emergency" /\
          confidence (fst (_analyze_query w query self)) = Some (0.5)%Q /\
          needs_both (fst (_analyze_query w query self)) = true /\
          complexity (fst (_analyze_query w query self)) = "unknown" /\
          suggested_agents (fst (_analyze_query w query self))
          = ["neo4j"; "postgres"]) as Hfacts.
  { unfold _analyze_query.
    destruct (unconfigured_analyze w query None _ (built_unconfigured _ Hb))
      as (_ & Hem & Hret).
    destruct (Hret Hinit) as (a0 & Hok). specialize (Hem a0 Hok).
    destruct (analyze_query w query None (pattern_analyzer self)) as [o pa].
    cbn [fst] in Hok. subst o. rewrite Hem. repeat split. }
  split; [| split; [| split; [exact (proj1 Hfacts) |]]].
  - unfold Service.process_query, _analyze_query.
    pose proof (built_analyze w query None _ Hb) as Hb'.
    destruct (analyze_query w query None (pattern_analyzer self))
      as [[a | e] pa]; cbn [fst snd] in *;
      now destruct (_execute_strategy _ _ _ _ _ _).
  - unfold Service.process_query.
    pose proof (analyze_query_keeps_client w query self) as Hclient.
    destruct Hfacts as (_ & _ & Hboth & Hcx & Hag).
    assert (_determine_execution_strategy (fst (_analyze_query w query self))
            = "parallel") as Hst.
    { unfold _determine_execution_strategy. now rewrite Hboth, Hcx. }
    destruct (_analyze_query w query self) as [a self'].
    cbn [fst snd] in *.
    rewrite (engine_reads_client w self self' query a _ _ Hclient).
    rewrite Hst. unfold _execute_strategy.
    cbn [String.eqb Ascii.eqb Bool.eqb].
    unfold execute_parallel, _execute_parallel. rewrite Hag.
    cbn [list_in existsb String.eqb Ascii.eqb Bool.eqb orb app].
    reflexivity.
  - destruct Hfacts as (_ & H2 & H3 & H4 & H5).
    split; [exact H2 |]. split; [exact H3 |]. split; [exact H4 |].
    split; [exact H5 |].
    split; [apply neo4j_translator_unconnected
           | apply postgres_translator_unconnected].
Qed.

Lemma constructed_orchestrator_asks_both_agents_witness :
  exists a,
    fst (Service.process_query Samples.world "count the tables" None
           (Samples.orchestrator_with Samples.postgres_down (__init__ 100)))
    = Service.Answer
        {| results :=
             ByAgent
               [("neo4j", Samples.stats_payload);
                ("postgres",
                 PDict [("error",
                         PStr "Error obteniendo recurso: connection refused")])];
           agents_used := ["neo4j"; "postgres"];
           strategy := "parallel" |}
        "count the tables" a "parallel" ["neo4j"; "postgres"] /\
    analysis_method a = Some "emergency".
Proof.
  destruct (constructed_orchestrator_asks_both_agents Samples.world
              "count the tables" None
              (Samples.orchestrator_with Samples.postgres_down (__init__ 100))
              (built_init 100) (or_intror eq_refl))
    as (_ & Hrun & Hm & _).
  eexists. split; [| exact Hm].
  rewrite Hrun. reflexivity.
Defined.

End EntryPoint.

(** ** The workflow tool *)

Section CustomWorkflow.

Variable w : World.
Variable self : OrchestratorAgent.

Lemma run_step_number (i : nat) (step : PyVal) (rep : Service.StepReport) :
  Service.run_step w self i step = Ok rep ->
  Service.step_number rep = S i.
Proof.
  unfold Service.run_step, obind. intros H.
  repeat case_match; simplify_eq; simpl; lia.
Qed.

Lemma run_step_mapping (i : nat) (d : list (string * PyVal)) :
  exists rep, Service.run_step w self i (PDict d) = Ok rep.
Proof.
  unfold Service.run_step, obind. cbn [Service.subscript Service.get_or].
  repeat case_match; eauto.
Qed.

Lemma run_step_not_mapping (i : nat) (step : PyVal) :
  Service.is_mapping step = false ->
  Service.run_step w self i step
  = Raise (AttributeError (Service.type_name step) "get").
Proof. destruct step; intros H; try discriminate H; reflexivity. Qed.

(** The loop from index [i] on: the reports it adds are those of the
    steps in order, all done but possibly the last, and a report that
    is not done is the last one. *)
Lemma run_steps_spec (steps : list PyVal) (i : nat)
  (acc rs : list Service.StepReport) :
  Service.run_steps w self i steps acc = Ok rs ->
  exists new,
    rs = (acc ++ new)%list /\
    (forall j rep,
       new !! j = Some rep ->
       exists step,
         steps !! j = Some step /\
         Service.run_step w self (i + j) step = Ok rep) /\
    ((Forall (fun rep => Service.is_done rep = true) new /\
      length new = length steps) \/
     (exists dones failed,
        new = (dones ++ [failed])%list /\
        Forall (fun rep => Service.is_done rep = true) dones /\
        Service.is_done failed = false /\
        (length dones < length steps)%nat)).
Proof.
  revert i acc rs. induction steps as [| step rest IH]; intros i acc rs H.
  - injection H as <-. exists []. rewrite app_nil_r.
    split; [reflexivity |]. split; [intros j rep [=] |]. left. now split.
  - cbn [Service.run_steps] in H. unfold obind in H.
    destruct (Service.run_step w self i step) as [rep | e] eqn:Hstep;
      [| discriminate].
    destruct (Service.is_done rep) eqn:Hdone.
    + apply IH in H as (new & -> & Hnew & Hshape).
      exists (rep :: new). split; [now rewrite <- app_assoc |].
      split.
      * intros [| j] rep' Hj; cbn in Hj.
        -- injection Hj as <-. exists step. split; [reflexivity |].
           now rewrite Nat.add_0_r.
        -- destruct (Hnew j rep' Hj) as (step' & Hs & Hr).
           exists step'. split; [exact Hs |].
           now replace (i + S j)%nat with (S i + j)%nat by lia.
      * destruct Hshape as [[Hall Hlen] | (dones & failed & -> & Hall & Hf & Hlen)].
        -- left. split; [now constructor | simpl; lia].
        -- right. exists (rep :: dones), failed.
           split; [reflexivity |]. split; [now constructor |].
           split; [exact Hf | simpl; lia].
    + injection H as <-. exists [rep]. split; [reflexivity |].
      split.
      * intros [| j] rep' Hj; cbn in Hj; [| discriminate].
        injection Hj as <-. exists step. split; [reflexivity |].
        now rewrite Nat.add_0_r.
      * right. exists [], rep. split; [reflexivity |].
        split; [constructor |]. split; [exact Hdone | simpl; lia].
Qed.

Lemma forallb_is_done (l : list Service.StepReport) :
  Forall (fun rep => Service.is_done rep = true) l ->
  forallb Service.is_done l = true.
Proof. induction 1; simpl; [reflexivity |]. now rewrite H, IHForall. Qed.

(** X18.  A custom workflow stops at its first failing step.  When it
    returns, its reports are those of the steps in order, numbered from
    one; either every step was run and succeeded, and the workflow
    succeeded, or the last report is of the one failed step, the steps
    after it were not run, and the workflow is reported as failed. *)
Theorem workflow_stops_at_first_failure (steps : list PyVal)
  (r : Service.WorkflowReport) :
  Service._custom_workflow w self steps = Ok r ->
  Service.workflow_steps r = length steps /\
  Service.completed_steps r = length (Service.results r) /\
  (forall j rep,
     Service.results r !! j = Some rep ->
     Service.step_number rep = S j /\
     exists step,
       steps !! j = Some step /\ Service.run_step w self j step = Ok rep) /\
  ((Service.success r = true /\
    Service.completed_steps r = length steps /\
    Forall (fun rep => Service.is_done rep = true) (Service.results r)) \/
   (Service.success r = false /\
    (Service.completed_steps r <= length steps)%nat /\
    exists dones failed,
      Service.results r = (dones ++ [failed])%list /\
      Forall (fun rep => Service.is_done rep = true) dones /\
      Service.is_done failed = false)).
Proof.
  unfold Service._custom_workflow, obind. intros H.
  destruct (Service.run_steps w self 0 steps []) as [rs |] eqn:Hrun;
    [| discriminate].
  injection H as <-. cbn.
  apply run_steps_spec in Hrun as (new & -> & Hnew & Hshape). cbn [app].
  split; [reflexivity |]. split; [reflexivity |]. split.
  - intros j rep Hj. destruct (Hnew j rep Hj) as (step & Hs & Hr).
    cbn in Hr. split; [now apply run_step_number in Hr | eauto].
  - destruct Hshape as [[Hall Hlen] | (dones & failed & -> & Hall & Hf & Hlen)].
    + left. split; [now apply forallb_is_done |]. now split.
    + right. split.
      * rewrite forallb_app, (forallb_is_done _ Hall). cbn. now rewrite Hf.
      * split; [rewrite length_app; simpl; lia | eauto].
Qed.

(** X19.  The steps of a workflow must be mappings: a workflow of
    mappings always returns a report, whatever its steps name or miss,
    while a step that is not a mapping, once reached, makes the whole
    workflow raise [AttributeError], because the branch that records a
    failed step reads the step again. *)
Theorem workflow_steps_must_be_mappings (steps : list PyVal) :
  (Forall (fun step => Service.is_mapping step = true) steps ->
   exists r, Service._custom_workflow w self steps = Ok r) /\
  (forall pre step rest,
     steps = (pre ++ step :: rest)%list ->
     (forall j s,
        pre !! j = Some s ->
        exists rep,
          Service.run_step w self j s = Ok rep /\ Service.is_done rep = true) ->
     Service.is_mapping step = false ->
     Service._custom_workflow w self steps
     = Raise (AttributeError (Service.type_name step) "get")).
Proof.
  split.
  - intros Hall. unfold Service._custom_workflow.
    assert (forall i acc, exists rs,
              Service.run_steps w self i steps acc = Ok rs) as Hruns.
    { induction Hall as [| step rest Hstep _ IH]; intros i acc.
      - eexists. reflexivity.
      - destruct step; try discriminate Hstep.
        destruct (run_step_mapping i d) as (rep & Hrep).
        cbn [Service.run_steps]. rewrite Hrep. cbn [obind].
        destruct (Service.is_done rep); [apply IH | eauto]. }
    destruct (Hruns 0%nat []) as (rs & ->). cbn [obind]. eauto.
  - intros pre step rest -> Hpre Hstep. unfold Service._custom_workflow.
    assert (forall i acc,
              (forall j s,
                 pre !! j = Some s ->
                 exists rep,
                   Service.run_step w self (i + j) s = Ok rep /\
                   Service.is_done rep = true) ->
              Service.run_steps w self i (pre ++ step :: rest) acc
              = Raise (AttributeError (Service.type_name step) "get"))
      as Hruns.
    { clear Hpre. induction pre as [| s pre IH]; intros i acc Hpre.
      - cbn [app Service.run_steps].
        now rewrite (run_step_not_mapping i step Hstep).
      - cbn [app Service.run_steps].
        destruct (Hpre 0%nat s eq_refl) as (rep & Hrep & Hdone).
        rewrite Nat.add_0_r in Hrep. rewrite Hrep. cbn [obind].
        rewrite Hdone. apply IH. intros j s' Hj.
        replace (S i + j)%nat with (i + S j)%nat by lia.
        now apply Hpre. }
    rewrite (Hruns 0%nat [] Hpre). reflexivity.
Qed.

End CustomWorkflow.

Lemma workflow_stops_at_first_failure_witness :
  exists r,
    Service._custom_workflow Samples.world Samples.orchestrator
      Service.sample_workflow = Ok r /\
    Service.workflow_steps r = 3%nat /\
    Service.completed_steps r = 1%nat /\
    Service.success r = false.
Proof.
  destruct (Service._custom_workflow Samples.world Samples.orchestrator
              Service.sample_workflow) as [r | e] eqn:Hrun.
  - exists r. split; [reflexivity |].
    destruct (workflow_stops_at_first_failure Samples.world
                Samples.orchestrator Service.sample_workflow r Hrun)
      as (Hsteps & Hcompleted & _ & Hshape).
    split; [exact Hsteps |].
    vm_compute in Hrun. injection Hrun as <-. now split.
  - vm_compute in Hrun. discriminate.
Defined.

(** ** The retry loop of the remote client *)

Section RetryLoop.

Import Retry.

Variable max_retries : Z.
Variable model : nat -> ModelCall.

Lemma usable_text (c : ModelCall) :
  usable c = true ->
  exists text, c = Text text /\ String.eqb (strip text) "" = false.
Proof.
  destruct c as [text | | e]; try discriminate. simpl.
  intros H. exists text. split; [reflexivity |].
  now destruct (String.eqb (strip text) "").
Qed.

(** The loop answers with the first usable text among the attempts it
    has left. *)
Lemma attempts_first_usable (remaining attempt i : nat) (text : string) :
  (Z.of_nat attempt + Z.of_nat remaining = max_retries)%Z ->
  (attempt <= i < attempt + remaining)%nat ->
  model i = Text text ->
  String.eqb (strip text) "" = false ->
  (forall j, (attempt <= j < i)%nat -> usable (model j) = false) ->
  fst (attempts max_retries model remaining attempt) = Ok (strip text) /\
  calls (snd (attempts max_retries model remaining attempt))
  = seq attempt (S i - attempt).
Proof.
  revert attempt. induction remaining as [| remaining IH];
    intros attempt Hinv Hi Hmodel Htext Hbefore; [lia |].
  cbn [attempts].
  destruct (Nat.eq_dec attempt i) as [-> | Hne].
  - rewrite Hmodel, Htext. cbn [fst snd calls omap].
    replace (S i - i)%nat with 1%nat by lia. now split.
  - assert ((Z.of_nat attempt =? max_retries - 1)%Z = false) as ->
      by (apply Z.eqb_neq; lia).
    specialize (IH (S attempt)).
    destruct IH as [IH1 IH2]; [lia | lia | assumption | assumption | |].
    { intros j Hj. apply Hbefore. lia. }
    replace (S i - attempt)%nat with (S (S i - S attempt))%nat by lia.
    cbn [seq]. rewrite <- IH2.
    pose proof (Hbefore attempt ltac:(lia)) as Hnot.
    destruct (model attempt) as [t | | e].
    + simpl in Hnot. destruct (String.eqb (strip t) ""); [| discriminate].
      destruct (attempts max_retries model remaining (S attempt)) as [o trace].
      now split.
    + destruct (attempts max_retries model remaining (S attempt)) as [o trace].
      now split.
    + destruct (attempts max_retries model remaining (S attempt)) as [o trace].
      now destruct (is_timeout e).
Qed.


Lemma calls_call (k : nat) (trace : list Event) :
  calls (Call k :: trace) = k :: calls trace.
Proof. reflexivity. Qed.

Lemma calls_sleep (s : Z) (trace : list Event) :
  calls (Sleep s :: trace) = calls trace.
Proof. reflexivity. Qed.

Lemma seconds_waited_call (k : nat) (trace : list Event) :
  seconds_waited (Call k :: trace) = seconds_waited trace.
Proof. reflexivity. Qed.

Lemma seconds_waited_sleep (s : Z) (trace : list Event) :
  seconds_waited (Sleep s :: trace) = (s + seconds_waited trace)%Z.
Proof. reflexivity. Qed.

(** The calls and the waits of the loop are bounded, and it does not
    wait after a time limit. *)
Lemma attempts_bounded (remaining attempt : nat) :
  (Z.of_nat attempt + Z.of_nat remaining = max_retries)%Z ->
  (length (calls (snd (attempts max_retries model remaining attempt)))
   <= remaining)%nat /\
  (0 <= seconds_waited (snd (attempts max_retries model remaining attempt))
   <= 2 ^ Z.of_nat (attempt + Nat.pred remaining) - 2 ^ Z.of_nat attempt)%Z /\
  ((forall j, (attempt <= j < attempt + remaining)%nat -> model j = TimedOut) ->
   seconds_waited (snd (attempts max_retries model remaining attempt)) = 0%Z).
Proof.
  revert attempt. induction remaining as [| remaining IH]; intros attempt Hinv.
  - cbn. rewrite Nat.add_0_r. split; [lia |]. split; [lia | reflexivity].
  - assert (0 < 2 ^ Z.of_nat attempt)%Z as Hpos
      by (apply Z.pow_pos_nonneg; lia).
    cbn [attempts Nat.pred].
    destruct (Z.of_nat attempt =? max_retries - 1)%Z eqn:Hlast.
    + apply Z.eqb_eq in Hlast. assert (remaining = 0%nat) as -> by lia.
      rewrite Nat.add_0_r.
      destruct (model attempt) as [t | | e];
        [destruct (String.eqb (strip t) "") | | destruct (is_timeout e)];
        cbn; (split; [lia |]); (split; [lia | reflexivity]).
    + apply Z.eqb_neq in Hlast.
      destruct (IH (S attempt)) as (IHc & IHw & IHt); [lia |].
      assert (2 ^ Z.of_nat (S attempt + Nat.pred remaining)
              = 2 ^ Z.of_nat (attempt + remaining))%Z as Hsame
        by (f_equal; lia).
      assert (2 ^ Z.of_nat (S attempt) = 2 * 2 ^ Z.of_nat attempt)%Z as Hpow.
      { rewrite Nat2Z.inj_succ, Z.pow_succ_r by lia. reflexivity. }
      rewrite Hsame, Hpow in IHw.
      assert (2 ^ Z.of_nat attempt <= 2 ^ Z.of_nat (attempt + remaining))%Z
        as Hmono by (apply Z.pow_le_mono_r; lia).
      destruct (attempts max_retries model remaining (S attempt))
        as [o trace] eqn:Hrest.
      cbn [fst snd] in IHc, IHw, IHt.
      destruct (model attempt) as [t | | e] eqn:Hm.
      * destruct (String.eqb (strip t) "").
        -- cbn [fst snd].
           rewrite ?calls_call, ?calls_sleep, ?seconds_waited_call,
             ?seconds_waited_sleep, ?seconds_waited_call.
           split; [simpl; lia |]. split; [lia |]. intros Hall.
           pose proof (Hall attempt ltac:(lia)) as Hc. congruence.
        -- cbn. split; [lia |]. split; [lia |]. reflexivity.
      * cbn [fst snd].
        rewrite ?calls_call, ?calls_sleep, ?seconds_waited_call,
          ?seconds_waited_sleep, ?seconds_waited_call.
        split; [simpl; lia |]. split; [lia |]. intros Hall.
        apply IHt. intros j Hj. apply Hall. lia.
      * destruct (is_timeout e); cbn [fst snd];
          rewrite ?calls_call, ?calls_sleep, ?seconds_waited_call,
            ?seconds_waited_sleep, ?seconds_waited_call;
          (split; [simpl; lia |]); (split; [lia |]); intros Hall;
          pose proof (Hall attempt ltac:(lia)) as Hc; congruence.
Qed.

End RetryLoop.

(** X20.  [generate_content] returns the first usable text: if the
    client is initialised (or can be), and among the first
    [max_retries] calls of the model the call at index [i] is the first
    whose text is not blank, the result is that text, stripped, and the
    model was called [i + 1] times; time limits, exceptions and blank
    texts before it are retried. *)
Theorem generate_content_answers_first_usable_text (w : World)
  (initialized : bool) (max_retries : Z) (model : nat -> Retry.ModelCall)
  (i : nat) (text : string) :
  initialized = true \/ gemini_initialize w = Ok tt ->
  (Z.of_nat i < max_retries)%Z ->
  model i = Retry.Text text ->
  strip text <> "" ->
  (forall j, (j < i)%nat -> Retry.usable (model j) = false) ->
  fst (Retry.generate_content w initialized max_retries model)
  = Ok (strip text) /\
  Retry.calls (snd (Retry.generate_content w initialized max_retries model))
  = seq 0 (S i).
Proof.
  intros Hinit Hi Hmodel Htext Hbefore. unfold Retry.generate_content.
  assert ((if initialized then Ok tt else gemini_initialize w) = Ok tt) as ->.
  { destruct initialized; [reflexivity |].
    destruct Hinit as [Hinit | Hinit]; [discriminate | exact Hinit]. }
  replace (S i) with (S i - 0)%nat by lia.
  apply attempts_first_usable; try assumption; try lia.
  - now apply String.eqb_neq.
  - intros j Hj. apply Hbefore. lia.
Qed.

Lemma generate_content_answers_first_usable_text_witness :
  fst (Retry.generate_content Samples.world true 3 Retry.flaky_model)
  = Ok "{}" /\
  Retry.calls (snd (Retry.generate_content Samples.world true 3
                      Retry.flaky_model)) = [0; 1; 2]%nat.
Proof.
  apply (generate_content_answers_first_usable_text Samples.world true 3
           Retry.flaky_model 2 " {} ").
  - left. reflexivity.
  - lia.
  - reflexivity.
  - discriminate.
  - intros [| [| j]] Hj; [reflexivity | reflexivity | lia].
Defined.



(** X22.  The effort of [generate_content] is bounded, whatever the
    model does: it calls the model at most [max_retries] times and
    waits at most [2 ** (max_retries - 1) - 1] seconds in all between
    calls; it does not wait at all between calls that end in the time
    limit, and makes no call when the client cannot be initialised. *)
Theorem generate_content_effort_is_bounded (w : World)
  (initialized : bool) (max_retries : Z) (model : nat -> Retry.ModelCall) :
  (length (Retry.calls
             (snd (Retry.generate_content w initialized max_retries model)))
   <= Z.to_nat max_retries)%nat /\
  (0 <= Retry.seconds_waited
          (snd (Retry.generate_content w initialized max_retries model))
   <= 2 ^ (Z.max 1 max_retries - 1) - 1)%Z /\
  ((forall j, model j = Retry.TimedOut) ->
   Retry.seconds_waited
     (snd (Retry.generate_content w initialized max_retries model)) = 0%Z) /\
  (forall e,
     initialized = false -> gemini_initialize w = Raise e ->
     snd (Retry.generate_content w initialized max_retries model) = []).
Proof.
  unfold Retry.generate_content.
  assert (1 <= 2 ^ (Z.max 1 max_retries - 1))%Z as Hone.
  { change 1%Z with (2 ^ 0)%Z at 1. apply Z.pow_le_mono_r; lia. }
  destruct (if initialized then Ok tt else gemini_initialize w)
    as [[] | e0] eqn:Hinit.
  - destruct (Z_le_gt_dec max_retries 0) as [Hle | Hgt].
    + replace (Z.to_nat max_retries) with 0%nat by lia. cbn.
      split; [lia |]. split; [lia |]. split; [reflexivity |].
      intros e -> He. rewrite He in Hinit. discriminate.
    + destruct (attempts_bounded max_retries model (Z.to_nat max_retries) 0)
        as (Hc & Hw & Ht); [lia |].
      split; [exact Hc |]. split.
      * replace (2 ^ (Z.max 1 max_retries - 1))%Z
          with (2 ^ Z.of_nat (0 + Nat.pred (Z.to_nat max_retries)))%Z
          by (f_equal; lia).
        cbn in Hw |- *. lia.
      * split; [intros Hall; apply Ht; intros j _; apply Hall |].
        intros e -> He. rewrite He in Hinit. discriminate.
  - cbn. split; [lia |]. split; [lia |]. split; reflexivity.
Qed.

(** ** A cache that cannot hold anything *)

Section CacheLimit.

Lemma stats_incr_max_size (key : string) (self : PatternAnalyzer) :
  cache_max_size (snd (stats_incr key self)) = cache_max_size self.
Proof. unfold stats_incr. now destruct (stats self !! key). Qed.

Lemma initialize_max_size (w : World) (self : PatternAnalyzer) :
  cache_max_size (snd (initialize w self)) = cache_max_size self.
Proof.
  unfold initialize. destruct (initialized self); [reflexivity |].
  now destruct (gemini_initialize w).
Qed.

(** With a limit of zero or less nothing can be stored, so the stage
    that stores its answer does not return. *)
Lemma counted_stage_zero_limit (o : Outcome Analysis) (K key : string)
  (f : Analysis -> Analysis) (self : PatternAnalyzer) :
  (cache_max_size self <= 0)%Z ->
  is_ok (fst (bind (bind (lift o)
                      (fun r => bind (stats_incr K) (fun _ => ret (f r))))
                (fun result =>
                   bind (_cache_result key result) (fun _ => ret result))
                self)) = false.
Proof.
  intros Hmax. unfold bind, lift, ret. destruct o as [r | e]; [| reflexivity].
  pose proof (stats_incr_max_size K self) as Hsame.
  destruct (stats_incr K self) as [[[] | e] s1]; [| reflexivity].
  cbn [fst snd] in *. unfold _cache_result.
  rewrite evict_nonpositive by lia. reflexivity.
Qed.

Lemma analyze_uncached_zero_limit (w : World) (query : string)
  (context : list (string * PyVal)) (key : string) (self : PatternAnalyzer) :
  (cache_max_size self <= 0)%Z ->
  is_ok (fst (analyze_uncached w query context key self)) = false.
Proof.
  intros Hmax.
  remember (analyze_uncached w query context key self) as res eqn:Hres.
  unfold analyze_uncached in Hres. unfold bind at 1 2 in Hres.
  unfold get at 1 in Hres. cbn [fst snd] in Hres.
  destruct (llm_available self).
  - unfold bind at 1 in Hres. unfold attr_fallback_only in Hres.
    destruct (fallback_only self) as [[] |]; cbn [ret negb] in Hres;
      rewrite Hres; [| | reflexivity]; now apply counted_stage_zero_limit.
  - cbn [ret] in Hres. rewrite Hres. now apply counted_stage_zero_limit.
Qed.

(** X23.  A cache limit of zero or less disables the remote and the
    heuristic stage: storing an answer raises [StopIteration] once the
    cache is empty, inside the guarded part of [analyze_query], so a
    classification that returns and is not answered from the cache is
    the emergency analysis - both stores, confidence 0.5 - even when
    the stage computed its answer. *)
Theorem cache_limit_zero_disables_the_stages (w : World) (query : string)
  (context : option (list (string * PyVal))) (self : PatternAnalyzer)
  (a : Analysis) :
  (cache_max_size self <= 0)%Z ->
  fst (analyze_query w query context self) = Ok a ->
  (dict_has (analysis_cache self)
            (_generate_cache_key w query (default [] context)) = true /\
   analysis_method a = Some "cache") \/
  (dict_has (analysis_cache self)
            (_generate_cache_key w query (default [] context)) = false /\
   exists e,
     a = emergency_answer query context (exn_msg e)).
Proof.
  intros Hmax.
  remember (analyze_query w query context self) as res eqn:Hres.
  unfold analyze_query, bind, get, try_catch in Hres.
  cbn [fst snd] in Hres.
  match type of Hres with
  | context [let (_, _) := ?t in _] =>
      assert (analysis_cache (snd t) = analysis_cache self /\
              cache_max_size (snd t) = cache_max_size self) as Hinit;
      [ destruct (initialized self);
        [now split | split; [apply initialize_cache | apply initialize_max_size]]
      | destruct t as [[[] | e0] s0]; cbn [fst snd] in * ]
  end.
  2:{ rewrite Hres. intros [=]. }
  destruct Hinit as [Hcache0 Hmax0].
  pose proof (stats_incr_cache "total_queries" s0) as Hc1.
  pose proof (stats_incr_max_size "total_queries" s0) as Hm1.
  destruct (stats_incr "total_queries" s0) as [[[] | e1] s1];
    cbn [fst snd] in *.
  2:{ rewrite Hres. intros [=]. }
  rewrite Hc1, Hcache0 in Hres. unfold dict_has.
  destruct (dict_get (analysis_cache self) _) as [cached |].
  - destruct (stats_incr "cache_hits" s1) as [[[] | e2] s2];
      rewrite Hres; cbn [fst]; intros [= <-]. left. now split.
  - pose proof (analyze_uncached_zero_limit w query (default [] context)
                  (_generate_cache_key w query (default [] context)) s1
                  ltac:(lia)) as Hzero.
    destruct (analyze_uncached w query (default [] context)
                (_generate_cache_key w query (default [] context)) s1)
      as [[a' | e3] s3]; cbn [fst snd is_ok] in *; [discriminate |].
    unfold analyze_emergency, bind, ret in Hres.
    destruct (stats_incr "errors" s3) as [[[] | e4] s4];
      rewrite Hres; cbn [fst]; intros [= <-].
    right. split; [reflexivity |]. exists e3. reflexivity.
Qed.

Lemma cache_limit_zero_disables_the_stages_witness :
  exists r a,
    _analyze_with_llm Samples.world (Samples.analyzer_configured true 0)
      "show me the graph schema" [] = Ok r /\
    suggested_agents r = ["neo4j"] /\
    fst (analyze_query Samples.world "show me the graph schema" None
           (Samples.analyzer_configured true 0)) = Ok a /\
    a = emergency_answer "show me the graph schema" None "".
Proof.
  destruct (fst (analyze_query Samples.world "show me the graph schema" None
                   (Samples.analyzer_configured true 0))) as [a | e] eqn:Hrun.
  - destruct (cache_limit_zero_disables_the_stages Samples.world
                "show me the graph schema" None
                (Samples.analyzer_configured true 0) a ltac:(simpl; lia) Hrun)
      as [[Hhit _] | [_ (e & He)]]; [discriminate Hhit |].
    eexists. exists a. split; [vm_compute; reflexivity |].
    split; [reflexivity |]. split; [reflexivity |].
    vm_compute in Hrun. now injection Hrun as <-.
  - vm_compute in Hrun. discriminate.
Defined.

End CacheLimit.

(** ** The parallel and the hybrid engine *)

Section ParallelEngine.

Variables query_neo4j_natural query_postgres_natural : Translator.

(** What the parallel engine records for one agent. *)
Lemma parallel_shape (query : string) (a : Analysis)
  (context : list (string * PyVal)) :
  exists d,
    _execute_parallel query_neo4j_natural query_postgres_natural
      query a context
    = Ok {| results := ByAgent d; agents_used := dict_keys d;
            strategy := "parallel" |} /\
    dict_keys d
    = ((if list_in "neo4j" (suggested_agents a) then ["neo4j"] else [])
       ++ (if list_in "postgres" (suggested_agents a) then ["postgres"]
           else []))%list /\
    (forall x v,
       dict_get d x = Some v ->
       (x = "neo4j" /\
        v = match query_neo4j_natural query context with
            | Ok payload => payload
            | Raise e => PDict [("error", PStr (exn_msg e))]
            end) \/
       (x = "postgres" /\
        v = match query_postgres_natural query context with
            | Ok payload => payload
            | Raise e => PDict [("error", PStr (exn_msg e))]
            end)).
Proof.
  unfold _execute_parallel.
  exists ((if list_in "neo4j" (suggested_agents a)
           then [("neo4j",
                  match query_neo4j_natural query context with
                  | Ok payload => payload
                  | Raise e => PDict [("error", PStr (exn_msg e))]
                  end)]
           else [])
          ++ (if list_in "postgres" (suggested_agents a)
              then [("postgres",
                     match query_postgres_natural query context with
                     | Ok payload => payload
                     | Raise e => PDict [("error", PStr (exn_msg e))]
                     end)]
              else []))%list.
  destruct (list_in "neo4j" (suggested_agents a)),
    (list_in "postgres" (suggested_agents a));
    (split; [reflexivity |]); (split; [reflexivity |]);
    intros x v Hx; cbn [dict_get app] in Hx;
    repeat match type of Hx with
      | context [String.eqb ?k x] =>
          destruct (String.eqb_spec k x) as [<- | ?]
      end;
    try discriminate; injection Hx as <-; auto.
Qed.

(** X24.  The parallel engine never raises, whatever agents the
    analysis suggests.  It asks the graph agent and the relational
    agent when they are among the suggested agents, in this order and
    whatever the order of the suggestion, ignores every other name, and
    records for each agent asked its payload or, when its translator
    raised, an error entry; when neither agent is suggested the result
    is empty and no error is reported. *)
Theorem parallel_engine_never_raises (query : string) (a : Analysis)
  (context : list (string * PyVal)) :
  exists d,
    _execute_parallel query_neo4j_natural query_postgres_natural
      query a context
    = Ok {| results := ByAgent d; agents_used := dict_keys d;
            strategy := "parallel" |} /\
    dict_keys d
    = ((if list_in "neo4j" (suggested_agents a) then ["neo4j"] else [])
       ++ (if list_in "postgres" (suggested_agents a) then ["postgres"]
           else []))%list /\
    (forall x v,
       dict_get d x = Some v ->
       (x = "neo4j" /\
        v = match query_neo4j_natural query context with
            | Ok payload => payload
            | Raise e => PDict [("error", PStr (exn_msg e))]
            end) \/
       (x = "postgres" /\
        v = match query_postgres_natural query context with
            | Ok payload => payload
            | Raise e => PDict [("error", PStr (exn_msg e))]
            end)).
Proof. apply parallel_shape. Qed.

End ParallelEngine.

Section HybridEngine.

Variable w : World.
Variable self : OrchestratorAgent.

(** X25.  The hybrid engine never raises and lists its sources: its
    result is the merge of the parallel result, whose [sources] are the
    agents used, in order, and whose [data] are their entries; the merge
    holds one insight exactly when both agents answered with mappings
    that have [total_nodes] and [total_tables], and none otherwise. *)
Theorem hybrid_merge_lists_its_sources (query : string) (a : Analysis)
  (context : list (string * PyVal)) :
  exists d insights,
    _execute_hybrid w self query a context
    = Ok {| results :=
              Raw (PDict [("summary",
                           PStr "Datos combinados de múltiples fuentes");
                          ("sources", PList (map PStr (dict_keys d)));
                          ("data", PDict d);
                          ("insights", PList insights)]);
            agents_used := dict_keys d;
            strategy := "hybrid" |} /\
    execute_parallel w self query a context
    = Ok {| results := ByAgent d; agents_used := dict_keys d;
            strategy := "parallel" |} /\
    (length insights <= 1)%nat /\
    (insights <> [] <->
     exists neo4j_data postgres_data,
       dict_get d "neo4j" = Some neo4j_data /\
       dict_get d "postgres" = Some postgres_data /\
       is_Some (summary_field neo4j_data "total_nodes") /\
       is_Some (summary_field postgres_data "total_tables")).
Proof.
  unfold _execute_hybrid, execute_parallel.
  destruct (parallel_shape (_query_neo4j_natural w self)
              (_query_postgres_natural w self) query a context)
    as (d & -> & _ & _).
  cbn [obind results agents_used]. unfold _intelligent_merge.
  exists d. eexists. split; [reflexivity |]. split; [reflexivity |].
  destruct (dict_get d "neo4j") as [nd |];
    [destruct (dict_get d "postgres") as [pd |] |].
  - destruct (summary_field nd "total_nodes") as [nodes |] eqn:Hn;
      [destruct (summary_field pd "total_tables") as [tables |] eqn:Ht |].
    + split; [simpl; lia |]. split; [| discriminate].
      intros _. exists nd, pd. rewrite Hn, Ht. eauto.
    + split; [simpl; lia |]. split; [contradiction |].
      intros (nd' & pd' & [= <-] & [= <-] & _ & Hs). rewrite Ht in Hs.
      now destruct Hs.
    + split; [simpl; lia |]. split; [contradiction |].
      intros (nd' & pd' & [= <-] & [= <-] & Hs & _). rewrite Hn in Hs.
      now destruct Hs.
  - split; [simpl; lia |]. split; [contradiction |].
    intros (nd' & pd' & _ & [=] & _).
  - split; [simpl; lia |]. split; [contradiction |].
    intros (nd' & pd' & [=] & _).
Qed.

End HybridEngine.

(** ** Fenced replies *)

Import Parsing.

Section ReplyCleaning.

Lemma string_append_nil_l (s : string) : "" ++ s = s.
Proof. reflexivity. Qed.

Lemma string_append_cons (c : ascii) (a s : string) :
  String c a ++ s = String c (a ++ s).
Proof. reflexivity. Qed.

Lemma prefix_weaken (p q s : string) :
  String.prefix (p ++ q) s = true -> String.prefix p s = true.
Proof.
  revert s. induction p as [| c p IH]; intros s H.
  - now destruct s.
  - destruct s as [| c' s]; [discriminate |]. rewrite string_append_cons in H.
    simpl in *. destruct (ascii_dec c c'); [now apply IH | discriminate].
Qed.

Lemma prefix_app_l (p a b : string) :
  String.prefix p a = true -> String.prefix p (a ++ b) = true.
Proof.
  revert a. induction p as [| c p IH]; intros a H.
  - now destruct (a ++ b).
  - destruct a as [| c' a]; [discriminate |]. rewrite string_append_cons.
    simpl in *. destruct (ascii_dec c c'); [now apply IH | discriminate].
Qed.

Lemma first_index_app (c : ascii) (a b : string) :
  first_index c (a ++ b) =
  match first_index c a with
  | Some i => Some i
  | None => option_map (Nat.add (String.length a)) (first_index c b)
  end.
Proof.
  induction a as [| c' a IH].
  - rewrite string_append_nil_l. destruct (first_index c b); reflexivity.
  - rewrite string_append_cons. cbn [first_index String.length].
    destruct (Ascii.eqb c' c); [reflexivity |]. rewrite IH.
    destruct (first_index c a); [reflexivity |].
    destruct (first_index c b); reflexivity.
Qed.

Lemma last_index_app (c : ascii) (a b : string) :
  last_index c (a ++ b) =
  match last_index c b with
  | Some i => Some (String.length a + i)%nat
  | None => last_index c a
  end.
Proof.
  induction a as [| c' a IH].
  - rewrite string_append_nil_l. destruct (last_index c b); reflexivity.
  - rewrite string_append_cons. cbn [last_index String.length]. rewrite IH.
    destruct (last_index c b); reflexivity.
Qed.

Lemma substring_skip (a s : string) (n : nat) :
  substring (String.length a) n (a ++ s) = substring 0 n s.
Proof.
  induction a as [| c a IH]; [reflexivity |].
  rewrite string_append_cons. exact IH.
Qed.

Lemma substring_take (b c : string) :
  substring 0 (String.length b) (b ++ c) = b.
Proof.
  induction b as [| ch b IH].
  - rewrite string_append_nil_l. now destruct c.
  - rewrite string_append_cons. cbn [String.length substring]. now rewrite IH.
Qed.

Lemma string_length_app (a b : string) :
  String.length (a ++ b) = (String.length a + String.length b)%nat.
Proof.
  induction a as [| c a IH]; [reflexivity |].
  rewrite string_append_cons. cbn [String.length]. now rewrite IH.
Qed.

Lemma string_append_assoc (a b c : string) : (a ++ b) ++ c = a ++ b ++ c.
Proof.
  induction a as [| ch a IH]; [reflexivity |].
  rewrite !string_append_cons. now rewrite IH.
Qed.

Lemma slice_middle (a b c : string) :
  slice (a ++ b ++ c) (Z.of_nat (String.length a))
        (Z.of_nat (String.length a + String.length b)) = b.
Proof.
  unfold slice. rewrite !string_length_app.
  destruct (Z.ltb_spec (Z.of_nat (String.length a)) 0); [lia |].
  destruct (Z.ltb_spec (Z.of_nat (String.length a + String.length b)) 0);
    [lia |].
  rewrite !Z.min_l by lia.
  destruct (Z.leb_spec (Z.of_nat (String.length a + String.length b))
              (Z.of_nat (String.length a))) as [Hle | Hlt].
  - assert (String.length b = 0%nat) as Hb by lia.
    now destruct b.
  - rewrite Nat2Z.id.
    replace (Z.to_nat (Z.of_nat (String.length a + String.length b)
                       - Z.of_nat (String.length a)))
      with (String.length b) by lia.
    now rewrite substring_skip, substring_take.
Qed.

(** X26.  A reply fenced as a [json] code block is reduced to the text
    between its first opening and its last closing brace before it is
    parsed, whatever surrounds the braces; when the fenced text holds
    no brace at all - a JSON array or number, say - the parser is
    handed the empty text, so such a reply is never parsed. *)
Theorem json_fence_is_cut_at_the_braces
  (json_loads : string -> Outcome PyVal) (response rest : string) :
  strip response = "```json" ++ rest ->
  (forall head mid tail,
     rest = head ++ "{" ++ mid ++ "}" ++ tail ->
     first_index "{" head = None ->
     last_index "}" tail = None ->
     clean_response response = "{" ++ mid ++ "}" /\
     forall result,
       json_loads ("{" ++ mid ++ "}") = Ok result ->
       _parse_analysis_response json_loads response = Ok result) /\
  (first_index "{" rest = None ->
   last_index "}" rest = None ->
   clean_response response = "" /\
   forall e,
     json_loads "" = Raise e ->
     exn_class e = "JSONDecodeError" ->
     _parse_analysis_response json_loads response
     = Raise (ValueError "Respuesta inválida del LLM: no es JSON válido")).
Proof.
  intros Hstrip.
  assert ((forall head mid tail,
             rest = head ++ "{" ++ mid ++ "}" ++ tail ->
             first_index "{" head = None ->
             last_index "}" tail = None ->
             clean_response response = "{" ++ mid ++ "}") /\
          (first_index "{" rest = None ->
           last_index "}" rest = None ->
           clean_response response = "")) as [Hcut Hnone];
    [| split;
       [ intros head mid tail Hrest Hhead Htail;
         pose proof (Hcut head mid tail Hrest Hhead Htail) as Hclean;
         split; [exact Hclean |];
         intros result Hparse; unfold _parse_analysis_response;
         now rewrite Hclean, Hparse
       | intros Hopen Hclose; pose proof (Hnone Hopen Hclose) as Hclean;
         split; [exact Hclean |];
         intros e Hparse Hclass; unfold _parse_analysis_response;
         now rewrite Hclean, Hparse, Hclass ] ].
  unfold clean_response. rewrite Hstrip.
  assert (String.prefix "```json" ("```json" ++ rest) = true) as ->.
  { apply prefix_app_l. reflexivity. }
  split.
  - intros head mid tail -> Hhead Htail.
    assert (find "{" ("```json" ++ head ++ "{" ++ mid ++ "}" ++ tail)
            = Z.of_nat (String.length ("```json" ++ head))) as ->.
    { unfold find. rewrite <- (string_append_assoc "```json" head).
      rewrite first_index_app.
      rewrite (first_index_app "{" "```json" head), Hhead.
      change ("{" ++ mid ++ "}" ++ tail) with (String "{" (mid ++ "}" ++ tail)).
      cbn. now rewrite Nat.add_0_r. }
    assert (rfind "}" ("```json" ++ head ++ "{" ++ mid ++ "}" ++ tail)
            = Z.of_nat (String.length ("```json" ++ head)
                        + String.length ("{" ++ mid))) as ->.
    { unfold rfind. rewrite <- (string_append_assoc "```json" head).
      rewrite <- (string_append_assoc "{" mid).
      rewrite <- (string_append_assoc ("```json" ++ head) ("{" ++ mid)).
      rewrite last_index_app.
      change ("}" ++ tail) with (String "}" tail).
      cbn [last_index]. rewrite Htail. cbn [Ascii.eqb Bool.eqb py_index].
      rewrite string_length_app. f_equal. lia. }
    rewrite <- (string_append_assoc "```json" head).
    rewrite <- (string_append_assoc "{" mid), <- (string_append_assoc ("{" ++ mid) "}").
    replace (Z.of_nat (String.length ("```json" ++ head)
                       + String.length ("{" ++ mid)) + 1)%Z
      with (Z.of_nat (String.length ("```json" ++ head)
                      + String.length (("{" ++ mid) ++ "}"))).
    + rewrite (string_append_assoc "{" mid "}"). apply slice_middle.
    + rewrite (string_length_app ("{" ++ mid) "}"). cbn [String.length]. lia.
  - intros Hopen Hclose.
    unfold find, rfind.
    rewrite first_index_app, last_index_app, Hopen, Hclose.
    cbn [first_index last_index Ascii.eqb Bool.eqb option_map py_index].
    unfold slice. rewrite string_length_app.
    change (String.length "```json") with 7%nat.
    destruct (Z.ltb_spec (-1) 0) as [_ | ?]; [| lia].
    destruct (Z.ltb_spec (-1 + 1) 0) as [? | _]; [lia |].
    destruct (Z.leb_spec
                (Z.min (-1 + 1) (Z.of_nat (7 + String.length rest)))
                (Z.max 0 (-1 + Z.of_nat (7 + String.length rest))));
      [reflexivity | lia].
Qed.

Lemma split_lines_nonempty (s : string) : split_lines s <> [].
Proof.
  induction s as [| c s IH]; [discriminate |].
  cbn [split_lines]. destruct (split_lines s) as [| line rest]; [discriminate |].
  destruct (Ascii.eqb c newline); discriminate.
Qed.

Lemma split_lines_single (a : string) :
  first_index newline a = None -> split_lines a = [a].
Proof.
  induction a as [| c a IH]; [reflexivity |].
  cbn [first_index split_lines].
  destruct (Ascii.eqb c newline); [discriminate |].
  destruct (first_index newline a); [discriminate |].
  intros _. now rewrite IH.
Qed.

Lemma split_lines_first (a s : string) :
  first_index newline a = None ->
  split_lines (a ++ nl ++ s) = a :: split_lines s.
Proof.
  induction a as [| c a IH].
  - intros _. change ("" ++ nl ++ s) with (String newline s).
    cbn [split_lines]. pose proof (split_lines_nonempty s).
    destruct (split_lines s); [contradiction | reflexivity].
  - rewrite string_append_cons. cbn [first_index split_lines].
    destruct (Ascii.eqb c newline); [discriminate |].
    destruct (first_index newline a); [discriminate |].
    intros _. now rewrite IH.
Qed.

Lemma fence_lines_are_dropped (body : list string) :
  Forall (fun line =>
            first_index newline line = None /\ json_line line = true) body ->
  List.filter json_line (split_lines (String.concat nl body ++ nl ++ "```"))
  = body.
Proof.
  induction 1 as [| x rest [Hx Hkeep] Hrest IH]; [reflexivity |].
  destruct rest as [| y rest].
  - cbn [String.concat]. rewrite split_lines_first by exact Hx.
    cbn [split_lines List.filter]. rewrite Hkeep. reflexivity.
  - change (String.concat nl (x :: y :: rest))
      with (x ++ nl ++ String.concat nl (y :: rest)).
    rewrite string_append_assoc, string_append_assoc.
    rewrite split_lines_first by exact Hx.
    cbn [List.filter]. rewrite Hkeep. now rewrite IH.
Qed.

(** X27.  A reply fenced as a code block of another kind keeps its
    body: the lines that are not blank and do not start with the fence
    are joined again and handed to the parser, so a block whose body
    lines are all of this kind is parsed as its body (the fence lines,
    whatever language they name, are dropped). *)
Theorem generic_fence_keeps_the_body_lines
  (json_loads : string -> Outcome PyVal) (response fence : string)
  (body : list string) :
  strip response = fence ++ nl ++ String.concat nl body ++ nl ++ "```" ->
  String.prefix "```json" (strip response) = false ->
  String.prefix "```" fence = true ->
  first_index newline fence = None ->
  Forall (fun line =>
            first_index newline line = None /\ json_line line = true) body ->
  clean_response response = String.concat nl body /\
  forall result,
    json_loads (String.concat nl body) = Ok result ->
    _parse_analysis_response json_loads response = Ok result.
Proof.
  intros Hstrip Hjson Hfence Hline Hbody.
  assert (clean_response response = String.concat nl body) as Hclean.
  { unfold clean_response. rewrite Hjson. rewrite Hstrip.
    rewrite (prefix_app_l _ _ _ Hfence).
    rewrite split_lines_first by exact Hline.
    cbn [List.filter]. unfold json_line at 1. rewrite Hfence.
    rewrite andb_false_r. now rewrite fence_lines_are_dropped. }
  split; [exact Hclean |].
  intros result Hparse. unfold _parse_analysis_response.
  now rewrite Hclean, Hparse.
Qed.

End ReplyCleaning.

Lemma json_fence_is_cut_at_the_braces_witness :
  clean_response
    ("```json" ++ nl ++ "Result: {a: {b: 1}} done" ++ nl ++ "```" ++ nl)
  = "{a: {b: 1}}".
Proof.
  apply (proj1 (json_fence_is_cut_at_the_braces (fun _ => Ok PNone)
                  ("```json" ++ nl ++ "Result: {a: {b: 1}} done" ++ nl
                   ++ "```" ++ nl)
                  (nl ++ "Result: {a: {b: 1}} done" ++ nl ++ "```")
                  eq_refl)
               (nl ++ "Result: ") "a: {b: 1}" (" done" ++ nl ++ "```")
               eq_refl eq_refl eq_refl).
Defined.

Lemma generic_fence_keeps_the_body_lines_witness :
  clean_response
    ("```javascript" ++ nl ++ "{" ++ nl ++ "  a: 1" ++ nl ++ "}" ++ nl ++ "```")
  = "{" ++ nl ++ "  a: 1" ++ nl ++ "}".
Proof.
  apply (generic_fence_keeps_the_body_lines (fun _ => Ok PNone)
           ("```javascript" ++ nl ++ "{" ++ nl ++ "  a: 1" ++ nl ++ "}" ++ nl
            ++ "```")
           "```javascript" ["{"; "  a: 1"; "}"]);
    try reflexivity.
  repeat constructor.
Defined.
